(** * tablespec: the GX constraint extractor and its regex sample generator

    A shallow embedding of [src/tablespec/gx_constraint_extractor.py]
    (class [GXConstraintExtractor]) and the properties of it that the
    specification states.

    Conventions of the embedding.
    - A Python [str] is a Rocq [string]; the model covers ASCII text
      (code points below 128), which is where [upper], [strip], [split]
      and [int] are modelled exactly.
    - A Python [int] is a [Z]; an index into a string is a [nat].
    - The process-wide random source is a tape of raw draws threaded through
      a state-and-exception monad [M]; [random.randint] and [random.choice]
      each consume one draw.
    - A parsed YAML document is a [PyVal]; the dictionaries the extractor
      builds are stdpp [gmap]s. *)

From Stdlib Require Import ZArith String Ascii List Lia Bool DecimalString.
From stdpp Require Import base option list strings gmap fin_maps.

Local Open Scope string_scope.
Local Open Scope list_scope.

(** ** Exceptions and outcomes *)

Inductive exn : Type :=
| ValueError
| TypeError
| AttributeError
| IndexError
| KeyError.

(** The outcome of running a piece of Python: a value, a raised exception,
    or (for the fuel-bounded loop only) fuel exhausted. *)
Inductive outcome (A : Type) : Type :=
| Ok (a : A)
| Raise (e : exn)
| OutOfFuel.

Arguments Ok {A} a.
Arguments Raise {A} e.
Arguments OutOfFuel {A}.

(** ** Python string operations *)

Module PyStr.

Definition len (s : string) : nat := String.length s.

(** [s[a:b]] for [0 <= a], clamped at the end of [s] as Python does. *)
Definition slice (s : string) (a b : nat) : string := substring a (b - a) s.

(** [s.find(sub, start)]: [None] stands for [-1]. *)
Definition find (sub s : string) (start : nat) : option nat := index start sub s.

(** [sub in s] *)
Definition contains (sub s : string) : bool :=
  match index 0 sub s with Some _ => true | None => false end.

Definition nonempty (s : string) : bool :=
  match s with EmptyString => false | String _ _ => true end.

Definition char_in (c : ascii) (set : string) : bool :=
  existsb (Ascii.eqb c) (list_ascii_of_string set).

(** The characters of a string, each as a one-character string: what
    iterating over a [str] yields. *)
Fixpoint chars (s : string) : list string :=
  match s with
  | EmptyString => []
  | String c s' => String c EmptyString :: chars s'
  end.

(** [str.isspace] on ASCII: TAB, LF, VT, FF, CR, FS, GS, RS, US, SPACE. *)
Definition isspace (c : ascii) : bool :=
  let n := nat_of_ascii c in
  (((9 <=? n) && (n <=? 13)) || ((28 <=? n) && (n <=? 32)))%nat.

Fixpoint lstrip_by (p : ascii -> bool) (s : string) : string :=
  match s with
  | EmptyString => EmptyString
  | String c s' => if p c then lstrip_by p s' else s
  end.

Fixpoint rstrip_by (p : ascii -> bool) (s : string) : string :=
  match s with
  | EmptyString => EmptyString
  | String c s' =>
      match rstrip_by p s' with
      | EmptyString => if p c then EmptyString else String c EmptyString
      | r => String c r
      end
  end.

Definition strip_by (p : ascii -> bool) (s : string) : string :=
  rstrip_by p (lstrip_by p s).

(** [s.strip()] *)
Definition strip (s : string) : string := strip_by isspace s.

(** [s.strip(set)] *)
Definition strip_chars (set : string) (s : string) : string :=
  strip_by (fun c => char_in c set) s.

(** [s.split(sep)] for a non-empty separator: leftmost, non-overlapping
    occurrences.  [skip] counts the characters of a matched separator
    still to be passed over; [cur] is the piece being collected. *)
Fixpoint split_go (sep : string) (skip : nat) (cur : string) (s : string)
  : list string :=
  match s with
  | EmptyString => [cur]
  | String c s' =>
      match skip with
      | S k => split_go sep k cur s'
      | O =>
          if String.prefix sep s
          then cur :: split_go sep (len sep - 1) EmptyString s'
          else split_go sep 0 (cur +:+ String c EmptyString) s'
      end
  end.

Definition split (sep s : string) : list string := split_go sep 0 EmptyString s.

(** [s.split()]: runs of whitespace separate, empty pieces are dropped. *)
Fixpoint split_ws_go (cur : string) (s : string) : list string :=
  match s with
  | EmptyString => if nonempty cur then [cur] else []
  | String c s' =>
      if isspace c
      then (if nonempty cur then cur :: split_ws_go EmptyString s'
            else split_ws_go EmptyString s')
      else split_ws_go (cur +:+ String c EmptyString) s'
  end.

Definition split_ws (s : string) : list string := split_ws_go EmptyString s.

Definition upper_char (c : ascii) : ascii :=
  let n := nat_of_ascii c in
  if ((97 <=? n) && (n <=? 122))%nat then ascii_of_nat (n - 32) else c.

(** [s.upper()] *)
Fixpoint upper (s : string) : string :=
  match s with
  | EmptyString => EmptyString
  | String c s' => String (upper_char c) (upper s')
  end.

(** The decimal text of an [int]: what [str(z)] gives below the limit on
    the number of digits, see [str_int]. *)
Definition of_int (z : Z) : string := NilZero.string_of_int (Z.to_int z).

(** *** [int(s)]

    Base-10 parsing as CPython does it for an ASCII string: surrounding
    whitespace (TAB, LF, VT, FF, CR, SPACE) is dropped, one sign is
    allowed, single underscores may stand between digits, and a literal
    of more than 4300 digits is refused.  [None] is [ValueError]. *)

Definition int_space (c : ascii) : bool :=
  let n := nat_of_ascii c in
  (((9 <=? n) && (n <=? 13)) || (n =? 32))%nat.

Definition digit_val (c : ascii) : option Z :=
  let n := nat_of_ascii c in
  if ((48 <=? n) && (n <=? 57))%nat then Some (Z.of_nat (n - 48)) else None.

Definition int_max_str_digits : nat := 4300.

Fixpoint int_digits (acc : Z) (ndigits : nat) (after_digit : bool) (s : string)
  : option (Z * nat) :=
  match s with
  | EmptyString => if after_digit then Some (acc, ndigits) else None
  | String c s' =>
      match digit_val c with
      | Some d => int_digits (10 * acc + d)%Z (S ndigits) true s'
      | None =>
          if Ascii.eqb c "_" && after_digit
          then int_digits acc ndigits false s'
          else None
      end
  end.

Definition int_unsigned (s : string) : option Z :=
  match int_digits 0 0 false s with
  | Some (v, n) => if (int_max_str_digits <? n)%nat then None else Some v
  | None => None
  end.

Definition int (s : string) : option Z :=
  match strip_by int_space s with
  | String "+" r => int_unsigned r
  | String "-" r => option_map Z.opp (int_unsigned r)
  | r => int_unsigned r
  end.

(** [str(z)] for an [int], with the limit CPython puts on the conversion:
    a number of more than 4300 digits, the sign not counted, is refused.
    [None] is [ValueError]. *)
Definition str_int (z : Z) : option string :=
  if (int_max_str_digits <? len (of_int (Z.abs z)))%nat then None
  else Some (of_int z).

Definition ascii_uppercase : string := "ABCDEFGHIJKLMNOPQRSTUVWXYZ".
Definition ascii_lowercase : string := "abcdefghijklmnopqrstuvwxyz".
Definition ascii_letters : string := ascii_lowercase +:+ ascii_uppercase.
Definition digits : string := "0123456789".

End PyStr.

(** ** The random source and the monad of the generator *)

(** The tape holds the raw draws still to come; an exhausted tape yields 0.
    Every run consumes finitely many draws, so quantifying over all tapes
    covers every behaviour of the random source. *)
Definition tape : Type := list nat.

Definition M (A : Type) : Type := tape -> outcome A * tape.

Definition ret {A} (a : A) : M A := fun t => (Ok a, t).

Definition raise {A} (e : exn) : M A := fun t => (Raise e, t).

Definition bind {A B} (m : M A) (f : A -> M B) : M B :=
  fun t =>
    match m t with
    | (Ok a, t') => f a t'
    | (Raise e, t') => (Raise e, t')
    | (OutOfFuel, t') => (OutOfFuel, t')
    end.

Notation "'let*' x := m 'in' k" := (bind m (fun x => k))
  (at level 10, x name, m at level 100, k at level 200).
Notation "'let*' ' p := m 'in' k" := (bind m (fun x => let 'p := x in k))
  (at level 10, p pattern, m at level 100, k at level 200).

(** [try: body  except ValueError: handler] *)
Definition try_except_ValueError {A} (body handler : M A) : M A :=
  fun t =>
    match body t with
    | (Raise ValueError, t') => handler t'
    | r => r
    end.

Definition draw (t : tape) : nat * tape := (hd 0 t, tl t).

(** The member of [a..b] that the raw draw [r] selects; every member is
    selected by exactly one residue of [r] modulo the size of the range, so
    a uniform raw draw gives a uniform member. *)
Definition randint_value (a b : Z) (r : nat) : Z :=
  (a + Z.of_nat r mod (b - a + 1))%Z.

(** [random.randint(a, b)]: [ValueError] on an empty range, otherwise the
    raw draw reduced into [a..b]. *)
Definition randint (a b : Z) : M Z :=
  fun t =>
    if (b <? a)%Z then (Raise ValueError, t)
    else let (r, t') := draw t in (Ok (randint_value a b r), t').

(** The element of the non-empty sequence [x :: seq] that the raw draw [r]
    selects. *)
Definition choice_value {A} (x : A) (seq : list A) (r : nat) : A :=
  nth (r mod length (x :: seq)) (x :: seq) x.

(** [random.choice(seq)]: [IndexError] on an empty sequence. *)
Definition choice {A} (seq : list A) : M A :=
  fun t =>
    match seq with
    | [] => (Raise IndexError, t)
    | x :: seq' => let (r, t') := draw t in (Ok (choice_value x seq' r), t')
    end.

(** [int(s)] as a computation. *)
Definition int_ (s : string) : M Z :=
  match PyStr.int s with
  | Some z => ret z
  | None => raise ValueError
  end.

(** [s[i]] as a one-character string: [IndexError] out of range. *)
Definition getitem (s : string) (i : nat) : M string :=
  match String.get i s with
  | Some c => ret (String c EmptyString)
  | None => raise IndexError
  end.

(** ** The sample generator *)

(** [str(random.randint(0, 9))], lines 447 and 507. *)
Definition random_digit : M string :=
  let* d := randint 0 9 in ret (PyStr.of_int d).

(** [_generate_char_from_class], lines 489-520. *)
Definition _generate_char_from_class (char_class : string) : M string :=
  if PyStr.contains "A-Z" char_class then
    choice (PyStr.chars PyStr.ascii_uppercase)
  else if PyStr.contains "a-z" char_class then
    choice (PyStr.chars PyStr.ascii_lowercase)
  else if PyStr.contains "0-9" char_class then
    random_digit
  else
    let chars :=
      (if PyStr.contains "A-Z" char_class || PyStr.contains "a-z" char_class
       then PyStr.chars PyStr.ascii_letters else [])
      ++ (if PyStr.contains "0-9" char_class
          then PyStr.chars PyStr.digits else []) in
    match chars with
    | _ :: _ => choice chars
    | [] =>
        if PyStr.nonempty char_class then choice (PyStr.chars char_class)
        else ret "X"
    end.

(** The body of the [try] block that reads a brace quantifier, lines
    367-380 (and again, letter for letter, 416-427): the repetition count
    that the text between the braces stands for. *)
Definition brace_repetition (quant_str : string) : M Z :=
  if PyStr.contains "," quant_str then
    let parts := PyStr.split "," quant_str in
    let* min_val := int_ (nth 0 parts "") in
    if (1 <? length parts)%nat && PyStr.nonempty (PyStr.strip (nth 1 parts ""))
    then let* max_val := int_ (nth 1 parts "") in randint min_val max_val
    else randint min_val (min_val + 5)
  else int_ quant_str.

(** The quantifier that follows a character class or a [\d], lines 357-397
    (and 406-444): the repetition count and the cursor after the quantifier. *)
Definition quantifier_after (pattern : string) (next_pos : nat) : M (Z * nat) :=
  if (next_pos <? PyStr.len pattern)%nat then
    let* c := getitem pattern next_pos in
    if String.eqb c "{" then
      match PyStr.find "}" pattern next_pos with
      | Some end_brace =>
          let quant_str := PyStr.slice pattern (next_pos + 1) end_brace in
          try_except_ValueError
            (let* repetition := brace_repetition quant_str in
             ret (repetition, end_brace + 1))
            (ret (1%Z, next_pos))
      | None => ret (1%Z, next_pos)
      end
    else if String.eqb c "+" then
      let* repetition := randint 3 10 in ret (repetition, next_pos + 1)
    else if String.eqb c "?" then
      let* repetition := choice [0%Z; 1%Z] in ret (repetition, next_pos + 1)
    else ret (1%Z, next_pos)
  else ret (1%Z, next_pos).

(** The quantifier that follows a parenthesized group, lines 458-471. *)
Definition group_quantifier (pattern : string) (next_pos : nat) : M (Z * nat) :=
  if (next_pos <? PyStr.len pattern)%nat then
    let* c := getitem pattern next_pos in
    if String.eqb c "+" then
      let* repetition := randint 1 3 in ret (repetition, next_pos + 1)
    else if String.eqb c "?" then
      let* repetition := choice [0%Z; 1%Z] in ret (repetition, next_pos + 1)
    else ret (1%Z, next_pos)
  else ret (1%Z, next_pos).

(** [for _ in range(n): result.append(gen())].  The list [result] of the
    source is only ever joined at the end, so it is kept as the joined
    string. *)
Fixpoint append_times (n : nat) (gen : M string) (result : string) : M string :=
  match n with
  | O => ret result
  | S n' => let* piece := gen in append_times n' gen (result +:+ piece)
  end.

(** [range(z)] runs [z] times, and not at all for [z <= 0]. *)
Definition range_len (z : Z) : nat := Z.to_nat z.

(** One pass through the body of the [while] loop, lines 337-485, at cursor
    [i < len(pattern)]: the new cursor and the extended result.  [recur] is
    the recursive call [self.generate_value_from_regex]. *)
Definition dispatch (recur : string -> M string)
    (pattern : string) (i : nat) (result : string) : M (nat * string) :=
  let* backslash :=
    (if (i + 1 <? PyStr.len pattern)%nat
     then let* c := getitem pattern i in ret (String.eqb c "\")
     else ret false) in
  let* escaped_dot :=
    (if (backslash : bool)
     then let* next_char := getitem pattern (i + 1) in
          ret (String.eqb next_char ".")
     else ret false) in
  if (escaped_dot : bool) then ret (i + 2, result +:+ ".")
  else
    let* c := getitem pattern i in
    if String.eqb c "[" then
      match PyStr.find "]" pattern i with
      | None => ret (i + 1, result)
      | Some end_bracket =>
          let char_class := PyStr.slice pattern (i + 1) end_bracket in
          let* '(repetition, i') := quantifier_after pattern (end_bracket + 1) in
          let* result' :=
            append_times (range_len repetition)
                         (_generate_char_from_class char_class) result in
          ret (i', result')
      end
    else if String.eqb (PyStr.slice pattern i (i + 2)) "\d" then
      let* '(repetition, i') := quantifier_after pattern (i + 2) in
      let* result' :=
        append_times (range_len repetition) random_digit result in
      ret (i', result')
    else if String.eqb c "(" then
      match PyStr.find ")" pattern i with
      | Some end_paren =>
          let group_content := PyStr.slice pattern (i + 1) end_paren in
          let* group_result := recur group_content in
          let* '(repetition, i') := group_quantifier pattern (end_paren + 1) in
          let* result' :=
            append_times (range_len repetition) (ret group_result) result in
          ret (i', result')
      | None => ret (i + 1, result)
      end
    else if PyStr.contains c ".*|" then ret (i + 1, result)
    else ret (i + 1, result +:+ c).

(** The [while i < len(pattern)] loop.  Each unit of [fuel] pays for one
    test of the loop condition; the recursive call for a group runs on the
    fuel that is left. *)
Fixpoint scan (fuel : nat) (pattern : string) (i : nat) (result : string)
  : M string :=
  match fuel with
  | O => fun t => (OutOfFuel, t)
  | S fuel' =>
      if (i <? PyStr.len pattern)%nat then
        let* '(i', result') :=
          dispatch (fun group_content =>
                      scan fuel' (PyStr.strip_chars "^$" group_content) 0 "")
                   pattern i result in
        scan fuel' pattern i' result'
      else ret result
  end.

(** [generate_value_from_regex], lines 311-487, with fuel for
    [len(pattern)] passes through the loop and the final test. *)
Definition generate_value_from_regex (regex_pattern : string) : M string :=
  let pattern := PyStr.strip_chars "^$" regex_pattern in
  scan (S (PyStr.len pattern)) pattern 0 "".

(** The recursive call as the loop makes it with [fuel] left. *)
Definition group_call (fuel : nat) : string -> M string :=
  fun group_content => scan fuel (PyStr.strip_chars "^$" group_content) 0 "".

(** [c in l] for a list of strings. *)
Definition member (c : string) (l : list string) : bool :=
  existsb (String.eqb c) l.

(** ** Parsed documents *)

(** A value of a parsed YAML document.  Mappings have string keys, as the
    annotation [dict[str, Any]] of the source says, and are kept as
    association lists in document order; a key is looked up at its first
    binding. *)
#[warnings="-register-all"]
Inductive PyVal : Type :=
| PNone
| PBool (b : bool)
| PInt (z : Z)
| PStr (s : string)
| PList (l : list PyVal)
| PDict (d : list (string * PyVal)).

(** The computations of the extractor raise or return; they draw nothing. *)
Definition R (A : Type) : Type := outcome A.

Definition bindR {A B} (m : R A) (f : A -> R B) : R B :=
  match m with
  | Ok a => f a
  | Raise e => Raise e
  | OutOfFuel => OutOfFuel
  end.

Notation "'let?' x := m 'in' k" := (bindR m (fun x => k))
  (at level 10, x name, m at level 100, k at level 200).
Notation "'let?' ' p := m 'in' k" := (bindR m (fun x => let 'p := x in k))
  (at level 10, p pattern, m at level 100, k at level 200).

(** [[f(x) for x in l]]: the calls are made from left to right, and the
    first one that raises ends the comprehension. *)
Definition map_R {A B : Type} (f : A -> R B) : list A -> R (list B) :=
  fix go (l : list A) : R (list B) :=
    match l with
    | [] => Ok []
    | x :: l' => let? y := f x in let? ys := go l' in Ok (y :: ys)
    end.

Module Py.

(** [bool(v)] *)
Definition truthy (v : PyVal) : bool :=
  match v with
  | PNone => false
  | PBool b => b
  | PInt z => negb (z =? 0)%Z
  | PStr s => PyStr.nonempty s
  | PList l => match l with [] => false | _ :: _ => true end
  | PDict d => match d with [] => false | _ :: _ => true end
  end.

Fixpoint dict_lookup (key : string) (d : list (string * PyVal)) : option PyVal :=
  match d with
  | [] => None
  | (k, v) :: d' => if String.eqb k key then Some v else dict_lookup key d'
  end.

(** [v.get(key, default)]: only a mapping has [get]. *)
Definition get (v : PyVal) (key : string) (default : PyVal) : R PyVal :=
  match v with
  | PDict d =>
      Ok (match dict_lookup key d with Some x => x | None => default end)
  | _ => Raise AttributeError
  end.

(** [v == s] for a string [s] *)
Definition eq_str (v : PyVal) (s : string) : bool :=
  match v with
  | PStr s' => String.eqb s' s
  | _ => false
  end.

(** [key in v] for a string [key]: a key of a mapping, an element of a
    list, a substring of a string; [TypeError] for the rest. *)
Definition contains (key : string) (v : PyVal) : R bool :=
  match v with
  | PDict d => Ok (match dict_lookup key d with Some _ => true | None => false end)
  | PList l => Ok (existsb (fun x => eq_str x key) l)
  | PStr s => Ok (PyStr.contains key s)
  | _ => Raise TypeError
  end.

(** [v[key]] for a string [key]: [KeyError] for a mapping without the
    key, [TypeError] for everything that is no mapping. *)
Definition getitem (v : PyVal) (key : string) : R PyVal :=
  match v with
  | PDict d =>
      match dict_lookup key d with
      | Some x => Ok x
      | None => Raise KeyError
      end
  | _ => Raise TypeError
  end.

(** The elements that [for x in v] runs through: [TypeError] for a value
    that is not iterable. *)
Definition iter (v : PyVal) : R (list PyVal) :=
  match v with
  | PList l => Ok l
  | PDict d => Ok (map (fun kv => PStr (fst kv)) d)
  | PStr s => Ok (map PStr (PyStr.chars s))
  | _ => Raise TypeError
  end.

(** [isinstance(v, list)] *)
Definition is_list (v : PyVal) : bool :=
  match v with PList _ => true | _ => false end.

Definition double_quote : ascii := ascii_of_nat 34.

Definition hex_digit (n : nat) : ascii :=
  nth n (list_ascii_of_string "0123456789abcdef") "0"%char.

Definition repr_char (quote c : ascii) : string :=
  let n := nat_of_ascii c in
  if Ascii.eqb c "\" then "\\"
  else if Ascii.eqb c quote then String "\" (String quote "")
  else if (n =? 9)%nat then "\t"
  else if (n =? 10)%nat then "\n"
  else if (n =? 13)%nat then "\r"
  else if ((n <? 32) || (n =? 127))%nat
       then String "\" (String "x" (String (hex_digit (n / 16))
                                      (String (hex_digit (n mod 16)) "")))
  else String c "".

(** [repr(s)] for an ASCII string: single quotes, unless the string has a
    single quote and no double quote. *)
Definition repr_str (s : string) : string :=
  let quote :=
    if PyStr.char_in "'" s && negb (PyStr.char_in double_quote s)
    then double_quote else "'"%char in
  String quote
    (String.concat "" (map (repr_char quote) (list_ascii_of_string s))
     +:+ String quote "").

(** [repr(v)]: [ValueError] when an [int] in [v] has more digits than the
    conversion allows. *)
Fixpoint repr (v : PyVal) : R string :=
  match v with
  | PNone => Ok "None"
  | PBool true => Ok "True"
  | PBool false => Ok "False"
  | PInt z =>
      match PyStr.str_int z with
      | Some s => Ok s
      | None => Raise ValueError
      end
  | PStr s => Ok (repr_str s)
  | PList l =>
      let? items := map_R repr l in
      Ok ("[" +:+ String.concat ", " items +:+ "]")
  | PDict d =>
      let? items :=
        map_R (fun kv =>
                 let? value := repr (snd kv) in
                 Ok (repr_str (fst kv) +:+ ": " +:+ value)) d in
      Ok ("{" +:+ String.concat ", " items +:+ "}")
  end.

(** [str(v)] *)
Definition str (v : PyVal) : R string :=
  match v with
  | PStr s => Ok s
  | _ => repr v
  end.

End Py.

(** A key of a dictionary built by the extractor.  [True] and [1] (and
    [False] and [0]) are one key, as in Python. *)
Inductive pykey : Type :=
| KNone
| KInt (z : Z)
| KStr (s : string).

#[global] Instance pykey_eq_dec : EqDecision pykey.
Proof. solve_decision. Defined.

#[global] Instance pykey_countable : Countable pykey.
Proof.
  refine (inj_countable'
            (fun k => match k with
                      | KNone => inl tt
                      | KInt z => inr (inl z)
                      | KStr s => inr (inr s)
                      end)
            (fun x => match x with
                      | inl _ => KNone
                      | inr (inl z) => KInt z
                      | inr (inr s) => KStr s
                      end) _).
  intros []; reflexivity.
Defined.

(** [hash(v)], as far as dictionary keys go: [TypeError] for a list or a
    mapping. *)
Definition py_hash (v : PyVal) : R pykey :=
  match v with
  | PNone => Ok KNone
  | PBool b => Ok (KInt (if b then 1 else 0))
  | PInt z => Ok (KInt z)
  | PStr s => Ok (KStr s)
  | PList _ | PDict _ => Raise TypeError
  end.

(** [for x in items: state = body(state, x)] *)
Fixpoint for_each {S : Type} (body : S -> PyVal -> R S) (items : list PyVal)
    (state : S) : R S :=
  match items with
  | [] => Ok state
  | x :: items' => let? state' := body state x in for_each body items' state'
  end.

(** ** The constraint extractor *)

(** The guard [if not expectations or "expectations" not in expectations],
    lines 61, 93, 236 and 278. *)
Definition no_expectations (expectations : PyVal) : R bool :=
  if negb (Py.truthy expectations) then Ok true
  else let? present := Py.contains "expectations" expectations in
       Ok (negb present).

(** [extract_value_sets], lines 49-74. *)
Definition extract_value_sets (expectations : PyVal)
  : R (gmap pykey (list string)) :=
  let value_sets : gmap pykey (list string) := ∅ in
  let? absent := no_expectations expectations in
  if absent then Ok value_sets
  else
    let? rules := Py.getitem expectations "expectations" in
    let? items := Py.iter rules in
    for_each
      (fun value_sets expectation =>
         let? type := Py.get expectation "type" PNone in
         if Py.eq_str type "expect_column_values_to_be_in_set" then
           let? kwargs := Py.get expectation "kwargs" (PDict []) in
           let? column := Py.get kwargs "column" PNone in
           let? value_set := Py.get kwargs "value_set" (PList []) in
           if Py.truthy column && Py.truthy value_set then
             let? values := Py.iter value_set in
             let? strings := map_R Py.str values in
             let? key := py_hash column in
             Ok (<[key := strings]> value_sets)
           else Ok value_sets
         else Ok value_sets)
      items value_sets.

(** [_extract_examples_from_description], lines 129-158. *)
Definition _extract_examples_from_description (description : PyVal)
  : R (list string) :=
  let? has_ex := Py.contains "Ex:" description in
  let? has_marker :=
    (if has_ex then Ok true else Py.contains "Example:" description) in
  if has_marker then
    match description with
    | PStr text =>
        let parts := PyStr.split "Ex:" text in
        let parts :=
          if (length parts <? 2)%nat then PyStr.split "Example:" text else parts in
        if (2 <=? length parts)%nat then
          let example_text :=
            PyStr.strip (nth 0 (PyStr.split "." (nth 1 parts "")) "") in
          let values := map PyStr.strip (PyStr.split "," example_text) in
          Ok (List.filter
                (fun v => PyStr.nonempty v && (PyStr.len v <=? 50)%nat) values)
        else Ok []
    | _ => Raise AttributeError
    end
  else Ok [].

(** A list-valued hint of [meta], lines 108-109 and 112-113. *)
Definition list_hint (meta : PyVal) (kind : string)
    (hints : gmap string (list string)) : R (gmap string (list string)) :=
  let? present := Py.contains kind meta in
  if present then
    let? value := Py.getitem meta kind in
    if Py.is_list value then
      let? items := Py.iter value in
      let? strings := map_R Py.str items in
      Ok (<[kind := strings]> hints)
    else Ok hints
  else Ok hints.

(** The first part of the loop body of [extract_metadata_hints], lines
    97-120: the column of the rule and the hints it carries; [None] stands
    for [continue]. *)
Definition expectation_hints (expectation : PyVal)
  : R (option (PyVal * gmap string (list string))) :=
  let? kwargs := Py.get expectation "kwargs" (PDict []) in
  let? column := Py.get kwargs "column" PNone in
  let? meta := Py.get expectation "meta" (PDict []) in
  if negb (Py.truthy column) then Ok None
  else
    let hints : gmap string (list string) := ∅ in
    let? hints := list_hint meta "lob" hints in
    let? hints := list_hint meta "states" hints in
    let? description := Py.get meta "description" (PStr "") in
    let? hints :=
      (if Py.truthy description then
         let? examples := _extract_examples_from_description description in
         Ok (<["description_examples" := examples]> hints)
       else Ok hints) in
    Ok (Some (column, hints)).

(** The second part of that loop body, lines 122-125:
    [metadata_hints[column].update(hints)], on a fresh entry if the column
    has none. *)
Definition merge_hints (metadata_hints : gmap pykey (gmap string (list string)))
    (column : PyVal) (hints : gmap string (list string))
  : R (gmap pykey (gmap string (list string))) :=
  if decide (hints = ∅) then Ok metadata_hints
  else
    let? key := py_hash column in
    let entry := default ∅ (metadata_hints !! key) in
    Ok (<[key := hints ∪ entry]> metadata_hints).

Definition metadata_hints_step
    (metadata_hints : gmap pykey (gmap string (list string)))
    (expectation : PyVal) : R (gmap pykey (gmap string (list string))) :=
  let? found := expectation_hints expectation in
  match found with
  | None => Ok metadata_hints
  | Some (column, hints) => merge_hints metadata_hints column hints
  end.

(** [extract_metadata_hints], lines 76-127. *)
Definition extract_metadata_hints (expectations : PyVal)
  : R (gmap pykey (gmap string (list string))) :=
  let metadata_hints : gmap pykey (gmap string (list string)) := ∅ in
  let? absent := no_expectations expectations in
  if absent then Ok metadata_hints
  else
    let? rules := Py.getitem expectations "expectations" in
    let? items := Py.iter rules in
    for_each metadata_hints_step items metadata_hints.

Definition suspicious_patterns : list string :=
  [ "CLIENT MBRID"; "MEMBER_ID"; "FIRST NAME"; "LAST NAME"; "MemberLastName";
    "MemberFirstName"; "CHASE LOAD DATE"; "LOAD DATE"; "DATE" ].

(** [_looks_like_column_name], lines 191-222. *)
Definition _looks_like_column_name (value : string) : bool :=
  if negb (PyStr.nonempty value) || (PyStr.len (PyStr.strip value) =? 0)%nat
  then true
  else if member (PyStr.upper value) (map PyStr.upper suspicious_patterns)
  then true
  else PyStr.contains "_" value
       && String.eqb (PyStr.upper value) value
       && (length (PyStr.split_ws value) <=? 4)%nat.

(** [get_constraints_for_column], lines 160-189. *)
Definition get_constraints_for_column (expectations column_name : PyVal)
  : R (option (list string)) :=
  let? value_sets := extract_value_sets expectations in
  let? key := py_hash column_name in
  match value_sets !! key with
  | Some values =>
      let filtered_values :=
        List.filter (fun v => negb (_looks_like_column_name v)) values in
      match filtered_values with
      | _ :: _ => Ok (Some filtered_values)
      | [] => Ok None
      end
  | None => Ok None
  end.

(** The scan shared by [extract_regex_patterns] (lines 224-248) and
    [extract_strftime_formats] (lines 266-293): rules of type [rule_type]
    bind their column to the value of [kwargs[field]]. *)
Definition extract_by_type (rule_type field : string) (expectations : PyVal)
  : R (gmap pykey PyVal) :=
  let found : gmap pykey PyVal := ∅ in
  let? absent := no_expectations expectations in
  if absent then Ok found
  else
    let? rules := Py.getitem expectations "expectations" in
    let? items := Py.iter rules in
    for_each
      (fun found expectation =>
         let? type := Py.get expectation "type" PNone in
         if Py.eq_str type rule_type then
           let? kwargs := Py.get expectation "kwargs" (PDict []) in
           let? column := Py.get kwargs "column" PNone in
           let? value := Py.get kwargs field PNone in
           if Py.truthy column && Py.truthy value then
             let? key := py_hash column in
             Ok (<[key := value]> found)
           else Ok found
         else Ok found)
      items found.

Definition extract_regex_patterns (expectations : PyVal) : R (gmap pykey PyVal) :=
  extract_by_type "expect_column_values_to_match_regex" "regex" expectations.

Definition extract_strftime_formats (expectations : PyVal) : R (gmap pykey PyVal) :=
  extract_by_type "expect_column_values_to_match_strftime_format"
                  "strftime_format" expectations.

(** [get_regex_for_column], lines 250-264, and
    [get_strftime_format_for_column], lines 295-309. *)
Definition get_regex_for_column (expectations column_name : PyVal)
  : R (option PyVal) :=
  let? regex_patterns := extract_regex_patterns expectations in
  let? key := py_hash column_name in
  Ok (regex_patterns !! key).

Definition get_strftime_format_for_column (expectations column_name : PyVal)
  : R (option PyVal) :=
  let? strftime_formats := extract_strftime_formats expectations in
  let? key := py_hash column_name in
  Ok (strftime_formats !! key).

(** ** Notions used to state the properties *)

(** [returns m P]: on every tape [m] returns a value, and the value
    satisfies [P]; nothing is raised and the fuel is not exhausted. *)
Definition returns {A} (m : M A) (P : A -> Prop) : Prop :=
  forall t, exists a t', m t = (Ok a, t') /\ P a.

(** [returns_or_ValueError m P]: as [returns], except that [m] may also
    raise [ValueError] (and nothing else). *)
Definition returns_or_ValueError {A} (m : M A) (P : A -> Prop) : Prop :=
  forall t, (exists a t', m t = (Ok a, t') /\ P a)
            \/ (exists t', m t = (Raise ValueError, t')).

(** What the two tests of lines 338 and 340 amount to: a backslash at the
    cursor with a dot right after it. *)
Definition escaped_dot_at (pattern : string) (i : nat) : bool :=
  match String.get i pattern, String.get (i + 1) pattern with
  | Some "\"%char, Some "."%char => true
  | _, _ => false
  end.


(** The hint list of kind [kind] that the rule [expectation] carries for
    the column with key [key], if any. *)
Definition rule_hint (key : pykey) (kind : string) (expectation : PyVal)
  : option (list string) :=
  match expectation_hints expectation with
  | Ok (Some (column, hints)) =>
      match py_hash column with
      | Ok key' => if decide (key' = key) then hints !! kind else None
      | _ => None
      end
  | _ => None
  end.

(** The hint list of kind [kind] for the column [key] after all of [rules]:
    that of the last rule that carries one. *)
Fixpoint last_hint (key : pykey) (kind : string) (rules : list PyVal)
  : option (list string) :=
  match rules with
  | [] => None
  | expectation :: rest =>
      match last_hint key kind rest with
      | Some l => Some l
      | None => rule_hint key kind expectation
      end
  end.

(** The hint list of kind [kind] recorded for column [key] in
    [metadata_hints]. *)
Definition hint_of (metadata_hints : gmap pykey (gmap string (list string)))
    (key : pykey) (kind : string) : option (list string) :=
  match metadata_hints !! key with
  | Some entry => entry !! kind
  | None => None
  end.

(** A string of whitespace only (the empty string included). *)
Definition blank (s : string) : bool :=
  forallb PyStr.isspace (list_ascii_of_string s).

(** [s] without the characters of [set]. *)
Fixpoint remove_chars (set : string) (s : string) : string :=
  match s with
  | EmptyString => EmptyString
  | String c s' =>
      if PyStr.char_in c set then remove_chars set s'
      else String c (remove_chars set s')
  end.

(** The part of [s] from index [i] on. *)
Definition suffix_from (i : nat) (s : string) : string :=
  substring i (String.length s - i) s.

(** The character [c] does not occur in [s]. *)
Definition char_free (c : ascii) (s : string) : bool :=
  negb (PyStr.char_in c s).

(** A suite document with the rules [rules]. *)
Definition suite_of (rules : list PyVal) : list (string * PyVal) :=
  [("name", PStr "suite"); ("expectations", PList rules)].

(** A rule of type [rule_type] that carries [value] under [field] for the
    column [column], the way a suite document writes it. *)
Definition rule_of (rule_type field : string) (column value : PyVal)
  : list (string * PyVal) :=
  [("type", PStr rule_type);
   ("kwargs", PDict [("column", column); (field, value)]);
   ("meta", PDict [])].

(** Two rules with the same [type] and the same [kwargs], as [get] reads
    them; they may differ in everything else, [meta] included. *)
Definition same_type_and_kwargs (e e' : PyVal) : Prop :=
  (forall default, Py.get e "type" default = Py.get e' "type" default)
  /\ (forall default, Py.get e "kwargs" default = Py.get e' "kwargs" default).

(** Every character of [s] is one of [set]. *)
Definition all_of (set s : string) : bool :=
  forallb (fun c => PyStr.char_in c set) (list_ascii_of_string s).

(** Every character of [s] is a decimal digit. *)
Definition all_digits (s : string) : bool :=
  forallb (fun c => PyStr.char_in c PyStr.digits) (list_ascii_of_string s).

(** * Properties *)

(** ** Strings *)

Section StringFacts.

Lemma get_lt (s : string) (i : nat) :
  (i < PyStr.len s)%nat -> exists c, String.get i s = Some c.
Proof.
  revert i; induction s as [|c s IH]; intros i Hi; simpl in *; [lia|].
  destruct i as [|i]; [eauto|]. apply IH. lia.
Qed.

Lemma get_Some_lt (s : string) (i : nat) (c : ascii) :
  String.get i s = Some c -> (i < PyStr.len s)%nat.
Proof.
  revert i; induction s as [|x s IH]; intros i H; simpl in *; [discriminate|].
  destruct i as [|i]; [lia|]. apply IH in H. lia.
Qed.

(** The first occurrence of a one-character needle lies at or after the
    start position, inside the string, and holds that character. *)
Lemma find_char_bounds (c : ascii) (s : string) (start e : nat) :
  PyStr.find (String c EmptyString) s start = Some e ->
  (start <= e)%nat /\ (e < PyStr.len s)%nat /\ String.get e s = Some c.
Proof.
  unfold PyStr.find. revert start e.
  induction s as [|x s IH]; intros start e H; simpl in H.
  - destruct start; discriminate.
  - destruct start as [|start].
    + destruct (ascii_dec c x) as [->|Hne].
      * destruct s; inversion H; subst; simpl; repeat split; lia.
      * destruct (index 0 (String c "") s) as [k|] eqn:E; [|discriminate].
        inversion H; subst. destruct (IH 0%nat k E) as (? & ? & ?).
        simpl. repeat split; [lia | lia | assumption].
    + destruct (index start (String c "") s) as [k|] eqn:E; [|discriminate].
      inversion H; subst. destruct (IH start k E) as (? & ? & ?).
      simpl. repeat split; [lia | lia | assumption].
Qed.

Lemma substring_len (a k : nat) (s : string) :
  (String.length (substring a k s) <= k)%nat
  /\ (String.length (substring a k s) <= String.length s - a)%nat.
Proof.
  revert a k; induction s as [|x s IH]; intros a k.
  - destruct a, k; simpl; lia.
  - destruct a as [|a].
    + destruct k as [|k]; simpl; [lia|].
      destruct (IH 0%nat k). lia.
    + simpl. destruct (IH a k). lia.
Qed.

Lemma slice_len (s : string) (a b : nat) :
  (PyStr.len (PyStr.slice s a b) <= b - a)%nat.
Proof. unfold PyStr.len, PyStr.slice. apply substring_len. Qed.

Lemma lstrip_by_len (p : ascii -> bool) (s : string) :
  (String.length (PyStr.lstrip_by p s) <= String.length s)%nat.
Proof.
  induction s as [|c s IH]; simpl; [lia|]. destruct (p c); simpl; lia.
Qed.

Lemma rstrip_by_len (p : ascii -> bool) (s : string) :
  (String.length (PyStr.rstrip_by p s) <= String.length s)%nat.
Proof.
  induction s as [|c s IH]; simpl; [lia|].
  destruct (PyStr.rstrip_by p s); [destruct (p c)|]; simpl in *; lia.
Qed.

(** Stripping never lengthens a string. *)
Lemma strip_chars_len (set s : string) :
  (PyStr.len (PyStr.strip_chars set s) <= PyStr.len s)%nat.
Proof.
  unfold PyStr.len, PyStr.strip_chars, PyStr.strip_by.
  etransitivity; [apply rstrip_by_len | apply lstrip_by_len].
Qed.

Lemma lstrip_blank (s : string) :
  PyStr.lstrip_by PyStr.isspace s = "" <-> blank s = true.
Proof.
  unfold blank. induction s as [|c s IH]; simpl; [tauto|].
  destruct (PyStr.isspace c); simpl; [exact IH|]. split; discriminate.
Qed.

Lemma rstrip_nonempty (p : ascii -> bool) (c : ascii) (s : string) :
  p c = false -> PyStr.rstrip_by p (String c s) <> "".
Proof.
  intros H. simpl. destruct (PyStr.rstrip_by p s); [rewrite H|]; discriminate.
Qed.

(** [s.strip()] is empty exactly when [s] is blank. *)
Lemma strip_blank (s : string) : PyStr.strip s = "" <-> blank s = true.
Proof.
  unfold PyStr.strip, PyStr.strip_by. rewrite <- lstrip_blank.
  split; [|intros ->; reflexivity].
  intros H. destruct (PyStr.lstrip_by PyStr.isspace s) as [|c r] eqn:E;
    [reflexivity|].
  exfalso. revert H. apply rstrip_nonempty.
  clear -E. induction s as [|x s IH]; simpl in E; [discriminate|].
  destruct (PyStr.isspace x) eqn:Ex; [apply IH, E|].
  inversion E; subst. exact Ex.
Qed.

End StringFacts.

(** ** Computations that return *)

Section Returns.

Context {A B : Type}.

Lemma returns_ret (a : A) (P : A -> Prop) : P a -> returns (ret a) P.
Proof. intros H t. exists a, t. split; [reflexivity | exact H]. Qed.

Lemma returns_bind (m : M A) (f : A -> M B) (P : A -> Prop) (Q : B -> Prop) :
  returns m P -> (forall a, P a -> returns (f a) Q) -> returns (bind m f) Q.
Proof.
  intros Hm Hf t. destruct (Hm t) as (a & t' & E & Ha).
  unfold bind. rewrite E. apply (Hf a Ha).
Qed.

Lemma returns_weaken (m : M A) (P Q : A -> Prop) :
  returns m P -> (forall a, P a -> Q a) -> returns m Q.
Proof.
  intros Hm HPQ t. destruct (Hm t) as (a & t' & E & Ha). eauto.
Qed.

Lemma rov_of_returns (m : M A) (P : A -> Prop) :
  returns m P -> returns_or_ValueError m P.
Proof. intros Hm t. left. apply Hm. Qed.

Lemma rov_bind (m : M A) (f : A -> M B) (P : A -> Prop) (Q : B -> Prop) :
  returns_or_ValueError m P ->
  (forall a, P a -> returns_or_ValueError (f a) Q) ->
  returns_or_ValueError (bind m f) Q.
Proof.
  intros Hm Hf t. unfold bind.
  destruct (Hm t) as [(a & t' & E & Ha) | (t' & E)]; rewrite E.
  - apply (Hf a Ha).
  - right. eauto.
Qed.

(** A [ValueError] raised in the body is caught. *)
Lemma returns_try (body handler : M A) (P : A -> Prop) :
  returns_or_ValueError body P -> returns handler P ->
  returns (try_except_ValueError body handler) P.
Proof.
  intros Hb Hh t. unfold try_except_ValueError.
  destruct (Hb t) as [(a & t' & E & Ha) | (t' & E)]; rewrite E.
  - eauto.
  - apply Hh.
Qed.

End Returns.

Section Primitives.

Lemma randint_in_range (a b : Z) :
  (a <= b)%Z -> returns (randint a b) (fun z => (a <= z <= b)%Z).
Proof.
  intros Hab t. unfold randint.
  destruct (Z.ltb_spec b a) as [?|_]; [lia|]. simpl.
  eexists _, _. split; [reflexivity|]. unfold randint_value.
  pose proof (Z.mod_pos_bound (Z.of_nat (hd 0%nat t)) (b - a + 1)). lia.
Qed.

Lemma randint_rov (a b : Z) :
  returns_or_ValueError (randint a b) (fun _ => True).
Proof.
  intros t. unfold randint. destruct (b <? a)%Z; simpl; eauto.
Qed.

Lemma choice_in {A} (seq : list A) :
  seq <> [] -> returns (choice seq) (fun a => In a seq).
Proof.
  intros Hne t. unfold choice. destruct seq as [|x seq]; [congruence|].
  simpl draw. cbv iota beta. eexists _, _. split; [reflexivity|].
  unfold choice_value. apply nth_In. apply Nat.mod_upper_bound. simpl. lia.
Qed.

Lemma int_rov (s : string) : returns_or_ValueError (int_ s) (fun _ => True).
Proof.
  intros t. unfold int_. destruct (PyStr.int s); [left | right]; cbv; eauto.
Qed.

Lemma getitem_in_range (s : string) (i : nat) :
  (i < PyStr.len s)%nat ->
  returns (getitem s i)
          (fun c => exists x, String.get i s = Some x /\ c = String x EmptyString).
Proof.
  intros Hi t. unfold getitem. destruct (get_lt s i Hi) as [x Hx].
  rewrite Hx. eexists _, _. split; [reflexivity | eauto].
Qed.

Lemma append_times_returns (n : nat) (gen : M string) (result : string) :
  returns gen (fun _ => True) ->
  returns (append_times n gen result) (fun _ => True).
Proof.
  intros Hg. revert result. induction n as [|n IH]; intros result; simpl.
  - apply returns_ret; exact I.
  - eapply returns_bind; [exact Hg | intros; apply IH].
Qed.

Lemma random_digit_returns : returns random_digit (fun _ => True).
Proof.
  unfold random_digit. eapply returns_bind; [apply randint_in_range; lia|].
  intros; apply returns_ret; exact I.
Qed.

Lemma chars_nonempty (s : string) : PyStr.nonempty s = true -> PyStr.chars s <> [].
Proof. destruct s; simpl; [discriminate | congruence]. Qed.

(** [_generate_char_from_class] returns for every class body. *)
Lemma generate_char_returns (char_class : string) :
  returns (_generate_char_from_class char_class) (fun _ => True).
Proof.
  unfold _generate_char_from_class.
  destruct (PyStr.contains "A-Z" char_class).
  { eapply returns_weaken; [apply choice_in; discriminate | auto]. }
  destruct (PyStr.contains "a-z" char_class).
  { eapply returns_weaken; [apply choice_in; discriminate | auto]. }
  destruct (PyStr.contains "0-9" char_class).
  { apply random_digit_returns. }
  simpl. destruct (PyStr.nonempty char_class) eqn:E.
  - eapply returns_weaken; [apply choice_in, chars_nonempty, E | auto].
  - apply returns_ret; exact I.
Qed.

End Primitives.

Section Termination.

Lemma brace_repetition_rov (quant_str : string) :
  returns_or_ValueError (brace_repetition quant_str) (fun _ => True).
Proof.
  unfold brace_repetition. destruct (PyStr.contains "," quant_str).
  - eapply rov_bind; [apply int_rov|]. intros min_val _.
    destruct (_ && _).
    + eapply rov_bind; [apply int_rov|]. intros; apply randint_rov.
    + apply randint_rov.
  - apply int_rov.
Qed.

(** The quantifier after a class or [\d] is always resolved, and the
    cursor it leaves is at or after [next_pos] and inside the pattern. *)
Lemma quantifier_after_returns (pattern : string) (next_pos : nat) :
  (next_pos <= PyStr.len pattern)%nat ->
  returns (quantifier_after pattern next_pos)
          (fun '(_, i') => (next_pos <= i' <= PyStr.len pattern)%nat).
Proof.
  intros Hle. unfold quantifier_after.
  destruct (Nat.ltb_spec next_pos (PyStr.len pattern)) as [Hlt|_];
    [|apply returns_ret; lia].
  eapply returns_bind; [apply getitem_in_range, Hlt|]. intros c _.
  destruct (String.eqb c "{").
  { destruct (PyStr.find "}" pattern next_pos) as [end_brace|] eqn:E;
      [|apply returns_ret; lia].
    apply find_char_bounds in E. destruct E as (? & ? & _).
    apply returns_try; [|apply returns_ret; lia].
    eapply rov_bind; [apply brace_repetition_rov|].
    intros; apply rov_of_returns, returns_ret; lia. }
  destruct (String.eqb c "+").
  { eapply returns_bind; [apply randint_in_range; lia|].
    intros; apply returns_ret; lia. }
  destruct (String.eqb c "?").
  { eapply returns_bind; [apply choice_in; discriminate|].
    intros; apply returns_ret; lia. }
  apply returns_ret; lia.
Qed.

Lemma group_quantifier_returns (pattern : string) (next_pos : nat) :
  (next_pos <= PyStr.len pattern)%nat ->
  returns (group_quantifier pattern next_pos)
          (fun '(_, i') => (next_pos <= i' <= PyStr.len pattern)%nat).
Proof.
  intros Hle. unfold group_quantifier.
  destruct (Nat.ltb_spec next_pos (PyStr.len pattern)) as [Hlt|_];
    [|apply returns_ret; lia].
  eapply returns_bind; [apply getitem_in_range, Hlt|]. intros c _.
  destruct (String.eqb c "+").
  { eapply returns_bind; [apply randint_in_range; lia|].
    intros; apply returns_ret; lia. }
  destruct (String.eqb c "?").
  { eapply returns_bind; [apply choice_in; discriminate|].
    intros; apply returns_ret; lia. }
  apply returns_ret; lia.
Qed.

Lemma slice_two_len (pattern : string) (i : nat) :
  String.eqb (PyStr.slice pattern i (i + 2)) "\d" = true ->
  (i + 2 <= PyStr.len pattern)%nat.
Proof.
  intros H. apply String.eqb_eq in H.
  pose proof (substring_len i (i + 2 - i) pattern) as [_ Hl].
  unfold PyStr.slice in H. rewrite H in Hl. unfold PyStr.len.
  simpl in Hl. lia.
Qed.

(** Every branch of the dispatch returns and moves the cursor strictly
    forward, never beyond the end of the pattern, provided the recursive
    call returns on the group contents it may be given: strings at least
    two characters shorter than what is left of the pattern. *)
Lemma dispatch_returns (recur : string -> M string)
    (pattern : string) (i : nat) (result : string) :
  (i < PyStr.len pattern)%nat ->
  (forall g, (PyStr.len g + i + 2 <= PyStr.len pattern)%nat ->
             returns (recur g) (fun _ => True)) ->
  returns (dispatch recur pattern i result)
          (fun '(i', _) => (i < i' <= PyStr.len pattern)%nat).
Proof.
  intros Hi Hrec. unfold dispatch.
  eapply returns_bind with (P := fun b => b = true -> (i + 1 < PyStr.len pattern)%nat).
  { destruct (Nat.ltb_spec (i + 1) (PyStr.len pattern)) as [Hlt|_].
    - eapply returns_bind; [apply getitem_in_range, Hi|].
      intros; apply returns_ret; auto.
    - apply returns_ret; discriminate. }
  intros backslash Hb.
  eapply returns_bind with (P := fun b => b = true -> (i + 1 < PyStr.len pattern)%nat).
  { destruct backslash.
    - eapply returns_bind; [apply getitem_in_range; auto|].
      intros; apply returns_ret; auto.
    - apply returns_ret; discriminate. }
  intros escaped_dot Hd. destruct escaped_dot.
  { apply returns_ret. specialize (Hd eq_refl). lia. }
  eapply returns_bind; [apply getitem_in_range, Hi|]. intros c (x & Hx & ->).
  destruct (String.eqb (String x "") "[").
  { destruct (PyStr.find "]" pattern i) as [end_bracket|] eqn:E;
      [|apply returns_ret; lia].
    apply find_char_bounds in E. destruct E as (? & ? & _).
    eapply returns_bind; [apply quantifier_after_returns; lia|].
    intros [repetition i'] Hi'.
    eapply returns_bind;
      [apply append_times_returns, generate_char_returns|].
    intros; apply returns_ret; lia. }
  destruct (String.eqb (PyStr.slice pattern i (i + 2)) "\d") eqn:Ed.
  { apply slice_two_len in Ed.
    eapply returns_bind; [apply quantifier_after_returns; lia|].
    intros [repetition i'] Hi'.
    eapply returns_bind; [apply append_times_returns, random_digit_returns|].
    intros; apply returns_ret; lia. }
  destruct (String.eqb (String x "") "(") eqn:Ep.
  { destruct (PyStr.find ")" pattern i) as [end_paren|] eqn:E;
      [|apply returns_ret; lia].
    apply find_char_bounds in E. destruct E as (? & ? & Hclose).
    apply String.eqb_eq in Ep. inversion Ep; subst x.
    assert (i <> end_paren) by (intros ->; congruence).
    eapply returns_bind.
    { apply Hrec. pose proof (slice_len pattern (i + 1) end_paren). lia. }
    intros group_result _.
    eapply returns_bind; [apply group_quantifier_returns; lia|].
    intros [repetition i'] Hi'.
    eapply returns_bind;
      [apply append_times_returns, returns_ret; exact I|].
    intros; apply returns_ret; lia. }
  destruct (PyStr.contains (String x "") ".*|"); apply returns_ret; lia.
Qed.

(** The loop returns whenever the fuel exceeds the distance from the
    cursor to the end of the pattern. *)
Lemma scan_returns (fuel : nat) :
  forall (pattern : string) (i : nat) (result : string),
    (PyStr.len pattern - i < fuel)%nat ->
    returns (scan fuel pattern i result) (fun _ => True).
Proof.
  induction fuel as [|fuel IH]; intros pattern i result Hf; simpl.
  - lia.
  - destruct (Nat.ltb_spec i (PyStr.len pattern)) as [Hi|_];
      [|apply returns_ret; exact I].
    eapply returns_bind.
    + apply dispatch_returns; [exact Hi|].
      intros g Hg. apply IH.
      pose proof (strip_chars_len "^$" g). lia.
    + intros [i' result'] Hi'. apply IH. lia.
Qed.

End Termination.

Section RecursiveCalls.

Lemma bind_ext {A B} (m m' : M A) (f f' : A -> M B) (t : tape) :
  m t = m' t -> (forall a t', f a t' = f' a t') -> bind m f t = bind m' f' t.
Proof.
  intros Hm Hf. unfold bind. rewrite Hm.
  destruct (m' t) as [[a| |] t']; auto.
Qed.

Lemma bind_ret_l {A B} (a : A) (f : A -> M B) : bind (ret a) f = f a.
Proof. reflexivity. Qed.

(** The dispatch hands the recursive call only the text between an opening
    parenthesis at the cursor and a closing one further on: two recursive
    calls that agree on strings that short give the same dispatch. *)
Lemma dispatch_recur_ext (recur recur' : string -> M string)
    (pattern : string) (i : nat) (result : string) (t : tape) :
  (forall g t', (PyStr.len g + i + 2 <= PyStr.len pattern)%nat ->
                recur g t' = recur' g t') ->
  dispatch recur pattern i result t = dispatch recur' pattern i result t.
Proof.
  intros H. unfold dispatch.
  apply bind_ext; [reflexivity|]. intros backslash t1.
  apply bind_ext; [reflexivity|]. intros escaped_dot t2.
  destruct escaped_dot; [reflexivity|].
  unfold getitem. destruct (String.get i pattern) as [x|] eqn:G; [|reflexivity].
  rewrite !bind_ret_l.
  destruct (String.eqb (String x "") "["); [reflexivity|].
  destruct (String.eqb (PyStr.slice pattern i (i + 2)) "\d"); [reflexivity|].
  destruct (String.eqb (String x "") "(") eqn:Ep; [|reflexivity].
  destruct (PyStr.find ")" pattern i) as [end_paren|] eqn:E; [|reflexivity].
  apply find_char_bounds in E. destruct E as (? & ? & Hclose).
  apply String.eqb_eq in Ep. inversion Ep; subst x.
  assert (i <> end_paren) by (intros ->; congruence).
  apply bind_ext; [|reflexivity].
  apply H. pose proof (slice_len pattern (i + 1) end_paren). lia.
Qed.

Lemma dispatch_recur_shorter (recur recur' : string -> M string)
    (pattern : string) (i : nat) (result : string) (t : tape) :
  (forall g t', (PyStr.len g < PyStr.len pattern)%nat -> recur g t' = recur' g t') ->
  dispatch recur pattern i result t = dispatch recur' pattern i result t.
Proof.
  intros H. apply dispatch_recur_ext. intros g t' Hg. apply H. lia.
Qed.

(** Fuel is a device of the model only: any two amounts that exceed the
    distance from the cursor to the end of the pattern give the same run. *)
Lemma scan_fuel_irrelevant (fuel : nat) :
  forall (fuel' : nat) (pattern : string) (i : nat) (result : string) (t : tape),
    (PyStr.len pattern - i < fuel)%nat ->
    (PyStr.len pattern - i < fuel')%nat ->
    scan fuel pattern i result t = scan fuel' pattern i result t.
Proof.
  induction fuel as [|fuel IH]; intros fuel' pattern i result t Hf Hf'; [lia|].
  destruct fuel' as [|fuel']; [lia|]. simpl.
  destruct (Nat.ltb_spec i (PyStr.len pattern)) as [Hi|_]; [|reflexivity].
  unfold bind.
  rewrite (dispatch_recur_ext
             (fun g => scan fuel (PyStr.strip_chars "^$" g) 0 "")
             (fun g => scan fuel' (PyStr.strip_chars "^$" g) 0 "")).
  - destruct (dispatch_returns
                (fun g => scan fuel' (PyStr.strip_chars "^$" g) 0 "")
                pattern i result Hi) with (t := t)
      as ([i' result'] & t' & E & Hadv).
    + intros g Hg. apply scan_returns.
      pose proof (strip_chars_len "^$" g). lia.
    + rewrite E. apply IH; lia.
  - intros g t' Hg. pose proof (strip_chars_len "^$" g).
    apply IH; lia.
Qed.

(** So the recursive call of the loop is the function itself on the group
    contents, whenever the fuel left covers them (as it does in every run,
    see [dispatch_returns] and [scan_returns]). *)
Lemma group_call_is_generate (fuel : nat) (group_content : string) (t : tape) :
  (PyStr.len (PyStr.strip_chars "^$" group_content) < fuel)%nat ->
  group_call fuel group_content t = generate_value_from_regex group_content t.
Proof.
  intros H. unfold group_call, generate_value_from_regex.
  apply scan_fuel_irrelevant; lia.
Qed.

End RecursiveCalls.

(** ** C1: termination *)

(** C1.  [generate_value_from_regex] terminates on every pattern.
    (1) At every cursor inside the pattern, the dispatch of the loop body
    returns and moves the cursor strictly forward (and never past the end),
    whichever branch is taken.  (2) The recursive call for a group is only
    ever made on a string strictly shorter than the pattern.  (3) From
    cursor [i] the loop returns on fuel [len(pattern) - i + 1], that is
    after at most [len(pattern) - i] passes through the dispatch and the
    final test of the loop condition; so the whole function returns after
    at most [len(pattern)] passes. *)
Theorem generate_value_from_regex_terminates :
  (forall (fuel : nat) (pattern : string) (i : nat) (result : string) (t : tape),
      (i < PyStr.len pattern)%nat ->
      (PyStr.len pattern - i <= fuel)%nat ->
      exists i' result' t',
        dispatch (fun group_content =>
                    scan fuel (PyStr.strip_chars "^$" group_content) 0 "")
                 pattern i result t = (Ok (i', result'), t')
        /\ (i < i' <= PyStr.len pattern)%nat)
  /\ (forall (recur recur' : string -> M string)
             (pattern : string) (i : nat) (result : string) (t : tape),
         (forall g t', (PyStr.len g < PyStr.len pattern)%nat ->
                       recur g t' = recur' g t') ->
         dispatch recur pattern i result t = dispatch recur' pattern i result t)
  /\ (forall (pattern : string) (i : nat) (result : string) (t : tape),
         exists s t',
           scan (S (PyStr.len pattern - i)) pattern i result t = (Ok s, t'))
  /\ (forall (regex_pattern : string) (t : tape),
         exists s t', generate_value_from_regex regex_pattern t = (Ok s, t')).
Proof.
  split; [|split; [|split]].
  - intros fuel pattern i result t Hi Hf.
    destruct (dispatch_returns
                (fun g => scan fuel (PyStr.strip_chars "^$" g) 0 "")
                pattern i result Hi) with (t := t)
      as ([i' result'] & t' & E & Hadv).
    + intros g Hg. apply scan_returns.
      pose proof (strip_chars_len "^$" g). lia.
    + exists i', result', t'. split; [exact E | exact Hadv].
  - intros. apply dispatch_recur_shorter; assumption.
  - intros pattern i result t.
    destruct (scan_returns (S (PyStr.len pattern - i)) pattern i result) with (t := t)
      as (s & t' & E & _); [lia|]. eauto.
  - intros regex_pattern t. unfold generate_value_from_regex.
    destruct (scan_returns (S (PyStr.len (PyStr.strip_chars "^$" regex_pattern)))
                (PyStr.strip_chars "^$" regex_pattern) 0 "") with (t := t)
      as (s & t' & E & _); [lia|]. eauto.
Qed.

Lemma generate_value_from_regex_terminates_witness :
  exists i' result' t',
    dispatch (fun group_content =>
                scan 9 (PyStr.strip_chars "^$" group_content) 0 "")
             "a(b[c]+)" 1 "a" [2; 0; 1] = (Ok (i', result'), t')
    /\ (1 < i' <= PyStr.len "a(b[c]+)")%nat.
Proof.
  apply (proj1 generate_value_from_regex_terminates 9%nat "a(b[c]+)" 1%nat "a" [2; 0; 1]);
    simpl; lia.
Defined.

(** ** The branches of the dispatch, one equation each *)

Ltac msimpl := repeat (progress (cbv beta iota) || rewrite bind_ret_l).

Section Branches.

Variable recur : string -> M string.
Variables (pattern : string) (i : nat) (result : string) (t : tape).

Lemma scan_S (fuel : nat) :
  scan (S fuel) pattern i result t =
  (if (i <? PyStr.len pattern)%nat
   then let* '(i', result') := dispatch (group_call fuel) pattern i result in
        scan fuel pattern i' result'
   else ret result) t.
Proof. reflexivity. Qed.

Lemma scan_done (fuel : nat) :
  (PyStr.len pattern <= i)%nat -> scan (S fuel) pattern i result t = (Ok result, t).
Proof.
  intros H. rewrite scan_S.
  destruct (Nat.ltb_spec i (PyStr.len pattern)); [lia | reflexivity].
Qed.

Lemma dispatch_unfold (x : ascii) :
  String.get i pattern = Some x ->
  dispatch recur pattern i result t =
  (if escaped_dot_at pattern i then ret (i + 2, result +:+ ".")
   else
     let c := String x "" in
     if String.eqb c "[" then
       match PyStr.find "]" pattern i with
       | None => ret (i + 1, result)
       | Some end_bracket =>
           let char_class := PyStr.slice pattern (i + 1) end_bracket in
           let* '(repetition, i') := quantifier_after pattern (end_bracket + 1) in
           let* result' := append_times (range_len repetition)
                             (_generate_char_from_class char_class) result in
           ret (i', result')
       end
     else if String.eqb (PyStr.slice pattern i (i + 2)) "\d" then
       let* '(repetition, i') := quantifier_after pattern (i + 2) in
       let* result' := append_times (range_len repetition) random_digit result in
       ret (i', result')
     else if String.eqb c "(" then
       match PyStr.find ")" pattern i with
       | Some end_paren =>
           let group_content := PyStr.slice pattern (i + 1) end_paren in
           let* group_result := recur group_content in
           let* '(repetition, i') := group_quantifier pattern (end_paren + 1) in
           let* result' := append_times (range_len repetition)
                             (ret group_result) result in
           ret (i', result')
       | None => ret (i + 1, result)
       end
     else if PyStr.contains c ".*|" then ret (i + 1, result)
     else ret (i + 1, result +:+ c)) t.
Proof.
  intros Hx. unfold dispatch, escaped_dot_at, getitem. rewrite Hx.
  destruct (Nat.ltb_spec (i + 1) (PyStr.len pattern)) as [Hlt|Hge].
  - destruct (get_lt pattern (i + 1) Hlt) as [y Hy]. rewrite Hy. msimpl.
    destruct (String.eqb_spec (String x "") "\") as [E|E].
    + inversion E; subst x. msimpl.
      destruct (String.eqb_spec (String y "") ".") as [E'|E'].
      * inversion E'; subst y. reflexivity.
      * replace (match y with "."%char => true | _ => false end) with false.
        { reflexivity. }
        { clear -E'. destruct y as [[] [] [] [] [] [] [] []]; try reflexivity.
          congruence. }
    + msimpl.
      replace (match x with "\"%char => match y with "."%char => true | _ => false end
                       | _ => false end) with false.
      { reflexivity. }
      { clear -E. destruct x as [[] [] [] [] [] [] [] []]; try reflexivity.
        congruence. }
  - msimpl.
    destruct (String.get (i + 1) pattern) as [y|] eqn:Hy.
    { apply get_Some_lt in Hy. lia. }
    replace (match x with "\"%char => false | _ => false end) with false.
    { reflexivity. }
    { clear. destruct x as [[] [] [] [] [] [] [] []]; reflexivity. }
Qed.

End Branches.

(** ** Running the generator on a given pattern *)

Section Evaluation.

Lemma randint_eval (a b : Z) (t : tape) :
  (a <= b)%Z -> randint a b t = (Ok (randint_value a b (hd 0%nat t)), tl t).
Proof.
  intros H. unfold randint. destruct (Z.ltb_spec b a); [lia | reflexivity].
Qed.



Lemma choice_eval {A} (x : A) (seq : list A) (t : tape) :
  choice (x :: seq) t = (Ok (choice_value x seq (hd 0%nat t)), tl t).
Proof. reflexivity. Qed.

(** [random.choice([0, 1])]: 0 on an even draw, 1 on an odd one. *)
Lemma choice_0_1 (r : nat) :
  choice_value 0%Z [1%Z] r = Z.of_nat (r mod 2).
Proof.
  unfold choice_value. change (length [0%Z; 1%Z]) with 2%nat.
  pose proof (Nat.mod_upper_bound r 2 ltac:(lia)) as H.
  destruct (r mod 2)%nat as [|[|n]]; [reflexivity | reflexivity | lia].
Qed.

Lemma string_app_assoc (a b c : string) : (a +:+ b) +:+ c = a +:+ (b +:+ c).
Proof.
  induction a as [|x a IH]; [reflexivity|].
  change (String x ((a +:+ b) +:+ c) = String x (a +:+ (b +:+ c))).
  f_equal; exact IH.
Qed.

Lemma string_app_nil_r (a : string) : a +:+ "" = a.
Proof.
  induction a as [|x a IH]; [reflexivity|].
  change (String x (a +:+ "") = String x a). f_equal; exact IH.
Qed.

Lemma string_app_length (a b : string) :
  String.length (a +:+ b) = (String.length a + String.length b)%nat.
Proof.
  induction a as [|x a IH]; [reflexivity|].
  change (S (String.length (a +:+ b)) = S (String.length a + String.length b)).
  f_equal; exact IH.
Qed.

Lemma all_digits_app (a b : string) :
  all_digits (a +:+ b) = all_digits a && all_digits b.
Proof.
  unfold all_digits. induction a as [|c a IH]; [reflexivity|].
  change (PyStr.char_in c PyStr.digits
          && forallb (fun c => PyStr.char_in c PyStr.digits)
               (list_ascii_of_string (a +:+ b))
          = PyStr.char_in c PyStr.digits
            && forallb (fun c => PyStr.char_in c PyStr.digits)
                 (list_ascii_of_string a)
            && forallb (fun c => PyStr.char_in c PyStr.digits)
                 (list_ascii_of_string b)).
  rewrite IH. apply andb_assoc.
Qed.

(** [str(random.randint(0, 9))] is one decimal digit. *)
Lemma of_int_digit (z : Z) :
  (0 <= z <= 9)%Z ->
  String.length (PyStr.of_int z) = 1%nat /\ all_digits (PyStr.of_int z) = true.
Proof.
  intros H.
  assert (z = 0 \/ z = 1 \/ z = 2 \/ z = 3 \/ z = 4 \/ z = 5 \/ z = 6
          \/ z = 7 \/ z = 8 \/ z = 9)%Z as Hz by lia.
  repeat (destruct Hz as [-> | Hz]; [split; reflexivity|]).
  subst z; split; reflexivity.
Qed.

(** [n] rounds of a generator of single digits append [n] digits. *)
Lemma append_times_digits (gen : M string) (n : nat) (result : string) (t : tape) :
  returns gen (fun c => String.length c = 1%nat /\ all_digits c = true) ->
  exists s t', append_times n gen result t = (Ok (result +:+ s), t')
               /\ String.length s = n /\ all_digits s = true.
Proof.
  intros Hg. revert result t. induction n as [|n IH]; intros result t; simpl.
  - exists "", t. rewrite string_app_nil_r. auto.
  - unfold bind. destruct (Hg t) as (c & t1 & E & Hl & Hd). rewrite E.
    destruct (IH (result +:+ c) t1) as (s & t2 & E2 & Hl2 & Hd2).
    exists (c +:+ s), t2. rewrite E2, string_app_assoc.
    rewrite string_app_length, all_digits_app, Hl, Hd, Hl2, Hd2. auto.
Qed.

Lemma random_digit_is_digit :
  returns random_digit (fun c => String.length c = 1%nat /\ all_digits c = true).
Proof.
  unfold random_digit. eapply returns_bind; [apply randint_in_range; lia|].
  intros z Hz. apply returns_ret. apply of_int_digit, Hz.
Qed.


End Evaluation.

Ltac run :=
  cbv -[randint randint_value choice choice_value append_times random_digit
        _generate_char_from_class scan group_call hd tl range_len PyStr.of_int].

Ltac step := rewrite scan_S; run.

Section Raising.

Lemma randint_empty (a b : Z) (t : tape) :
  (b < a)%Z -> randint a b t = (Raise ValueError, t).
Proof.
  intros H. unfold randint. destruct (Z.ltb_spec b a); [reflexivity | lia].
Qed.

Lemma random_digit_eval (t : tape) :
  random_digit t = (Ok (PyStr.of_int (randint_value 0 9 (hd 0%nat t))), tl t).
Proof. unfold random_digit, bind. rewrite randint_eval by lia. reflexivity. Qed.

Lemma append_times_1 (gen : M string) (result : string) (t : tape) :
  append_times 1 gen result t = (let* piece := gen in ret (result +:+ piece)) t.
Proof. reflexivity. Qed.

End Raising.

Section Literals.

Variable recur : string -> M string.
Variables (pattern : string) (i : nat) (result : string) (t : tape).

Lemma slice_two_get (a b : ascii) :
  PyStr.slice pattern i (i + 2) = String a (String b "") ->
  String.get i pattern = Some a /\ String.get (i + 1) pattern = Some b.
Proof.
  unfold PyStr.slice. replace (i + 2 - i)%nat with 2%nat by lia.
  clear. revert i. induction pattern as [|x p IH]; intros i H.
  - destruct i; discriminate.
  - destruct i as [|i].
    + destruct p as [|y q]; [discriminate|].
      simpl in H. destruct q; inversion H; subst; split; reflexivity.
    + simpl in H. apply IH in H. exact H.
Qed.

Lemma escaped_dot_false_char (x : ascii) :
  String.get i pattern = Some x -> x <> "\"%char -> escaped_dot_at pattern i = false.
Proof.
  intros H Hx. unfold escaped_dot_at. rewrite H.
  destruct (String.get (i + 1) pattern);
    destruct x as [[] [] [] [] [] [] [] []]; try reflexivity; congruence.
Qed.

Lemma escaped_dot_false_next :
  String.get (i + 1) pattern <> Some "."%char -> escaped_dot_at pattern i = false.
Proof.
  intros H. unfold escaped_dot_at.
  destruct (String.get i pattern) as [x|]; [|reflexivity].
  destruct (String.get (i + 1) pattern) as [y|].
  - destruct (Ascii.eqb_spec y "."); [subst; congruence|].
    destruct x as [[] [] [] [] [] [] [] []]; try reflexivity.
    destruct y as [[] [] [] [] [] [] [] []]; try reflexivity. congruence.
  - destruct x as [[] [] [] [] [] [] [] []]; reflexivity.
Qed.

(** A character that opens no construct and is not skipped is emitted as
    it stands, and the cursor moves on by one. *)
Lemma dispatch_literal (x : ascii) :
  String.get i pattern = Some x ->
  PyStr.char_in x "\[(.*|" = false ->
  dispatch recur pattern i result t = (Ok (S i, result +:+ String x ""), t).
Proof.
  intros H Hx. rewrite (dispatch_unfold recur pattern i result t x H).
  assert (x <> "\"%char) as Hb by (intros ->; discriminate).
  rewrite (escaped_dot_false_char x H Hb).
  destruct (String.eqb_spec (PyStr.slice pattern i (i + 2)) "\d") as [E|_].
  { apply slice_two_get in E. destruct E as [E _]. congruence. }
  replace (i + 1)%nat with (S i) by lia.
  destruct x as [[] [] [] [] [] [] [] []]; try reflexivity; discriminate.
Qed.

(** A backslash that starts neither [\.] nor [\d] is emitted as it
    stands. *)
Lemma dispatch_backslash :
  String.get i pattern = Some "\"%char ->
  String.get (i + 1) pattern <> Some "."%char ->
  String.get (i + 1) pattern <> Some "d"%char ->
  dispatch recur pattern i result t = (Ok (S i, result +:+ "\"), t).
Proof.
  intros H Hdot Hd. rewrite (dispatch_unfold recur pattern i result t _ H).
  rewrite (escaped_dot_false_next Hdot).
  destruct (String.eqb_spec (PyStr.slice pattern i (i + 2)) "\d") as [E|_].
  { apply slice_two_get in E. destruct E as [_ E]. congruence. }
  replace (i + 1)%nat with (S i) by lia. reflexivity.
Qed.

End Literals.

Section Quantifiers.

Variables (pattern : string) (next_pos : nat) (t : tape).

Lemma getitem_eval (x : ascii) :
  String.get next_pos pattern = Some x ->
  getitem pattern next_pos = ret (String x "").
Proof. intros H. unfold getitem. rewrite H. reflexivity. Qed.

Lemma quantifier_after_optional :
  String.get next_pos pattern = Some "?"%char ->
  quantifier_after pattern next_pos t
  = (Ok (Z.of_nat (hd 0%nat t mod 2), S next_pos), tl t).
Proof.
  intros H. unfold quantifier_after.
  pose proof (get_Some_lt _ _ _ H) as Hlt.
  destruct (Nat.ltb_spec next_pos (PyStr.len pattern)); [|lia].
  rewrite (getitem_eval _ H). msimpl.
  change (String.eqb "?" "{") with false. change (String.eqb "?" "+") with false.
  change (String.eqb "?" "?") with true. cbv iota.
  unfold bind. rewrite choice_eval, choice_0_1.
  replace (next_pos + 1)%nat with (S next_pos) by lia. reflexivity.
Qed.

Lemma group_quantifier_optional :
  String.get next_pos pattern = Some "?"%char ->
  group_quantifier pattern next_pos t
  = (Ok (Z.of_nat (hd 0%nat t mod 2), S next_pos), tl t).
Proof.
  intros H. unfold group_quantifier.
  pose proof (get_Some_lt _ _ _ H) as Hlt.
  destruct (Nat.ltb_spec next_pos (PyStr.len pattern)); [|lia].
  rewrite (getitem_eval _ H). msimpl.
  change (String.eqb "?" "+") with false.
  change (String.eqb "?" "?") with true. cbv iota.
  unfold bind. rewrite choice_eval, choice_0_1.
  replace (next_pos + 1)%nat with (S next_pos) by lia. reflexivity.
Qed.



(** After a group a brace is no quantifier: one repetition, and the
    cursor stays on the brace. *)
Lemma group_quantifier_brace :
  String.get next_pos pattern = Some "{"%char ->
  group_quantifier pattern next_pos t = (Ok (1%Z, next_pos), t).
Proof.
  intros H. unfold group_quantifier.
  pose proof (get_Some_lt _ _ _ H) as Hlt.
  destruct (Nat.ltb_spec next_pos (PyStr.len pattern)); [|lia].
  rewrite (getitem_eval _ H). reflexivity.
Qed.

End Quantifiers.

(** ** C2: no exception leaves the generator *)

(** C2.  On every pattern and every run of the random source
    [generate_value_from_regex] returns a string: nothing is raised.  The
    error branches are caught: bounds in the wrong order ([{5,2}]) and
    bounds that are no integers ([{x}]) raise [ValueError] inside the [try]
    block, and the quantifier is then dropped (one repetition, cursor on the
    brace, which is read on as literal text); an unterminated [[] or [(] is
    skipped and a trailing backslash is emitted as it stands. *)
Theorem generate_value_from_regex_never_raises :
  (forall (regex_pattern : string) (t : tape),
      exists s t', generate_value_from_regex regex_pattern t = (Ok s, t'))
  /\ (forall t : tape, brace_repetition "5,2" t = (Raise ValueError, t))
  /\ (forall t : tape, quantifier_after "[A]{5,2}" 3 t = (Ok (1%Z, 3%nat), t))
  /\ (forall t : tape, brace_repetition "x" t = (Raise ValueError, t))
  /\ (forall t : tape, quantifier_after "\d{x}" 2 t = (Ok (1%Z, 2%nat), t))
  /\ (forall t : tape,
         exists d, generate_value_from_regex "\d{5,2}" t = (Ok (d +:+ "{5,2}"), tl t))
  /\ (forall t : tape, generate_value_from_regex "[abc" t = (Ok "abc", t))
  /\ (forall t : tape, generate_value_from_regex "(ab" t = (Ok "ab", t))
  /\ (forall t : tape, generate_value_from_regex "ab\" t = (Ok "ab\", t)).
Proof.
  repeat split; try (intros t; reflexivity).
  - intros regex_pattern t. unfold generate_value_from_regex.
    destruct (scan_returns (S (PyStr.len (PyStr.strip_chars "^$" regex_pattern)))
                (PyStr.strip_chars "^$" regex_pattern) 0 "") with (t := t)
      as (s & t' & E & _); [lia|]. eauto.
  - intros t. unfold generate_value_from_regex.
    run. step. rewrite randint_empty by lia. run.
    change (range_len 1) with 1%nat. rewrite append_times_1.
    unfold bind. rewrite random_digit_eval.
    run. do 6 step.
    exists (PyStr.of_int (randint_value 0 9 (hd 0%nat t))).
    apply (f_equal (fun s => (Ok s, tl t))).
    generalize (PyStr.of_int (randint_value 0 9 (hd 0%nat t))). intros d.
    change (((((d +:+ "{") +:+ "5") +:+ ",") +:+ "2") +:+ "}" = d +:+ "{5,2}").
    rewrite !string_app_assoc. reflexivity.
Qed.

(** ** C10: the backslash *)

(** C10.  A backslash is no general escape.  When the character after it
    is neither [.] nor [d] (or when there is none, the backslash being the
    last character), the dispatch emits the backslash itself and moves the
    cursor to the next character, which is then scanned in its own right.
    So ["\w"] gives ["\w"], and a trailing backslash is emitted. *)
Theorem backslash_is_literal :
  forall (recur : string -> M string) (pattern : string) (i : nat)
         (result : string) (t : tape),
    String.get i pattern = Some "\"%char ->
    String.get (i + 1) pattern <> Some "."%char ->
    String.get (i + 1) pattern <> Some "d"%char ->
    dispatch recur pattern i result t = (Ok (S i, result +:+ "\"), t)
    /\ generate_value_from_regex "\w" t = (Ok "\w", t)
    /\ generate_value_from_regex "x\" t = (Ok "x\", t).
Proof.
  intros recur pattern i result t H Hdot Hd.
  split; [apply dispatch_backslash; assumption | split; reflexivity].
Qed.

Lemma backslash_is_literal_witness :
  dispatch (group_call 3) "a\w" 1 "a" [] = (Ok (2%nat, "a\"), [])
  /\ generate_value_from_regex "\w" [] = (Ok "\w", [])
  /\ generate_value_from_regex "x\" [] = (Ok "x\", []).
Proof.
  apply (backslash_is_literal (group_call 3) "a\w" 1 "a" []);
    [reflexivity | discriminate | discriminate].
Defined.

(** ** C3: the optional quantifier *)

Section Optional.

Variable recur : string -> M string.
Variables (pattern : string) (i : nat) (result : string) (t : tape).

Lemma draw_parity : (hd 0 t mod 2 = 0 \/ hd 0 t mod 2 = 1)%nat.
Proof. pose proof (Nat.mod_upper_bound (hd 0%nat t) 2 ltac:(lia)). lia. Qed.

Lemma range_len_parity : range_len (Z.of_nat (hd 0 t mod 2)) = (hd 0 t mod 2)%nat.
Proof. unfold range_len. apply Nat2Z.id. Qed.

(** A character class followed by [?], lines 347-401. *)
Lemma dispatch_class_optional (end_bracket : nat) :
  String.get i pattern = Some "["%char ->
  PyStr.find "]" pattern i = Some end_bracket ->
  String.get (S end_bracket) pattern = Some "?"%char ->
  dispatch recur pattern i result t
  = (let* result' :=
       append_times (hd 0 t mod 2)
         (_generate_char_from_class (PyStr.slice pattern (i + 1) end_bracket))
         result in
     ret (S (S end_bracket), result')) (tl t).
Proof.
  intros Hopen Hclose Hq.
  rewrite (dispatch_unfold recur pattern i result t _ Hopen).
  rewrite (escaped_dot_false_char pattern i _ Hopen) by discriminate.
  cbv zeta. change (String.eqb "[" "[") with true. cbv iota. rewrite Hclose.
  replace (end_bracket + 1)%nat with (S end_bracket) by lia.
  unfold bind at 1. rewrite (quantifier_after_optional _ _ _ Hq).
  cbv iota. rewrite range_len_parity. reflexivity.
Qed.

(** A [\d] followed by [?], lines 404-447. *)
Lemma dispatch_digit_optional :
  PyStr.slice pattern i (i + 2) = "\d" ->
  String.get (i + 2) pattern = Some "?"%char ->
  dispatch recur pattern i result t
  = (let* result' := append_times (hd 0 t mod 2) random_digit result in
     ret (S (i + 2), result')) (tl t).
Proof.
  intros Hd Hq.
  pose proof (slice_two_get pattern i _ _ Hd) as [Hb Hnext].
  rewrite (dispatch_unfold recur pattern i result t _ Hb).
  rewrite (escaped_dot_false_next pattern i) by (rewrite Hnext; discriminate).
  cbv zeta. change (String.eqb "\" "[") with false. cbv iota.
  rewrite Hd. change (String.eqb "\d" "\d") with true. cbv iota.
  unfold bind at 1. rewrite (quantifier_after_optional _ _ _ Hq).
  cbv iota. rewrite range_len_parity. reflexivity.
Qed.

(** A group followed by [?], lines 450-474: the group is generated
    first, the count is drawn after it. *)
Lemma dispatch_group_optional (end_paren : nat) (group_result : string)
    (t1 : tape) :
  String.get i pattern = Some "("%char ->
  PyStr.find ")" pattern i = Some end_paren ->
  String.get (S end_paren) pattern = Some "?"%char ->
  recur (PyStr.slice pattern (i + 1) end_paren) t = (Ok group_result, t1) ->
  dispatch recur pattern i result t
  = (Ok (S (S end_paren),
         if (hd 0 t1 mod 2 =? 0)%nat then result else result +:+ group_result),
     tl t1).
Proof.
  intros Hopen Hclose Hq Hrec.
  rewrite (dispatch_unfold recur pattern i result t _ Hopen).
  rewrite (escaped_dot_false_char pattern i _ Hopen) by discriminate.
  cbv zeta. change (String.eqb "(" "[") with false. cbv iota.
  destruct (String.eqb_spec (PyStr.slice pattern i (i + 2)) "\d") as [E|_].
  { apply slice_two_get in E. destruct E as [E _]. congruence. }
  change (String.eqb "(" "(") with true. cbv iota. rewrite Hclose.
  replace (end_paren + 1)%nat with (S end_paren) by lia.
  unfold bind at 1. rewrite Hrec. cbv iota beta.
  unfold bind at 1. rewrite (group_quantifier_optional _ _ _ Hq).
  cbv iota.
  unfold range_len. rewrite Nat2Z.id.
  pose proof (Nat.mod_upper_bound (hd 0%nat t1) 2 ltac:(lia)) as Hb.
  destruct (hd 0%nat t1 mod 2)%nat as [|[|k]]; [reflexivity | reflexivity | lia].
Qed.

End Optional.

(** C3.  The claim holds after a character class, after a [\d] and after
    a parenthesized group: one pass of the loop over such a construct
    followed by [?] appends it 0 times on an even raw draw and once on an
    odd one, and moves the cursor past the [?]; so ["^[A]?$"] gives the
    empty string or ["A"].  After a bare literal character the code has no
    quantifier handling: the literal is emitted once, and the [?], which
    opens no construct when the scanner stands on it, is emitted as it
    stands.  So ["^A?$"] gives ["A?"] on every run, never the empty string
    and never ["A"], where the claim and the docstring's list of
    supported quantifiers say zero or one ["A"]. *)
Theorem optional_quantifier :
  (forall (recur : string -> M string) (pattern : string) (i end_bracket : nat)
          (result : string) (t : tape),
      String.get i pattern = Some "["%char ->
      PyStr.find "]" pattern i = Some end_bracket ->
      String.get (S end_bracket) pattern = Some "?"%char ->
      ((hd 0 t mod 2 = 0)%nat ->
       dispatch recur pattern i result t
       = (Ok (S (S end_bracket), result), tl t))
      /\ ((hd 0 t mod 2 = 1)%nat ->
          exists c t',
            _generate_char_from_class (PyStr.slice pattern (i + 1) end_bracket)
              (tl t) = (Ok c, t')
            /\ dispatch recur pattern i result t
               = (Ok (S (S end_bracket), result +:+ c), t')))
  /\ (forall (recur : string -> M string) (pattern : string) (i : nat)
             (result : string) (t : tape),
         PyStr.slice pattern i (i + 2) = "\d" ->
         String.get (i + 2) pattern = Some "?"%char ->
         ((hd 0 t mod 2 = 0)%nat ->
          dispatch recur pattern i result t = (Ok (S (i + 2), result), tl t))
         /\ ((hd 0 t mod 2 = 1)%nat ->
             dispatch recur pattern i result t
             = (Ok (S (i + 2),
                    result +:+ PyStr.of_int (randint_value 0 9 (hd 0%nat (tl t)))),
                tl (tl t))))
  /\ (forall (recur : string -> M string) (pattern : string) (i end_paren : nat)
             (result group_result : string) (t t1 : tape),
         String.get i pattern = Some "("%char ->
         PyStr.find ")" pattern i = Some end_paren ->
         String.get (S end_paren) pattern = Some "?"%char ->
         recur (PyStr.slice pattern (i + 1) end_paren) t = (Ok group_result, t1) ->
         dispatch recur pattern i result t
         = (Ok (S (S end_paren),
                if (hd 0 t1 mod 2 =? 0)%nat then result
                else result +:+ group_result),
            tl t1))
  /\ (forall t : tape, (hd 0 t mod 2 = 0 \/ hd 0 t mod 2 = 1)%nat)
  /\ (forall t : tape,
         generate_value_from_regex "^[A]?$" t
         = if (hd 0 t mod 2 =? 0)%nat then (Ok "", tl t)
           else (Ok "A", tl (tl t)))
  /\ (forall (recur : string -> M string) (pattern : string) (i : nat)
             (result : string) (t : tape),
         String.get i pattern = Some "?"%char ->
         dispatch recur pattern i result t = (Ok (S i, result +:+ "?"), t))
  /\ (forall t : tape, generate_value_from_regex "^A?$" t = (Ok "A?", t))
  /\ ~ (forall t : tape,
           fst (generate_value_from_regex "^A?$" t) = Ok ""
           \/ fst (generate_value_from_regex "^A?$" t) = Ok "A").
Proof.
  split.
  { intros recur pattern i end_bracket result t Hopen Hclose Hq.
    rewrite (dispatch_class_optional recur pattern i result t end_bracket
               Hopen Hclose Hq).
    split; intros ->.
    - reflexivity.
    - destruct (generate_char_returns
                  (PyStr.slice pattern (i + 1) end_bracket) (tl t))
        as (c & t' & E & _).
      exists c, t'. split; [exact E|].
      unfold bind. cbn [append_times]. unfold bind. rewrite E. reflexivity. }
  split.
  { intros recur pattern i result t Hd Hq.
    rewrite (dispatch_digit_optional recur pattern i result t Hd Hq).
    split; intros ->.
    - reflexivity.
    - unfold bind. cbn [append_times]. unfold bind.
      rewrite random_digit_eval. reflexivity. }
  split.
  { intros recur pattern i end_paren result group_result t t1.
    apply dispatch_group_optional. }
  split; [apply draw_parity|].
  split.
  { intros t. unfold generate_value_from_regex. cbv zeta.
    change (PyStr.strip_chars "^$" "^[A]?$") with "[A]?".
    change (S (PyStr.len "[A]?")) with 5%nat.
    rewrite scan_S. change (0 <? PyStr.len "[A]?")%nat with true. cbv iota.
    unfold bind at 1.
    rewrite (dispatch_class_optional (group_call 4) "[A]?" 0 "" t 2
               eq_refl eq_refl eq_refl).
    change (PyStr.slice "[A]?" (0 + 1) 2) with "A".
    destruct (draw_parity t) as [E|E]; rewrite E.
    - reflexivity.
    - unfold bind. cbn [append_times]. unfold bind.
      change (_generate_char_from_class "A") with (choice ["A"]).
      rewrite choice_eval. unfold choice_value.
      change (length ["A"]) with 1%nat. rewrite Nat.mod_1_r. reflexivity. }
  split.
  { intros recur pattern i result t H.
    apply (dispatch_literal recur pattern i result t "?" H). reflexivity. }
  split; [reflexivity|].
  intros H. destruct (H []) as [E|E]; vm_compute in E; discriminate.
Qed.

Lemma optional_quantifier_witness :
  dispatch (group_call 0) "[ab]?" 0 "" [0; 5]%nat = (Ok (5%nat, ""), [5%nat])
  /\ (exists c t',
         _generate_char_from_class (PyStr.slice "[ab]?" (0 + 1) 3) [5%nat]
         = (Ok c, t')
         /\ dispatch (group_call 0) "[ab]?" 0 "" [1; 5]%nat
            = (Ok (5%nat, "" +:+ c), t'))
  /\ dispatch (group_call 0) "x\d?" 1 "x" [4; 7]%nat = (Ok (4%nat, "x"), [7%nat])
  /\ dispatch (group_call 0) "x\d?" 1 "x" [1; 7]%nat
     = (Ok (4%nat, "x" +:+ PyStr.of_int (randint_value 0 9 7)), [])
  /\ dispatch (group_call 9) "(ab)?" 0 "x" [2]%nat = (Ok (5%nat, "x"), [])
  /\ dispatch (group_call 9) "(ab)?" 0 "x" [1]%nat
     = (Ok (5%nat, "x" +:+ "ab"), [])
  /\ dispatch (group_call 0) "A?" 1 "A" [] = (Ok (2%nat, "A" +:+ "?"), []).
Proof.
  pose proof optional_quantifier as (H1 & H2 & H3 & _ & _ & H6 & _).
  split.
  { apply (proj1 (H1 (group_call 0) "[ab]?" 0%nat 3%nat "" [0; 5]%nat
                     eq_refl eq_refl eq_refl)).
    reflexivity. }
  split.
  { apply (proj2 (H1 (group_call 0) "[ab]?" 0%nat 3%nat "" [1; 5]%nat
                     eq_refl eq_refl eq_refl)).
    reflexivity. }
  split.
  { apply (proj1 (H2 (group_call 0) "x\d?" 1%nat "x" [4; 7]%nat
                     eq_refl eq_refl)).
    reflexivity. }
  split.
  { apply (proj2 (H2 (group_call 0) "x\d?" 1%nat "x" [1; 7]%nat
                     eq_refl eq_refl)).
    reflexivity. }
  split.
  { apply (H3 (group_call 9) "(ab)?" 0%nat 3%nat "x" "ab" [2]%nat [2]%nat);
      reflexivity. }
  split.
  { apply (H3 (group_call 9) "(ab)?" 0%nat 3%nat "x" "ab" [1]%nat [1]%nat);
      reflexivity. }
  apply (H6 (group_call 0) "A?" 1%nat "A" []). reflexivity.
Defined.

(** ** C5: a brace after a group *)

(** C5, as stated, fails: ["(AB){3}"] gives ["AB{3}"], not three copies of
    the group. *)
Lemma group_brace_counterexample :
  ~ (forall t : tape, fst (generate_value_from_regex "(AB){3}" t) = Ok "ABABAB").
Proof.
  intros H. specialize (H []). vm_compute in H. discriminate.
Qed.

(** C5, amended.  After a parenthesized group only [+] and [?] are read as
    quantifiers.  A brace that follows the group is none: the dispatch at
    the opening parenthesis emits the group's sample once and leaves the
    cursor on the brace, and the dispatch at the brace emits it as a literal
    character, like the text after it; so ["(AB){3}"] always gives
    ["AB{3}"]. *)
Theorem group_ignores_brace :
  forall (recur : string -> M string) (pattern : string) (i end_paren : nat)
         (result group_result : string) (t t1 : tape),
    String.get i pattern = Some "("%char ->
    PyStr.find ")" pattern i = Some end_paren ->
    String.get (S end_paren) pattern = Some "{"%char ->
    recur (PyStr.slice pattern (i + 1) end_paren) t = (Ok group_result, t1) ->
    dispatch recur pattern i result t
    = (Ok (S end_paren, result +:+ group_result), t1)
    /\ dispatch recur pattern (S end_paren) (result +:+ group_result) t1
       = (Ok (S (S end_paren), (result +:+ group_result) +:+ "{"), t1)
    /\ generate_value_from_regex "(AB){3}" t = (Ok "AB{3}", t).
Proof.
  intros recur pattern i end_paren result group_result t t1 Hopen Hfind Hbrace Hrec.
  split; [|split; [|reflexivity]].
  - rewrite (dispatch_unfold recur pattern i result t _ Hopen).
    rewrite (escaped_dot_false_char pattern i _ Hopen) by discriminate.
    destruct (String.eqb_spec (PyStr.slice pattern i (i + 2)) "\d") as [E|_].
    { apply slice_two_get in E. destruct E as [E _]. congruence. }
    cbv zeta.
    change (String.eqb "(" "[") with false. change (String.eqb "(" "(") with true.
    cbv iota. rewrite Hfind. unfold bind at 1. rewrite Hrec.
    replace (end_paren + 1)%nat with (S end_paren) by lia.
    cbv iota. unfold bind at 1. rewrite (group_quantifier_brace _ _ _ Hbrace).
    change (range_len 1) with 1%nat. reflexivity.
  - apply (dispatch_literal recur pattern (S end_paren) _ t1 "{" Hbrace).
    reflexivity.
Qed.

Lemma group_ignores_brace_witness :
  dispatch (group_call 4) "(AB){3}" 0 "" [] = (Ok (4%nat, "AB"), [])
  /\ dispatch (group_call 4) "(AB){3}" 4 "AB" [] = (Ok (5%nat, "AB{"), [])
  /\ generate_value_from_regex "(AB){3}" [] = (Ok "AB{3}", []).
Proof.
  apply (group_ignores_brace (group_call 4) "(AB){3}" 0 3 "" "AB" [] []);
    reflexivity.
Defined.


(** ** C4: the combined class *)

(** C4 fails on the code: for the class body ["A-Za-z0-9"] the test for
    ["A-Z"] at line 502 returns before the combined pool of lines 510-517 is
    built, so every draw is an uppercase letter; no lowercase letter and no
    digit is ever returned. *)
Theorem combined_class_draws_only_uppercase :
  forall t : tape,
    exists c,
      _generate_char_from_class "A-Za-z0-9" t = (Ok c, tl t)
      /\ member c (PyStr.chars PyStr.ascii_uppercase) = true
      /\ member c (PyStr.chars PyStr.ascii_lowercase) = false
      /\ member c (PyStr.chars PyStr.digits) = false.
Proof.
  intros t. pose (k := (hd 0%nat t mod 26)%nat).
  exists (nth k (PyStr.chars PyStr.ascii_uppercase) "A").
  split; [reflexivity|].
  assert (k < 26)%nat as H by (apply Nat.mod_upper_bound; lia).
  clearbody k.
  do 26 (destruct k as [|k]; [repeat split; reflexivity|]).
  lia.
Qed.

Section Splitting.

Lemma prefix_comma_head (c : ascii) (s : string) :
  String.prefix "," (String c s) = Ascii.eqb "," c.
Proof.
  change (String.prefix "," (String c s))
    with (if ascii_dec "," c then String.prefix "" s else false).
  destruct (ascii_dec "," c) as [<-|H].
  - destruct s; reflexivity.
  - symmetry. apply Ascii.eqb_neq. exact H.
Qed.

Lemma contains_comma_cons (c : ascii) (s : string) :
  PyStr.contains "," (String c s) = Ascii.eqb "," c || PyStr.contains "," s.
Proof.
  unfold PyStr.contains. cbn [index]. rewrite prefix_comma_head.
  destruct (Ascii.eqb "," c); [reflexivity|]. simpl.
  destruct (index 0 "," s); reflexivity.
Qed.

(** A piece without a comma, then a comma: [split] cuts there. *)
Lemma split_go_comma (cur piece rest : string) :
  PyStr.contains "," piece = false ->
  PyStr.split_go "," 0 cur (piece +:+ String "," rest)
  = (cur +:+ piece) :: PyStr.split_go "," 0 "" rest.
Proof.
  revert cur. induction piece as [|c piece IH]; intros cur H.
  - rewrite string_app_nil_r. change ("" +:+ String "," rest) with (String "," rest).
    cbn [PyStr.split_go]. rewrite prefix_comma_head. reflexivity.
  - rewrite contains_comma_cons in H. apply orb_false_iff in H. destruct H as [Hc Hp].
    change (String c piece +:+ String "," rest)
      with (String c (piece +:+ String "," rest)).
    cbn [PyStr.split_go]. rewrite prefix_comma_head, Hc.
    rewrite (IH _ Hp), string_app_assoc. reflexivity.
Qed.

(** A last piece without a comma is kept whole. *)
Lemma split_go_last (cur piece : string) :
  PyStr.contains "," piece = false ->
  PyStr.split_go "," 0 cur piece = [cur +:+ piece].
Proof.
  revert cur. induction piece as [|c piece IH]; intros cur H.
  - rewrite string_app_nil_r. reflexivity.
  - rewrite contains_comma_cons in H. apply orb_false_iff in H. destruct H as [Hc Hp].
    cbn [PyStr.split_go]. rewrite prefix_comma_head, Hc.
    rewrite (IH _ Hp), string_app_assoc. reflexivity.
Qed.

Lemma split_two (sn sm : string) :
  PyStr.contains "," sn = false ->
  PyStr.contains "," sm = false ->
  PyStr.split "," (sn +:+ String "," sm) = [sn; sm].
Proof.
  intros Hn Hm. unfold PyStr.split. rewrite (split_go_comma "" sn sm Hn).
  rewrite (split_go_last "" sm Hm). reflexivity.
Qed.

Lemma contains_comma_app (sn sm : string) :
  PyStr.contains "," (sn +:+ String "," sm) = true.
Proof.
  induction sn as [|c sn IH].
  - change ("" +:+ String "," sm) with (String "," sm).
    rewrite contains_comma_cons. reflexivity.
  - change (String c sn +:+ String "," sm) with (String c (sn +:+ String "," sm)).
    rewrite contains_comma_cons, IH. apply orb_true_r.
Qed.

Lemma forallb_lstrip_by (p q : ascii -> bool) (s : string) :
  forallb q (list_ascii_of_string s) = true ->
  forallb q (list_ascii_of_string (PyStr.lstrip_by p s)) = true.
Proof.
  induction s as [|c s IH]; simpl; [auto|].
  intros H. apply andb_true_iff in H. destruct H as [Hc Hs].
  destruct (p c); [apply IH, Hs|]. simpl. rewrite Hc, Hs. reflexivity.
Qed.

Lemma forallb_rstrip_by (p q : ascii -> bool) (s : string) :
  forallb q (list_ascii_of_string s) = true ->
  forallb q (list_ascii_of_string (PyStr.rstrip_by p s)) = true.
Proof.
  induction s as [|c s IH]; simpl; [auto|].
  intros H. apply andb_true_iff in H. destruct H as [Hc Hs].
  specialize (IH Hs). destruct (PyStr.rstrip_by p s) as [|x r].
  - destruct (p c); simpl; [reflexivity | rewrite Hc; reflexivity].
  - simpl in *. rewrite Hc, IH. reflexivity.
Qed.

(** What [int] accepts is not blank. *)
Lemma int_not_blank (s : string) (z : Z) :
  PyStr.int s = Some z -> PyStr.nonempty (PyStr.strip s) = true.
Proof.
  intros H. destruct (PyStr.strip s) as [|c r] eqn:E; [|reflexivity].
  exfalso. apply strip_blank in E. unfold blank in E.
  apply (forallb_lstrip_by PyStr.int_space) in E.
  apply (forallb_rstrip_by PyStr.int_space) in E.
  unfold PyStr.int in H. fold (PyStr.strip_by PyStr.int_space s) in E.
  destruct (PyStr.strip_by PyStr.int_space s) as [|x r]; [discriminate|].
  simpl in E. apply andb_true_iff in E. destruct E as [Hx _].
  destruct x as [[] [] [] [] [] [] [] []]; try discriminate Hx; discriminate H.
Qed.

End Splitting.

(** ** C6: the ranges of the random repetition counts *)

Section Braces.

Variables (sn sm : string) (n : Z) (t : tape).
Hypothesis Hsn : PyStr.contains "," sn = false.
Hypothesis Hsm : PyStr.contains "," sm = false.
Hypothesis Hmin : PyStr.int sn = Some n.



End Braces.

Lemma quantifier_after_brace (pattern : string) (next_pos end_brace : nat)
    (repetition : Z) (t t' : tape) :
  String.get next_pos pattern = Some "{"%char ->
  PyStr.find "}" pattern next_pos = Some end_brace ->
  brace_repetition (PyStr.slice pattern (next_pos + 1) end_brace) t
  = (Ok repetition, t') ->
  quantifier_after pattern next_pos t = (Ok (repetition, S end_brace), t').
Proof.
  intros H Hfind Hrep. unfold quantifier_after.
  pose proof (get_Some_lt _ _ _ H) as Hlt.
  destruct (Nat.ltb_spec next_pos (PyStr.len pattern)); [|lia].
  rewrite (getitem_eval _ _ _ H). msimpl.
  change (String.eqb "{" "{") with true. cbv iota. rewrite Hfind.
  cbv zeta. unfold try_except_ValueError, bind. rewrite Hrep.
  replace (end_brace + 1)%nat with (S end_brace) by lia. reflexivity.
Qed.







(** ** The constraint extractor *)

Section ExtractorFacts.

(** A suite that is [None], or a mapping without the key, counts as
    having no expectations. *)
Lemma no_expectations_missing (d : list (string * PyVal)) :
  Py.dict_lookup "expectations" d = None ->
  no_expectations (PDict d) = Ok true.
Proof.
  intros H. unfold no_expectations. destruct d as [|kv d]; [reflexivity|].
  cbn [Py.truthy negb Py.contains bindR]. rewrite H. reflexivity.
Qed.

Lemma member_In (c : string) (l : list string) :
  member c l = true <-> In c l.
Proof.
  unfold member. rewrite existsb_exists. split.
  - intros (x & Hx & E). apply String.eqb_eq in E. subst. exact Hx.
  - intros H. exists c. split; [exact H | apply String.eqb_refl].
Qed.

Lemma merge_hints_lookup (m m' : gmap pykey (gmap string (list string)))
    (column : PyVal) (hints : gmap string (list string))
    (key key' : pykey) (kind : string) :
  merge_hints m column hints = Ok m' ->
  py_hash column = Ok key' ->
  hint_of m' key kind
  = match (if decide (key' = key) then hints !! kind else None) with
    | Some l => Some l
    | None => hint_of m key kind
    end.
Proof.
  unfold merge_hints, hint_of. intros H Hk. rewrite Hk in H. simpl in H.
  destruct (decide (hints = ∅)) as [->|Hne].
  - inversion H; subst. rewrite lookup_empty. destruct (decide _); reflexivity.
  - inversion H; subst. destruct (decide (key' = key)) as [->|Hd].
    + rewrite lookup_insert_eq. rewrite lookup_union.
      destruct (hints !! kind) as [l|] eqn:E.
      * destruct (default ∅ (m !! key) !! kind); reflexivity.
      * destruct (m !! key) as [entry|]; simpl.
        { destruct (entry !! kind); reflexivity. }
        { rewrite lookup_empty. reflexivity. }
    + rewrite lookup_insert_ne by exact Hd. reflexivity.
Qed.

Lemma metadata_hints_step_lookup (m m' : gmap pykey (gmap string (list string)))
    (expectation : PyVal) (key : pykey) (kind : string) :
  metadata_hints_step m expectation = Ok m' ->
  hint_of m' key kind
  = match rule_hint key kind expectation with
    | Some l => Some l
    | None => hint_of m key kind
    end.
Proof.
  unfold metadata_hints_step, rule_hint. intros H.
  destruct (expectation_hints expectation) as [[[column hints]|]| |];
    simpl in H; try discriminate.
  - destruct (py_hash column) as [key'| |] eqn:Hk.
    + apply (merge_hints_lookup m m' column hints key key' kind H Hk).
    + unfold merge_hints in H. rewrite Hk in H.
      destruct (decide (hints = ∅)); [|discriminate].
      inversion H; subst. reflexivity.
    + unfold merge_hints in H. rewrite Hk in H.
      destruct (decide (hints = ∅)); [|discriminate].
      inversion H; subst. reflexivity.
  - inversion H; subst. reflexivity.
Qed.

(** The loop of [extract_metadata_hints] keeps, for every column and
    kind, the list of the last rule that carries one. *)
Lemma metadata_hints_loop (rules : list PyVal) :
  forall (m m' : gmap pykey (gmap string (list string)))
         (key : pykey) (kind : string),
    for_each metadata_hints_step rules m = Ok m' ->
    hint_of m' key kind
    = match last_hint key kind rules with
      | Some l => Some l
      | None => hint_of m key kind
      end.
Proof.
  induction rules as [|e rest IH]; intros m m' key kind H; simpl in H.
  - inversion H; subst. reflexivity.
  - destruct (metadata_hints_step m e) as [m1| |] eqn:E; simpl in H;
      try discriminate.
    rewrite (IH m1 m' key kind H). simpl.
    destruct (last_hint key kind rest); [reflexivity|].
    apply (metadata_hints_step_lookup m m1 e key kind E).
Qed.

End ExtractorFacts.

(** ** C7: a missing or malformed suite *)

(** C7, as stated, fails: when the value under ["expectations"] is no list
    the extraction raises.  For [None] and for a number the [for] loop
    raises [TypeError]; for a non-empty string it runs through the
    characters and [expectation.get] raises [AttributeError]. *)
Lemma non_list_expectations_counterexample :
  extract_value_sets (PDict [("expectations", PNone)]) = Raise TypeError
  /\ extract_metadata_hints (PDict [("expectations", PNone)]) = Raise TypeError
  /\ extract_regex_patterns (PDict [("expectations", PInt 3)]) = Raise TypeError
  /\ extract_strftime_formats (PDict [("expectations", PStr "ab")])
     = Raise AttributeError.
Proof. repeat split; reflexivity. Qed.

(** C7, amended.  For a suite that is [None], or a mapping that lacks the
    key ["expectations"], or a mapping whose ["expectations"] is the empty
    list (whatever else it holds), each of [extract_value_sets],
    [extract_regex_patterns], [extract_strftime_formats] and
    [extract_metadata_hints] returns the empty mapping and raises nothing.
    (A value under ["expectations"] that is no list is not guarded
    against.) *)
Theorem missing_suite_gives_empty :
  forall d : list (string * PyVal),
    Py.dict_lookup "expectations" d = None
    \/ Py.dict_lookup "expectations" d = Some (PList []) ->
    (extract_value_sets (PDict d) = Ok ∅
     /\ extract_regex_patterns (PDict d) = Ok ∅
     /\ extract_strftime_formats (PDict d) = Ok ∅
     /\ extract_metadata_hints (PDict d) = Ok ∅)
    /\ (extract_value_sets PNone = Ok ∅
        /\ extract_regex_patterns PNone = Ok ∅
        /\ extract_strftime_formats PNone = Ok ∅
        /\ extract_metadata_hints PNone = Ok ∅).
Proof.
  intros d H. split; [|repeat split; reflexivity].
  unfold extract_value_sets, extract_regex_patterns, extract_strftime_formats,
    extract_by_type, extract_metadata_hints.
  destruct H as [H|H].
  - rewrite (no_expectations_missing d H). repeat split; reflexivity.
  - assert (no_expectations (PDict d) = Ok false) as Hno.
    { unfold no_expectations. destruct d as [|kv d]; [discriminate|].
      cbn [Py.truthy negb Py.contains bindR]. rewrite H. reflexivity. }
    rewrite Hno. cbn [bindR Py.getitem]. rewrite H.
    repeat split; reflexivity.
Qed.

Lemma missing_suite_gives_empty_witness :
  (extract_value_sets
     (PDict [("name", PStr "suite"); ("expectations", PList [])]) = Ok ∅
   /\ extract_regex_patterns
        (PDict [("name", PStr "suite"); ("expectations", PList [])]) = Ok ∅
   /\ extract_strftime_formats
        (PDict [("name", PStr "suite"); ("expectations", PList [])]) = Ok ∅
   /\ extract_metadata_hints
        (PDict [("name", PStr "suite"); ("expectations", PList [])]) = Ok ∅)
  /\ (extract_value_sets (PDict [("name", PStr "suite")]) = Ok ∅
      /\ extract_regex_patterns (PDict [("name", PStr "suite")]) = Ok ∅
      /\ extract_strftime_formats (PDict [("name", PStr "suite")]) = Ok ∅
      /\ extract_metadata_hints (PDict [("name", PStr "suite")]) = Ok ∅).
Proof.
  split.
  - apply (missing_suite_gives_empty
             [("name", PStr "suite"); ("expectations", PList [])]).
    right. reflexivity.
  - apply (missing_suite_gives_empty [("name", PStr "suite")]).
    left. reflexivity.
Defined.

(** ** C8: merging the metadata hints of a column *)

(** C8, as stated, fails in its second half: two rules for column ["c"]
    that both carry a [lob] list leave the later list alone in the entry;
    the earlier list is replaced, not combined with it. *)
Lemma same_kind_hints_counterexample :
  exists m,
    extract_metadata_hints
      (PDict [("expectations",
               PList [PDict [("kwargs", PDict [("column", PStr "c")]);
                             ("meta", PDict [("lob", PList [PStr "MD"])])];
                      PDict [("kwargs", PDict [("column", PStr "c")]);
                             ("meta", PDict [("lob", PList [PStr "ME"])])]])])
    = Ok m
    /\ hint_of m (KStr "c") "lob" = Some ["ME"]
    /\ ~ In "MD" ["ME"].
Proof.
  eexists. split; [vm_compute; reflexivity|]. split; [vm_compute; reflexivity|].
  intros [H|[]]. discriminate.
Qed.

(** C8, amended.  [extract_metadata_hints] merges the hints of a column
    across rules kind by kind: in the resulting entry every hint kind that
    some rule for the column carries is present, and its list is the list
    of the last such rule (a later list for the same kind replaces the
    earlier one).  So a rule with [lob: ["MD"]] and a rule with
    [states: ["NY", "NJ"]] for one column give one entry with both kinds. *)
Theorem metadata_hints_merge :
  forall (d : list (string * PyVal)) (rules : list PyVal)
         (m : gmap pykey (gmap string (list string)))
         (key : pykey) (kind : string),
    Py.dict_lookup "expectations" d = Some (PList rules) ->
    extract_metadata_hints (PDict d) = Ok m ->
    hint_of m key kind = last_hint key kind rules
    /\ extract_metadata_hints
         (PDict [("expectations",
                  PList [PDict [("kwargs", PDict [("column", PStr "c")]);
                                ("meta", PDict [("lob", PList [PStr "MD"])])];
                         PDict [("kwargs", PDict [("column", PStr "c")]);
                                ("meta",
                                 PDict [("states",
                                         PList [PStr "NY"; PStr "NJ"])])]])])
       = Ok {[ KStr "c" := {[ "lob" := ["MD"]; "states" := ["NY"; "NJ"] ]} ]}.
Proof.
  intros d rules m key kind Hd H. split; [|vm_compute; reflexivity].
  unfold extract_metadata_hints in H.
  assert (no_expectations (PDict d) = Ok false) as Hno.
  { unfold no_expectations. destruct d as [|kv d]; [discriminate|].
    cbn [Py.truthy negb Py.contains bindR]. rewrite Hd. reflexivity. }
  rewrite Hno in H. cbn [bindR Py.getitem] in H. rewrite Hd in H.
  cbn [bindR Py.iter] in H.
  rewrite (metadata_hints_loop rules ∅ m key kind H).
  destruct (last_hint key kind rules); [reflexivity|].
  unfold hint_of. rewrite lookup_empty. reflexivity.
Qed.

Lemma metadata_hints_merge_witness :
  hint_of {[ KStr "c" := {[ "lob" := ["MD"]; "states" := ["NY"; "NJ"] ]} ]}
          (KStr "c") "states"
  = last_hint (KStr "c") "states"
      [PDict [("kwargs", PDict [("column", PStr "c")]);
              ("meta", PDict [("lob", PList [PStr "MD"])])];
       PDict [("kwargs", PDict [("column", PStr "c")]);
              ("meta", PDict [("states", PList [PStr "NY"; PStr "NJ"])])]].
Proof.
  refine (proj1 (metadata_hints_merge
           [("expectations",
             PList [PDict [("kwargs", PDict [("column", PStr "c")]);
                           ("meta", PDict [("lob", PList [PStr "MD"])])];
                    PDict [("kwargs", PDict [("column", PStr "c")]);
                           ("meta", PDict [("states",
                                            PList [PStr "NY"; PStr "NJ"])])]])]
           _ _ (KStr "c") "states" _ _)).
  - reflexivity.
  - vm_compute. reflexivity.
Defined.

(** ** C9: the constraints of a column *)

Lemma looks_like_column_name_iff (value : string) :
  _looks_like_column_name value = true
  <-> blank value = true
      \/ (exists p, In p suspicious_patterns
                    /\ PyStr.upper value = PyStr.upper p)
      \/ (PyStr.contains "_" value = true
          /\ PyStr.upper value = value
          /\ (length (PyStr.split_ws value) <= 4)%nat).
Proof.
  unfold _looks_like_column_name.
  assert (negb (PyStr.nonempty value)
          || (PyStr.len (PyStr.strip value) =? 0)%nat = true
          <-> blank value = true) as Hblank.
  { rewrite <- strip_blank. rewrite orb_true_iff, Nat.eqb_eq. split.
    - intros [H|H].
      + destruct value; [reflexivity | discriminate].
      + destruct (PyStr.strip value); [reflexivity | discriminate].
    - intros ->. right. reflexivity. }
  destruct (negb (PyStr.nonempty value)
            || (PyStr.len (PyStr.strip value) =? 0)%nat) eqn:E1.
  { split; [intros _; left; apply Hblank; reflexivity | reflexivity]. }
  assert (blank value <> true) as Hnb.
  { intros Hb. apply Hblank in Hb. discriminate. }
  destruct (member (PyStr.upper value) (map PyStr.upper suspicious_patterns)) eqn:E2.
  { split; [|reflexivity]. intros _. right. left.
    apply member_In, in_map_iff in E2. destruct E2 as (p & Hp & Hin).
    exists p. split; [exact Hin | symmetry; exact Hp]. }
  rewrite !andb_true_iff, String.eqb_eq, Nat.leb_le. split.
  - intros [[H1 H2] H3]. right. right. auto.
  - intros [H|[(p & Hin & Hp)|(H1 & H2 & H3)]].
    + contradiction.
    + exfalso. assert (member (PyStr.upper value)
                         (map PyStr.upper suspicious_patterns) = true) as Hm.
      { apply member_In, in_map_iff. exists p. split; [symmetry; exact Hp | exact Hin]. }
      rewrite Hm in E2. discriminate.
    + auto.
Qed.

(** C9.  [get_constraints_for_column] returns the value-set entries of the
    column with the placeholder-like values filtered out, and [None] when
    the column has no value set or nothing is left.  A value is
    placeholder-like exactly when it is blank (empty or whitespace only),
    or its uppercasing equals that of a string of the denylist, or it
    contains an underscore, equals its own uppercasing and splits into at
    most 4 whitespace-separated tokens.  For the value set
    [["MEMBER_ID", "X1"]] the result is [["X1"]]. *)
Theorem get_constraints_filters_placeholders :
  forall (expectations column_name : PyVal)
         (value_sets : gmap pykey (list string)) (key : pykey),
    extract_value_sets expectations = Ok value_sets ->
    py_hash column_name = Ok key ->
    get_constraints_for_column expectations column_name
    = Ok (match value_sets !! key with
          | Some values =>
              match List.filter (fun v => negb (_looks_like_column_name v)) values with
              | [] => None
              | kept => Some kept
              end
          | None => None
          end)
    /\ (forall value : string,
           _looks_like_column_name value = true
           <-> blank value = true
               \/ (exists p, In p suspicious_patterns
                             /\ PyStr.upper value = PyStr.upper p)
               \/ (PyStr.contains "_" value = true
                   /\ PyStr.upper value = value
                   /\ (length (PyStr.split_ws value) <= 4)%nat))
    /\ get_constraints_for_column
         (PDict [("expectations",
                  PList [PDict [("type", PStr "expect_column_values_to_be_in_set");
                                ("kwargs",
                                 PDict [("column", PStr "id");
                                        ("value_set",
                                         PList [PStr "MEMBER_ID"; PStr "X1"])])]])])
         (PStr "id")
       = Ok (Some ["X1"]).
Proof.
  intros expectations column_name value_sets key Hvs Hk.
  split; [|split; [apply looks_like_column_name_iff | vm_compute; reflexivity]].
  unfold get_constraints_for_column. rewrite Hvs, Hk. cbn [bindR].
  destruct (value_sets !! key) as [values|]; [|reflexivity].
  destruct (List.filter _ values); reflexivity.
Qed.

Lemma get_constraints_filters_placeholders_witness :
  get_constraints_for_column
    (PDict [("expectations",
             PList [PDict [("type", PStr "expect_column_values_to_be_in_set");
                           ("kwargs",
                            PDict [("column", PStr "Status");
                                   ("value_set",
                                    PList [PStr "A"; PStr "DATE"; PStr "B"])])]])])
    (PStr "Status")
  = Ok (match ({[ KStr "Status" := ["A"; "DATE"; "B"] ]} : gmap pykey (list string))
                !! KStr "Status" with
        | Some values =>
            match List.filter (fun v => negb (_looks_like_column_name v)) values with
            | [] => None
            | kept => Some kept
            end
        | None => None
        end).
Proof.
  apply (get_constraints_filters_placeholders
           (PDict [("expectations",
                    PList [PDict [("type", PStr "expect_column_values_to_be_in_set");
                                  ("kwargs",
                                   PDict [("column", PStr "Status");
                                          ("value_set",
                                           PList [PStr "A"; PStr "DATE"; PStr "B"])])]])])
           (PStr "Status")
           {[ KStr "Status" := ["A"; "DATE"; "B"] ]} (KStr "Status")).
  - vm_compute. reflexivity.
  - reflexivity.
Defined.

(** * Further properties of the generator *)

Section Characters.

Lemma prefix_char_head (c x : ascii) (s : string) :
  String.prefix (String c "") (String x s) = Ascii.eqb c x.
Proof.
  change (String.prefix (String c "") (String x s))
    with (if ascii_dec c x then String.prefix "" s else false).
  destruct (ascii_dec c x) as [<-|H].
  - rewrite Ascii.eqb_refl. destruct s; reflexivity.
  - symmetry. apply Ascii.eqb_neq. exact H.
Qed.

Lemma contains_char_cons (c x : ascii) (s : string) :
  PyStr.contains (String c "") (String x s)
  = Ascii.eqb c x || PyStr.contains (String c "") s.
Proof.
  unfold PyStr.contains. cbn [index]. rewrite prefix_char_head.
  destruct (Ascii.eqb c x); [reflexivity|]. simpl.
  destruct (index 0 (String c "") s); reflexivity.
Qed.

(** [c in s] for a one-character [c] is membership of the character. *)
Lemma contains_char_in (c : ascii) (s : string) :
  PyStr.contains (String c "") s = PyStr.char_in c s.
Proof.
  induction s as [|x s IH]; [reflexivity|].
  rewrite contains_char_cons, IH. reflexivity.
Qed.

Lemma char_free_get (c : ascii) (s : string) (i : nat) :
  char_free c s = true -> String.get i s <> Some c.
Proof.
  unfold char_free, PyStr.char_in. revert i.
  induction s as [|x s IH]; intros i H; [destruct i; discriminate|].
  simpl in H. apply negb_true_iff, orb_false_iff in H. destruct H as [Hx Hs].
  destruct i as [|i]; simpl.
  - intros E. inversion E; subst. rewrite Ascii.eqb_refl in Hx. discriminate.
  - apply IH. rewrite Hs. reflexivity.
Qed.

Lemma index_start_None (sub s : string) (n : nat) :
  index 0 sub s = None -> index n sub s = None.
Proof.
  revert n. induction s as [|x s IH]; intros n H.
  - destruct n; [exact H | reflexivity].
  - destruct n as [|n]; [exact H|].
    cbn [index] in *. destruct (String.prefix sub (String x s)); [discriminate|].
    destruct (index 0 sub s) eqn:E; [discriminate|].
    rewrite (IH n eq_refl). reflexivity.
Qed.

(** A character that does not occur is found from no position. *)
Lemma char_free_find (c : ascii) (s : string) (i : nat) :
  char_free c s = true -> PyStr.find (String c "") s i = None.
Proof.
  unfold char_free. rewrite <- contains_char_in. unfold PyStr.contains, PyStr.find.
  intros H. apply index_start_None.
  destruct (index 0 (String c "") s); [discriminate | reflexivity].
Qed.

Lemma suffix_from_get (s : string) (i : nat) (x : ascii) :
  String.get i s = Some x -> suffix_from i s = String x (suffix_from (S i) s).
Proof.
  unfold suffix_from. revert i. induction s as [|c s IH]; intros i H.
  - destruct i; discriminate.
  - destruct i as [|i]; simpl in H.
    + inversion H; subst. cbn [String.length substring Nat.sub].
      rewrite Nat.sub_0_r. reflexivity.
    + cbn [String.length substring Nat.sub]. apply (IH i H).
Qed.

Lemma suffix_from_end (s : string) (i : nat) :
  (String.length s <= i)%nat -> suffix_from i s = "".
Proof.
  unfold suffix_from. intros H.
  replace (String.length s - i)%nat with 0%nat by lia.
  clear H. revert i. induction s as [|c s IH]; intros i; destruct i; try reflexivity.
  simpl. apply IH.
Qed.

Lemma suffix_from_0 (s : string) : suffix_from 0 s = s.
Proof.
  unfold suffix_from. rewrite Nat.sub_0_r.
  induction s as [|c s IH]; [reflexivity|]. simpl. rewrite IH. reflexivity.
Qed.

End Characters.

Section PlainPatterns.

Variable pattern : string.
Hypothesis no_backslash : char_free "\" pattern = true.
Hypothesis no_bracket : char_free "]" pattern = true.
Hypothesis no_paren : char_free ")" pattern = true.

(** One pass over a pattern in which nothing can open a construct: the
    characters [[ ( . * |] are dropped and every other character is
    emitted. *)
Lemma dispatch_plain (recur : string -> M string) (i : nat) (x : ascii)
    (result : string) (t : tape) :
  String.get i pattern = Some x ->
  dispatch recur pattern i result t
  = (Ok (S i, result +:+ remove_chars "[(.*|" (String x "")), t).
Proof.
  intros H.
  assert (x <> "\"%char) as Hb.
  { intros ->. exact (char_free_get _ _ _ no_backslash H). }
  destruct (PyStr.char_in x "[(.*|") eqn:Hset.
  - rewrite (dispatch_unfold recur pattern i result t x H).
    rewrite (escaped_dot_false_char pattern i x H Hb).
    destruct (String.eqb_spec (PyStr.slice pattern i (i + 2)) "\d") as [E|_].
    { apply slice_two_get in E. destruct E as [E _]. congruence. }
    rewrite (char_free_find _ _ i no_bracket), (char_free_find _ _ i no_paren).
    replace (i + 1)%nat with (S i) by lia.
    cbn [remove_chars]. rewrite Hset, string_app_nil_r.
    destruct x as [[] [] [] [] [] [] [] []]; try discriminate Hset; reflexivity.
  - rewrite (dispatch_literal recur pattern i result t x H).
    + cbn [remove_chars]. rewrite Hset. reflexivity.
    + destruct x as [[] [] [] [] [] [] [] []]; try discriminate Hset;
        try reflexivity. congruence.
Qed.

Lemma scan_plain (fuel : nat) :
  forall (i : nat) (result : string) (t : tape),
    (PyStr.len pattern - i < fuel)%nat ->
    scan fuel pattern i result t
    = (Ok (result +:+ remove_chars "[(.*|" (suffix_from i pattern)), t).
Proof.
  induction fuel as [|fuel IH]; intros i result t Hf; [lia|].
  rewrite scan_S. destruct (Nat.ltb_spec i (PyStr.len pattern)) as [Hi|Hi].
  - destruct (get_lt pattern i Hi) as [x Hx].
    unfold bind. rewrite (dispatch_plain (group_call fuel) i x result t Hx).
    rewrite IH by lia. rewrite (suffix_from_get pattern i x Hx).
    rewrite string_app_assoc. cbn [remove_chars].
    destruct (PyStr.char_in x "[(.*|"); reflexivity.
  - rewrite (suffix_from_end pattern i Hi). cbn [remove_chars].
    rewrite string_app_nil_r. reflexivity.
Qed.

End PlainPatterns.

(** X1.  A pattern that, once its anchors are stripped, has no backslash,
    no closing bracket and no closing parenthesis is generated without any
    random draw: the output is the stripped pattern with the characters
    [[ ( . * |] removed.  In particular text without regex characters comes
    back unchanged, and [+], [?], [{] and [}] after a literal are literal. *)
Theorem plain_pattern_output :
  forall (regex_pattern : string) (t : tape),
    char_free "\" (PyStr.strip_chars "^$" regex_pattern) = true ->
    char_free "]" (PyStr.strip_chars "^$" regex_pattern) = true ->
    char_free ")" (PyStr.strip_chars "^$" regex_pattern) = true ->
    generate_value_from_regex regex_pattern t
    = (Ok (remove_chars "[(.*|" (PyStr.strip_chars "^$" regex_pattern)), t).
Proof.
  intros regex_pattern t H1 H2 H3. unfold generate_value_from_regex. cbv zeta.
  rewrite (scan_plain _ H1 H2 H3) by (unfold PyStr.len; lia).
  rewrite suffix_from_0. reflexivity.
Qed.

Lemma plain_pattern_output_witness :
  generate_value_from_regex "^ABC-123|x{2}+?[y$" [5%nat]
  = (Ok (remove_chars "[(.*|" (PyStr.strip_chars "^$" "^ABC-123|x{2}+?[y$")),
     [5%nat]).
Proof.
  apply (plain_pattern_output "^ABC-123|x{2}+?[y$" [5%nat]); reflexivity.
Defined.

Section Stripping.

Variable p : ascii -> bool.

Lemma rstrip_by_idem (s : string) :
  PyStr.rstrip_by p (PyStr.rstrip_by p s) = PyStr.rstrip_by p s.
Proof.
  induction s as [|c s IH]; [reflexivity|]. cbn [PyStr.rstrip_by].
  destruct (PyStr.rstrip_by p s) as [|x r] eqn:E.
  - destruct (p c) eqn:Hc; [reflexivity|]. cbn [PyStr.rstrip_by]. rewrite Hc.
    reflexivity.
  - cbn [PyStr.rstrip_by]. cbn [PyStr.rstrip_by] in IH.
    destruct (PyStr.rstrip_by p r) as [|y r'] eqn:E'.
    + destruct (p x); [discriminate IH|]. inversion IH; subst. reflexivity.
    + inversion IH; subst. reflexivity.
Qed.

Lemma lstrip_by_head (s : string) (x : ascii) (r : string) :
  PyStr.lstrip_by p s = String x r -> p x = false.
Proof.
  induction s as [|c s IH]; [discriminate|]. simpl.
  destruct (p c) eqn:Hc; [exact IH|]. intros E. inversion E; subst. exact Hc.
Qed.

Lemma rstrip_by_head (x : ascii) (s : string) :
  p x = false -> exists r, PyStr.rstrip_by p (String x s) = String x r.
Proof.
  intros H. cbn [PyStr.rstrip_by].
  destruct (PyStr.rstrip_by p s); [rewrite H|]; eauto.
Qed.

(** Stripping twice is stripping once. *)
Lemma strip_by_idem (s : string) :
  PyStr.strip_by p (PyStr.strip_by p s) = PyStr.strip_by p s.
Proof.
  unfold PyStr.strip_by.
  destruct (PyStr.lstrip_by p s) as [|x r] eqn:E; [reflexivity|].
  pose proof (lstrip_by_head s x r E) as Hx.
  destruct (rstrip_by_head x r Hx) as [r' Er]. rewrite Er.
  replace (PyStr.lstrip_by p (String x r')) with (String x r')
    by (simpl; rewrite Hx; reflexivity).
  rewrite <- Er. apply rstrip_by_idem.
Qed.

Lemma rstrip_by_snoc (s : string) (c : ascii) :
  p c = true ->
  PyStr.rstrip_by p (s +:+ String c "") = PyStr.rstrip_by p s.
Proof.
  intros Hc. induction s as [|x s IH].
  - simpl. rewrite Hc. reflexivity.
  - change (String x s +:+ String c "") with (String x (s +:+ String c "")).
    cbn [PyStr.rstrip_by]. rewrite IH. reflexivity.
Qed.

Lemma lstrip_by_snoc (s : string) (c : ascii) :
  p c = true ->
  PyStr.rstrip_by p (PyStr.lstrip_by p (s +:+ String c ""))
  = PyStr.rstrip_by p (PyStr.lstrip_by p s).
Proof.
  intros Hc. induction s as [|x s IH].
  - simpl. rewrite Hc. reflexivity.
  - change (String x s +:+ String c "") with (String x (s +:+ String c "")).
    cbn [PyStr.lstrip_by]. destruct (p x); [exact IH|].
    apply (rstrip_by_snoc (String x s) c Hc).
Qed.

End Stripping.

(** X2.  The anchors have no effect beyond being stripped: a pattern and
    its stripped form generate the same (stripping twice is stripping
    once), and so do [p], ["^" + p] and [p + "$"], on every run of the
    random source. *)
Theorem anchors_are_ignored :
  forall (regex_pattern : string) (t : tape),
    generate_value_from_regex (PyStr.strip_chars "^$" regex_pattern) t
    = generate_value_from_regex regex_pattern t
    /\ generate_value_from_regex ("^" +:+ regex_pattern) t
       = generate_value_from_regex regex_pattern t
    /\ generate_value_from_regex (regex_pattern +:+ "$") t
       = generate_value_from_regex regex_pattern t.
Proof.
  intros regex_pattern t. unfold generate_value_from_regex, PyStr.strip_chars.
  cbv zeta. split; [|split].
  - rewrite strip_by_idem. reflexivity.
  - reflexivity.
  - unfold PyStr.strip_by. rewrite lstrip_by_snoc by reflexivity. reflexivity.
Qed.

Section Nesting.

Lemma find_char_first (c : ascii) (s : string) (start e : nat) :
  PyStr.find (String c "") s start = Some e ->
  forall j, (start <= j < e)%nat -> String.get j s <> Some c.
Proof.
  unfold PyStr.find. revert start e.
  induction s as [|x s IH]; intros start e H j Hj.
  - destruct start; discriminate.
  - destruct start as [|start]; cbn [index] in H.
    + rewrite prefix_char_head in H.
      destruct (Ascii.eqb_spec c x) as [->|Hne]; [inversion H; lia|].
      destruct (index 0 (String c "") s) as [k|] eqn:E; [|discriminate].
      inversion H; subst. destruct j as [|j]; simpl.
      * congruence.
      * apply (IH 0%nat k E). lia.
    + destruct (index start (String c "") s) as [k|] eqn:E; [|discriminate].
      inversion H; subst. destruct j as [|j]; [lia|]. simpl.
      apply (IH start k E). lia.
Qed.

Lemma get_substring (s : string) (a k j : nat) (x : ascii) :
  String.get j (substring a k s) = Some x ->
  String.get (a + j) s = Some x /\ (j < k)%nat.
Proof.
  revert a k j. induction s as [|c s IH]; intros a k j H.
  - destruct a, k, j; discriminate.
  - destruct a as [|a].
    + destruct k as [|k]; [destruct j; discriminate|].
      simpl in H. destruct j as [|j].
      * simpl. split; [exact H | lia].
      * apply (IH 0%nat) in H. simpl in *. destruct H. split; [assumption | lia].
    + simpl in H. apply IH in H. exact H.
Qed.

Lemma char_free_forallb (c : ascii) (s : string) :
  char_free c s = forallb (fun x => negb (Ascii.eqb c x)) (list_ascii_of_string s).
Proof.
  unfold char_free, PyStr.char_in.
  induction (list_ascii_of_string s) as [|x l IH]; [reflexivity|].
  simpl. rewrite negb_orb, IH. reflexivity.
Qed.

Lemma char_free_of_get (c : ascii) (s : string) :
  (forall j, String.get j s <> Some c) -> char_free c s = true.
Proof.
  rewrite char_free_forallb. induction s as [|x s IH]; intros H; [reflexivity|].
  simpl. rewrite IH.
  - destruct (Ascii.eqb_spec c x) as [->|_]; [|reflexivity].
    exfalso. apply (H 0%nat). reflexivity.
  - intros j. apply (H (S j)).
Qed.

Lemma char_free_strip_by (p : ascii -> bool) (c : ascii) (s : string) :
  char_free c s = true -> char_free c (PyStr.strip_by p s) = true.
Proof.
  rewrite !char_free_forallb. intros H. unfold PyStr.strip_by.
  apply forallb_rstrip_by, forallb_lstrip_by, H.
Qed.

(** The text between an opening parenthesis and the first closing one
    holds no closing parenthesis. *)
Lemma group_content_closed (pattern : string) (i end_paren : nat) :
  PyStr.find ")" pattern i = Some end_paren ->
  char_free ")" (PyStr.slice pattern (i + 1) end_paren) = true.
Proof.
  intros H. apply char_free_of_get. intros j E. unfold PyStr.slice in E.
  apply get_substring in E. destruct E as [E Hj].
  apply (find_char_first _ _ _ _ H (i + 1 + j)%nat); [lia | exact E].
Qed.

(** A pattern without a closing parenthesis makes no recursive call. *)
Lemma dispatch_without_group (recur recur' : string -> M string)
    (pattern : string) (i : nat) (result : string) (t : tape) :
  char_free ")" pattern = true ->
  dispatch recur pattern i result t = dispatch recur' pattern i result t.
Proof.
  intros H. unfold dispatch.
  apply bind_ext; [reflexivity|]. intros backslash t1.
  apply bind_ext; [reflexivity|]. intros escaped_dot t2.
  destruct escaped_dot; [reflexivity|].
  apply bind_ext; [reflexivity|]. intros c t3.
  rewrite (char_free_find _ _ i H). reflexivity.
Qed.

End Nesting.

(** X3.  Groups do not nest.  The text handed to the recursive call, from
    after the opening parenthesis to before the first closing one, with its
    anchors stripped, holds no closing parenthesis, and on such a pattern
    the dispatch makes no recursive call, whatever the cursor: the
    recursion is never more than one call deep. *)
Theorem groups_do_not_nest :
  forall (pattern : string) (i end_paren : nat)
         (recur recur' : string -> M string)
         (j : nat) (result : string) (t : tape),
    PyStr.find ")" pattern i = Some end_paren ->
    char_free ")" (PyStr.strip_chars "^$" (PyStr.slice pattern (i + 1) end_paren))
    = true
    /\ dispatch recur
         (PyStr.strip_chars "^$" (PyStr.slice pattern (i + 1) end_paren))
         j result t
       = dispatch recur'
           (PyStr.strip_chars "^$" (PyStr.slice pattern (i + 1) end_paren))
           j result t.
Proof.
  intros pattern i end_paren recur recur' j result t H.
  assert (char_free ")" (PyStr.strip_chars "^$"
                           (PyStr.slice pattern (i + 1) end_paren)) = true) as Hc.
  { apply char_free_strip_by, group_content_closed, H. }
  split; [exact Hc | apply dispatch_without_group, Hc].
Qed.

Lemma groups_do_not_nest_witness :
  char_free ")" (PyStr.strip_chars "^$" (PyStr.slice "((ab))" (0 + 1) 4)) = true
  /\ dispatch (group_call 9) (PyStr.strip_chars "^$" (PyStr.slice "((ab))" (0 + 1) 4))
       0 "" []
     = dispatch (fun _ => raise IndexError)
         (PyStr.strip_chars "^$" (PyStr.slice "((ab))" (0 + 1) 4)) 0 "" [].
Proof.
  apply (groups_do_not_nest "((ab))" 0 4). reflexivity.
Defined.

Section Sampler.

Lemma chars_one (s c : string) : In c (PyStr.chars s) -> String.length c = 1%nat.
Proof.
  induction s as [|x s IH]; simpl; [tauto|].
  intros [<-|H]; [reflexivity | apply IH, H].
Qed.

Lemma letters_or_digits (s c : string) :
  forallb (fun x => member x (PyStr.chars PyStr.ascii_letters ++ PyStr.chars PyStr.digits))
          (PyStr.chars s) = true ->
  In c (PyStr.chars s) ->
  member c (PyStr.chars PyStr.ascii_letters ++ PyStr.chars PyStr.digits) = true.
Proof.
  intros H Hin. rewrite forallb_forall in H. apply H, Hin.
Qed.

Lemma random_digit_member :
  returns random_digit
          (fun c => String.length c = 1%nat
                    /\ member c (PyStr.chars PyStr.digits) = true).
Proof.
  unfold random_digit. eapply returns_bind; [apply randint_in_range; lia|].
  intros z Hz. apply returns_ret. cbv beta in Hz.
  assert (z = 0 \/ z = 1 \/ z = 2 \/ z = 3 \/ z = 4 \/ z = 5 \/ z = 6
          \/ z = 7 \/ z = 8 \/ z = 9)%Z as H by lia.
  repeat (destruct H as [-> | H]; [split; reflexivity|]).
  subst z; split; reflexivity.
Qed.

End Sampler.

(** X4.  [_generate_char_from_class] returns one character for every class
    body.  When the body holds one of the markers [A-Z], [a-z], [0-9] the
    character is an ASCII letter or a decimal digit; when it holds none and
    is not empty the character is one of the body itself, selected by one
    draw; for the empty body it is ["X"], and nothing is drawn. *)
Theorem class_sampler_output :
  forall (char_class : string) (t : tape),
    exists c t',
      _generate_char_from_class char_class t = (Ok c, t')
      /\ String.length c = 1%nat
      /\ (if PyStr.contains "A-Z" char_class || PyStr.contains "a-z" char_class
             || PyStr.contains "0-9" char_class
          then member c (PyStr.chars PyStr.ascii_letters ++ PyStr.chars PyStr.digits)
               = true
               /\ t' = tl t
          else if PyStr.nonempty char_class
               then member c (PyStr.chars char_class) = true /\ t' = tl t
               else c = "X" /\ t' = t).
Proof.
  intros char_class t. unfold _generate_char_from_class.
  destruct (PyStr.contains "A-Z" char_class).
  { eexists _, _. split; [apply choice_eval|]. cbn [orb].
    assert (In (choice_value "A" (PyStr.chars "BCDEFGHIJKLMNOPQRSTUVWXYZ")
                  (hd 0%nat t)) (PyStr.chars PyStr.ascii_uppercase)) as Hin.
    { unfold choice_value. apply nth_In. apply Nat.mod_upper_bound. discriminate. }
    split; [apply (chars_one _ _ Hin)|]. split; [|reflexivity].
    apply (letters_or_digits PyStr.ascii_uppercase); [reflexivity | exact Hin]. }
  destruct (PyStr.contains "a-z" char_class).
  { eexists _, _. split; [apply choice_eval|]. cbn [orb].
    assert (In (choice_value "a" (PyStr.chars "bcdefghijklmnopqrstuvwxyz")
                  (hd 0%nat t)) (PyStr.chars PyStr.ascii_lowercase)) as Hin.
    { unfold choice_value. apply nth_In. apply Nat.mod_upper_bound. discriminate. }
    split; [apply (chars_one _ _ Hin)|]. split; [|reflexivity].
    apply (letters_or_digits PyStr.ascii_lowercase); [reflexivity | exact Hin]. }
  destruct (PyStr.contains "0-9" char_class).
  { destruct (random_digit_member t) as (c & t' & E & Hl & Hm).
    exists c, t'. split; [exact E|]. split; [exact Hl|]. cbn [orb]. split.
    - apply member_In. apply in_or_app. right. apply member_In, Hm.
    - rewrite random_digit_eval in E. inversion E. reflexivity. }
  cbn [orb app]. destruct char_class as [|x s].
  { exists "X", t. repeat split; reflexivity. }
  cbn [PyStr.nonempty PyStr.chars]. eexists _, _. split; [apply choice_eval|].
  assert (In (choice_value (String x "") (PyStr.chars s) (hd 0%nat t))
             (PyStr.chars (String x s))) as Hin.
  { unfold choice_value. apply nth_In. apply Nat.mod_upper_bound. discriminate. }
  split; [apply (chars_one _ _ Hin)|]. split; [|reflexivity].
  apply member_In, Hin.
Qed.

Section FixedCounts.

(** [n] rounds of a generator append [n] of its outputs. *)
Lemma append_times_pieces (gen : M string) (P : string -> Prop) (n : nat)
    (result : string) (t : tape) :
  returns gen P ->
  exists pieces t',
    append_times n gen result t = (Ok (result +:+ String.concat "" pieces), t')
    /\ length pieces = n /\ Forall P pieces.
Proof.
  intros Hg. revert result t. induction n as [|n IH]; intros result t; simpl.
  - exists [], t. rewrite string_app_nil_r. auto.
  - unfold bind. destruct (Hg t) as (c & t1 & E & Hc). rewrite E.
    destruct (IH (result +:+ c) t1) as (pieces & t2 & E2 & Hl & HP).
    exists (c :: pieces), t2. rewrite E2, string_app_assoc.
    split; [|split; [simpl; congruence | constructor; assumption]].
    f_equal. f_equal. f_equal. destruct pieces as [|p ps]; [|reflexivity].
    simpl. rewrite string_app_nil_r. reflexivity.
Qed.

(** A brace that holds one integer and no comma: exactly that count. *)
Lemma brace_repetition_fixed (quant_str : string) (n : Z) (t : tape) :
  PyStr.contains "," quant_str = false ->
  PyStr.int quant_str = Some n ->
  brace_repetition quant_str t = (Ok n, t).
Proof.
  intros Hc Hn. unfold brace_repetition, int_. rewrite Hc, Hn. reflexivity.
Qed.

Lemma sampler_outputs (char_class : string) :
  returns (_generate_char_from_class char_class)
          (fun c => exists t1 t2,
                      _generate_char_from_class char_class t1 = (Ok c, t2)).
Proof.
  intros t. destruct (generate_char_returns char_class t) as (c & t' & E & _).
  exists c, t'. split; [exact E | eauto].
Qed.

End FixedCounts.

(** X5.  A character class followed by a brace that holds one integer [n]
    and no comma is repeated exactly [n] times (not at all for [n <= 0]):
    the dispatch at the opening bracket appends [n] outputs of the class
    sampler for the class body and moves the cursor past the closing
    brace. *)
Theorem fixed_count_class :
  forall (recur : string -> M string) (pattern : string)
         (i end_bracket end_brace : nat) (n : Z) (result : string) (t : tape),
    String.get i pattern = Some "["%char ->
    PyStr.find "]" pattern i = Some end_bracket ->
    String.get (S end_bracket) pattern = Some "{"%char ->
    PyStr.find "}" pattern (S end_bracket) = Some end_brace ->
    PyStr.contains "," (PyStr.slice pattern (S end_bracket + 1) end_brace) = false ->
    PyStr.int (PyStr.slice pattern (S end_bracket + 1) end_brace) = Some n ->
    exists pieces t',
      dispatch recur pattern i result t
      = (Ok (S end_brace, result +:+ String.concat "" pieces), t')
      /\ length pieces = Z.to_nat n
      /\ Forall (fun c =>
                   exists t1 t2,
                     _generate_char_from_class
                       (PyStr.slice pattern (i + 1) end_bracket) t1 = (Ok c, t2))
                pieces.
Proof.
  intros recur pattern i end_bracket end_brace n result t
         Hopen Hclose Hbrace Hend Hcomma Hint.
  rewrite (dispatch_unfold recur pattern i result t _ Hopen).
  rewrite (escaped_dot_false_char pattern i _ Hopen) by discriminate.
  cbv zeta. change (String.eqb "[" "[") with true. cbv iota. rewrite Hclose.
  replace (end_bracket + 1)%nat with (S end_bracket) by lia.
  unfold bind at 1.
  rewrite (quantifier_after_brace pattern (S end_bracket) end_brace n t t
             Hbrace Hend (brace_repetition_fixed _ n t Hcomma Hint)).
  cbv iota.
  destruct (append_times_pieces
              (_generate_char_from_class (PyStr.slice pattern (i + 1) end_bracket))
              _ (range_len n) result t (sampler_outputs _))
    as (pieces & t' & E & Hl & HP).
  exists pieces, t'. unfold bind. rewrite E. auto.
Qed.

Lemma fixed_count_class_witness :
  exists pieces t',
    dispatch (group_call 0) "[A-Z]{5}" 0 "" [0; 1; 2; 3; 4]%nat
    = (Ok (8%nat, "" +:+ String.concat "" pieces), t')
    /\ length pieces = Z.to_nat 5
    /\ Forall (fun c =>
                 exists t1 t2,
                   _generate_char_from_class (PyStr.slice "[A-Z]{5}" (0 + 1) 4) t1
                   = (Ok c, t2))
              pieces.
Proof.
  apply (fixed_count_class (group_call 0) "[A-Z]{5}" 0 4 7 5 "" [0; 1; 2; 3; 4]%nat);
    reflexivity.
Defined.

(** X6.  A [\d] followed by a brace that holds one integer [n] and no
    comma gives exactly [n] decimal digits (none for [n <= 0]), and the
    cursor moves past the closing brace. *)
Theorem fixed_count_digits :
  forall (recur : string -> M string) (pattern : string)
         (i end_brace : nat) (n : Z) (result : string) (t : tape),
    PyStr.slice pattern i (i + 2) = "\d" ->
    String.get (i + 2) pattern = Some "{"%char ->
    PyStr.find "}" pattern (i + 2) = Some end_brace ->
    PyStr.contains "," (PyStr.slice pattern (i + 2 + 1) end_brace) = false ->
    PyStr.int (PyStr.slice pattern (i + 2 + 1) end_brace) = Some n ->
    exists s t',
      dispatch recur pattern i result t = (Ok (S end_brace, result +:+ s), t')
      /\ String.length s = Z.to_nat n
      /\ all_digits s = true.
Proof.
  intros recur pattern i end_brace n result t Hd Hbrace Hend Hcomma Hint.
  pose proof (slice_two_get pattern i _ _ Hd) as [Hb Hnext].
  rewrite (dispatch_unfold recur pattern i result t _ Hb).
  rewrite (escaped_dot_false_next pattern i) by (rewrite Hnext; discriminate).
  cbv zeta. change (String.eqb "\" "[") with false. cbv iota.
  rewrite Hd. change (String.eqb "\d" "\d") with true. cbv iota.
  unfold bind at 1.
  rewrite (quantifier_after_brace pattern (i + 2) end_brace n t t
             Hbrace Hend (brace_repetition_fixed _ n t Hcomma Hint)).
  cbv iota.
  destruct (append_times_digits random_digit (range_len n) result t
              random_digit_is_digit) as (s & t' & E & Hl & Hdig).
  exists s, t'. unfold bind. rewrite E. auto.
Qed.

Lemma fixed_count_digits_witness :
  exists s t',
    dispatch (group_call 0) "\d{3}\.\d{2}" 0 "" [4; 5; 6]%nat
    = (Ok (5%nat, "" +:+ s), t')
    /\ String.length s = Z.to_nat 3
    /\ all_digits s = true.
Proof.
  apply (fixed_count_digits (group_call 0) "\d{3}\.\d{2}" 0 4 3 "" [4; 5; 6]%nat);
    reflexivity.
Defined.

(** * Further properties of the extractor *)

Section Loops.

Lemma for_each_app {S : Type} (body : S -> PyVal -> R S)
    (items items' : list PyVal) (state : S) :
  for_each body (items ++ items') state
  = bindR (for_each body items state) (for_each body items').
Proof.
  revert state. induction items as [|x items IH]; intros state; [reflexivity|].
  simpl. destruct (body state x); simpl; [apply IH | reflexivity | reflexivity].
Qed.

Lemma no_expectations_present (d : list (string * PyVal)) (v : PyVal) :
  Py.dict_lookup "expectations" d = Some v ->
  no_expectations (PDict d) = Ok false.
Proof.
  intros H. unfold no_expectations. destruct d as [|kv d]; [discriminate|].
  cbn [Py.truthy negb Py.contains bindR]. rewrite H. reflexivity.
Qed.

End Loops.

(** X7.  The last value-set rule of a column wins.  Appending to a suite a
    rule of type [expect_column_values_to_be_in_set] with a usable column
    and a non-empty list [value_set] whose values can all be turned into
    strings binds the column to the stringified list, replacing whatever
    the earlier rules had bound it to and leaving the other columns alone;
    [get_constraints_for_column] then answers from the new list alone.
    When a value cannot be turned into a string (an integer of more than
    4300 digits) the extraction raises what [str] raises. *)
Theorem value_set_last_wins :
  forall (d d' : list (string * PyVal)) (rules : list PyVal)
         (rule kwargs : list (string * PyVal)) (column : PyVal)
         (value_set : list PyVal) (key : pykey)
         (value_sets : gmap pykey (list string)),
    Py.dict_lookup "expectations" d = Some (PList rules) ->
    Py.dict_lookup "expectations" d' = Some (PList (rules ++ [PDict rule])) ->
    extract_value_sets (PDict d) = Ok value_sets ->
    Py.dict_lookup "type" rule = Some (PStr "expect_column_values_to_be_in_set") ->
    Py.dict_lookup "kwargs" rule = Some (PDict kwargs) ->
    Py.dict_lookup "column" kwargs = Some column ->
    Py.truthy column = true ->
    py_hash column = Ok key ->
    Py.dict_lookup "value_set" kwargs = Some (PList value_set) ->
    value_set <> [] ->
    (forall values : list string,
        map_R Py.str value_set = Ok values ->
        extract_value_sets (PDict d') = Ok (<[key := values]> value_sets)
        /\ get_constraints_for_column (PDict d') column
           = Ok (match List.filter (fun v => negb (_looks_like_column_name v))
                                   values with
                 | [] => None
                 | kept => Some kept
                 end))
    /\ (forall e : exn,
           map_R Py.str value_set = Raise e ->
           extract_value_sets (PDict d') = Raise e).
Proof.
  intros d d' rules rule kwargs column value_set key value_sets
         Hd Hd' Hvs Htype Hkw Hcol Htruthy Hkey Hset Hne.
  assert (extract_value_sets (PDict d')
          = (let? strings := map_R Py.str value_set in
             Ok (<[key := strings]> value_sets))) as E.
  { unfold extract_value_sets in *.
    rewrite (no_expectations_present d _ Hd) in Hvs.
    rewrite (no_expectations_present d' _ Hd').
    cbn [bindR Py.getitem] in *. rewrite Hd in Hvs. rewrite Hd'.
    cbn [bindR Py.iter] in *. rewrite for_each_app, Hvs.
    cbn [bindR for_each Py.get]. rewrite Htype, Hkw.
    cbn [bindR Py.eq_str Py.get]. rewrite String.eqb_refl, Hcol, Hset, Htruthy.
    destruct value_set as [|v vs]; [congruence|].
    cbn [bindR Py.truthy andb Py.iter].
    destruct (map_R Py.str (v :: vs)) as [strings| |]; cbn [bindR];
      [rewrite Hkey|..]; reflexivity. }
  split.
  - intros values Hstr. rewrite Hstr in E. cbn [bindR] in E.
    split; [exact E|].
    unfold get_constraints_for_column. rewrite E, Hkey. cbn [bindR].
    rewrite lookup_insert_eq.
    destruct (List.filter _ values); reflexivity.
  - intros e Hstr. rewrite Hstr in E. exact E.
Qed.

Lemma value_set_last_wins_witness :
  extract_value_sets
    (PDict (suite_of
              ([PDict (rule_of "expect_column_values_to_be_in_set" "value_set"
                               (PStr "c") (PList [PStr "A"]))]
               ++ [PDict (rule_of "expect_column_values_to_be_in_set" "value_set"
                                  (PStr "c") (PList [PInt 1; PStr "B"]))])))
  = Ok (<[KStr "c" := ["1"; "B"]]> {[ KStr "c" := ["A"] ]})
  /\ get_constraints_for_column
       (PDict (suite_of
                 ([PDict (rule_of "expect_column_values_to_be_in_set" "value_set"
                                  (PStr "c") (PList [PStr "A"]))]
                  ++ [PDict (rule_of "expect_column_values_to_be_in_set"
                                     "value_set" (PStr "c")
                                     (PList [PInt 1; PStr "B"]))])))
       (PStr "c")
     = Ok (match List.filter (fun v => negb (_looks_like_column_name v))
                             ["1"; "B"] with
           | [] => None
           | kept => Some kept
           end).
Proof.
  refine (proj1
            (value_set_last_wins
               (suite_of [PDict (rule_of "expect_column_values_to_be_in_set"
                                         "value_set" (PStr "c")
                                         (PList [PStr "A"]))])
               (suite_of
                  ([PDict (rule_of "expect_column_values_to_be_in_set"
                                   "value_set" (PStr "c") (PList [PStr "A"]))]
                   ++ [PDict (rule_of "expect_column_values_to_be_in_set"
                                      "value_set" (PStr "c")
                                      (PList [PInt 1; PStr "B"]))]))
               [PDict (rule_of "expect_column_values_to_be_in_set" "value_set"
                               (PStr "c") (PList [PStr "A"]))]
               (rule_of "expect_column_values_to_be_in_set" "value_set"
                        (PStr "c") (PList [PInt 1; PStr "B"]))
               [("column", PStr "c"); ("value_set", PList [PInt 1; PStr "B"])]
               (PStr "c") [PInt 1; PStr "B"] (KStr "c") {[ KStr "c" := ["A"] ]}
               _ _ _ _ _ _ _ _ _ _)
            ["1"; "B"] _);
    first [reflexivity | vm_compute; reflexivity | discriminate].
Defined.

Section TypedScan.

Variables (rule_type field : string).
Variables (d d' : list (string * PyVal)) (rules : list PyVal).
Variables (rule kwargs : list (string * PyVal)) (column value : PyVal).
Variables (key : pykey) (found : gmap pykey PyVal).
Hypothesis Hd : Py.dict_lookup "expectations" d = Some (PList rules).
Hypothesis Hd' :
  Py.dict_lookup "expectations" d' = Some (PList (rules ++ [PDict rule])).
Hypothesis Hfound : extract_by_type rule_type field (PDict d) = Ok found.
Hypothesis Htype : Py.dict_lookup "type" rule = Some (PStr rule_type).
Hypothesis Hkwargs : Py.dict_lookup "kwargs" rule = Some (PDict kwargs).
Hypothesis Hcolumn : Py.dict_lookup "column" kwargs = Some column.
Hypothesis Htruthy : Py.truthy column = true.
Hypothesis Hkey : py_hash column = Ok key.
Hypothesis Hvalue : Py.dict_lookup field kwargs = Some value.
Hypothesis Hvalue_truthy : Py.truthy value = true.

Lemma extract_by_type_snoc :
  extract_by_type rule_type field (PDict d') = Ok (<[key := value]> found).
Proof.
  unfold extract_by_type in *.
  rewrite (no_expectations_present d _ Hd) in Hfound.
  rewrite (no_expectations_present d' _ Hd').
  cbn [bindR Py.getitem] in *. rewrite Hd in Hfound. rewrite Hd'.
  cbn [bindR Py.iter] in *. rewrite for_each_app, Hfound.
  cbn [bindR for_each Py.get]. rewrite Htype, Hkwargs.
  cbn [bindR Py.eq_str Py.get]. rewrite String.eqb_refl, Hcolumn, Hvalue.
  cbn [bindR]. rewrite Htruthy, Hvalue_truthy. cbn [andb bindR].
  rewrite Hkey. reflexivity.
Qed.

End TypedScan.

(** X8.  The last regex rule of a column wins.  Appending to a suite a
    rule of type [expect_column_values_to_match_regex] with a usable column
    and a non-empty [regex] binds the column to that regex, whatever the
    earlier rules bound it to, and [get_regex_for_column] returns it. *)
Theorem regex_last_wins :
  forall (d d' : list (string * PyVal)) (rules : list PyVal)
         (rule kwargs : list (string * PyVal)) (column regex : PyVal)
         (key : pykey) (regex_patterns : gmap pykey PyVal),
    Py.dict_lookup "expectations" d = Some (PList rules) ->
    Py.dict_lookup "expectations" d' = Some (PList (rules ++ [PDict rule])) ->
    extract_regex_patterns (PDict d) = Ok regex_patterns ->
    Py.dict_lookup "type" rule = Some (PStr "expect_column_values_to_match_regex") ->
    Py.dict_lookup "kwargs" rule = Some (PDict kwargs) ->
    Py.dict_lookup "column" kwargs = Some column ->
    Py.truthy column = true ->
    py_hash column = Ok key ->
    Py.dict_lookup "regex" kwargs = Some regex ->
    Py.truthy regex = true ->
    extract_regex_patterns (PDict d') = Ok (<[key := regex]> regex_patterns)
    /\ get_regex_for_column (PDict d') column = Ok (Some regex).
Proof.
  intros d d' rules rule kwargs column regex key regex_patterns
         Hd Hd' Hfound Htype Hkw Hcol Htruthy Hkey Hregex Hrt.
  assert (extract_regex_patterns (PDict d') = Ok (<[key := regex]> regex_patterns))
    as E.
  { unfold extract_regex_patterns in *.
    apply (extract_by_type_snoc _ _ d d' rules rule kwargs column regex key
             regex_patterns); assumption. }
  split; [exact E|].
  unfold get_regex_for_column. rewrite E, Hkey. cbn [bindR].
  rewrite lookup_insert_eq. reflexivity.
Qed.

Lemma regex_last_wins_witness :
  extract_regex_patterns
    (PDict (suite_of
              ([PDict (rule_of "expect_column_values_to_match_regex" "regex"
                               (PStr "c") (PStr "^a$"))]
               ++ [PDict (rule_of "expect_column_values_to_match_regex" "regex"
                                  (PStr "c") (PStr "^\d{2}$"))])))
  = Ok (<[KStr "c" := PStr "^\d{2}$"]> {[ KStr "c" := PStr "^a$" ]})
  /\ get_regex_for_column
       (PDict (suite_of
                 ([PDict (rule_of "expect_column_values_to_match_regex" "regex"
                                  (PStr "c") (PStr "^a$"))]
                  ++ [PDict (rule_of "expect_column_values_to_match_regex" "regex"
                                     (PStr "c") (PStr "^\d{2}$"))])))
       (PStr "c")
     = Ok (Some (PStr "^\d{2}$")).
Proof.
  apply (regex_last_wins
           (suite_of [PDict (rule_of "expect_column_values_to_match_regex" "regex"
                                     (PStr "c") (PStr "^a$"))])
           (suite_of
              ([PDict (rule_of "expect_column_values_to_match_regex" "regex"
                               (PStr "c") (PStr "^a$"))]
               ++ [PDict (rule_of "expect_column_values_to_match_regex" "regex"
                                  (PStr "c") (PStr "^\d{2}$"))]))
           [PDict (rule_of "expect_column_values_to_match_regex" "regex"
                           (PStr "c") (PStr "^a$"))]
           (rule_of "expect_column_values_to_match_regex" "regex"
                    (PStr "c") (PStr "^\d{2}$"))
           [("column", PStr "c"); ("regex", PStr "^\d{2}$")]
           (PStr "c") (PStr "^\d{2}$") (KStr "c") {[ KStr "c" := PStr "^a$" ]});
    first [reflexivity | vm_compute; reflexivity].
Defined.

(** X9.  The last strftime rule of a column wins, in the same way: the
    appended rule of type [expect_column_values_to_match_strftime_format]
    binds the column to its [strftime_format], and
    [get_strftime_format_for_column] returns it. *)
Theorem strftime_last_wins :
  forall (d d' : list (string * PyVal)) (rules : list PyVal)
         (rule kwargs : list (string * PyVal)) (column strftime_format : PyVal)
         (key : pykey) (strftime_formats : gmap pykey PyVal),
    Py.dict_lookup "expectations" d = Some (PList rules) ->
    Py.dict_lookup "expectations" d' = Some (PList (rules ++ [PDict rule])) ->
    extract_strftime_formats (PDict d) = Ok strftime_formats ->
    Py.dict_lookup "type" rule
    = Some (PStr "expect_column_values_to_match_strftime_format") ->
    Py.dict_lookup "kwargs" rule = Some (PDict kwargs) ->
    Py.dict_lookup "column" kwargs = Some column ->
    Py.truthy column = true ->
    py_hash column = Ok key ->
    Py.dict_lookup "strftime_format" kwargs = Some strftime_format ->
    Py.truthy strftime_format = true ->
    extract_strftime_formats (PDict d')
    = Ok (<[key := strftime_format]> strftime_formats)
    /\ get_strftime_format_for_column (PDict d') column = Ok (Some strftime_format).
Proof.
  intros d d' rules rule kwargs column strftime_format key strftime_formats
         Hd Hd' Hfound Htype Hkw Hcol Htruthy Hkey Hfmt Hft.
  assert (extract_strftime_formats (PDict d')
          = Ok (<[key := strftime_format]> strftime_formats)) as E.
  { unfold extract_strftime_formats in *.
    apply (extract_by_type_snoc _ _ d d' rules rule kwargs column strftime_format
             key strftime_formats); assumption. }
  split; [exact E|].
  unfold get_strftime_format_for_column. rewrite E, Hkey. cbn [bindR].
  rewrite lookup_insert_eq. reflexivity.
Qed.

Lemma strftime_last_wins_witness :
  extract_strftime_formats
    (PDict (suite_of
              ([PDict (rule_of "expect_column_values_to_match_strftime_format"
                               "strftime_format" (PStr "c") (PStr "%m/%d/%Y"))]
               ++ [PDict (rule_of "expect_column_values_to_match_strftime_format"
                                  "strftime_format" (PStr "c")
                                  (PStr "%Y-%m-%d"))])))
  = Ok (<[KStr "c" := PStr "%Y-%m-%d"]> {[ KStr "c" := PStr "%m/%d/%Y" ]})
  /\ get_strftime_format_for_column
       (PDict (suite_of
                 ([PDict (rule_of "expect_column_values_to_match_strftime_format"
                                  "strftime_format" (PStr "c")
                                  (PStr "%m/%d/%Y"))]
                  ++ [PDict (rule_of
                               "expect_column_values_to_match_strftime_format"
                               "strftime_format" (PStr "c")
                               (PStr "%Y-%m-%d"))])))
       (PStr "c")
     = Ok (Some (PStr "%Y-%m-%d")).
Proof.
  apply (strftime_last_wins
           (suite_of
              [PDict (rule_of "expect_column_values_to_match_strftime_format"
                              "strftime_format" (PStr "c") (PStr "%m/%d/%Y"))])
           (suite_of
              ([PDict (rule_of "expect_column_values_to_match_strftime_format"
                               "strftime_format" (PStr "c") (PStr "%m/%d/%Y"))]
               ++ [PDict (rule_of "expect_column_values_to_match_strftime_format"
                                  "strftime_format" (PStr "c")
                                  (PStr "%Y-%m-%d"))]))
           [PDict (rule_of "expect_column_values_to_match_strftime_format"
                           "strftime_format" (PStr "c") (PStr "%m/%d/%Y"))]
           (rule_of "expect_column_values_to_match_strftime_format"
                    "strftime_format" (PStr "c") (PStr "%Y-%m-%d"))
           [("column", PStr "c"); ("strftime_format", PStr "%Y-%m-%d")]
           (PStr "c") (PStr "%Y-%m-%d") (KStr "c")
           {[ KStr "c" := PStr "%m/%d/%Y" ]});
    first [reflexivity | vm_compute; reflexivity].
Defined.

Section RuleParts.

Lemma for_each_ext {S : Type} (body : S -> PyVal -> R S)
    (items items' : list PyVal) :
  Forall2 (fun x x' => forall state, body state x = body state x') items items' ->
  forall state, for_each body items state = for_each body items' state.
Proof.
  induction 1 as [|x x' items items' Hx _ IH]; intros state; [reflexivity|].
  simpl. rewrite Hx. destruct (body state x'); simpl; [apply IH | | ]; reflexivity.
Qed.

Lemma extract_by_type_same_rules (rule_type field : string)
    (d d' : list (string * PyVal)) (rules rules' : list PyVal) :
  Py.dict_lookup "expectations" d = Some (PList rules) ->
  Py.dict_lookup "expectations" d' = Some (PList rules') ->
  Forall2 same_type_and_kwargs rules rules' ->
  extract_by_type rule_type field (PDict d)
  = extract_by_type rule_type field (PDict d').
Proof.
  intros Hd Hd' H. unfold extract_by_type.
  rewrite (no_expectations_present d _ Hd), (no_expectations_present d' _ Hd').
  cbn [bindR Py.getitem]. rewrite Hd, Hd'. cbn [bindR Py.iter].
  apply for_each_ext. eapply Forall2_impl; [exact H|].
  intros e e' [Ht Hk] state. cbv beta. rewrite Ht, Hk. reflexivity.
Qed.

End RuleParts.

(** X10.  The value-set, regex and strftime extractions read nothing of a
    rule but its [type] and its [kwargs]: two suites whose rules agree,
    one by one, on these two give the same value sets, regex patterns and
    strftime formats, and the same constraints for every column, whatever
    their [meta] (the metadata hints) holds. *)
Theorem constraints_ignore_meta :
  forall (d d' : list (string * PyVal)) (rules rules' : list PyVal),
    Py.dict_lookup "expectations" d = Some (PList rules) ->
    Py.dict_lookup "expectations" d' = Some (PList rules') ->
    Forall2 same_type_and_kwargs rules rules' ->
    extract_value_sets (PDict d) = extract_value_sets (PDict d')
    /\ extract_regex_patterns (PDict d) = extract_regex_patterns (PDict d')
    /\ extract_strftime_formats (PDict d) = extract_strftime_formats (PDict d')
    /\ (forall column_name,
           get_constraints_for_column (PDict d) column_name
           = get_constraints_for_column (PDict d') column_name).
Proof.
  intros d d' rules rules' Hd Hd' H.
  assert (extract_value_sets (PDict d) = extract_value_sets (PDict d')) as E.
  { unfold extract_value_sets.
    rewrite (no_expectations_present d _ Hd), (no_expectations_present d' _ Hd').
    cbn [bindR Py.getitem]. rewrite Hd, Hd'. cbn [bindR Py.iter].
    apply for_each_ext. eapply Forall2_impl; [exact H|].
    intros e e' [Ht Hk] state. cbv beta. rewrite Ht, Hk. reflexivity. }
  split; [exact E|].
  split; [apply (extract_by_type_same_rules _ _ d d' rules rules' Hd Hd' H)|].
  split; [apply (extract_by_type_same_rules _ _ d d' rules rules' Hd Hd' H)|].
  intros column_name. unfold get_constraints_for_column. rewrite E. reflexivity.
Qed.

Lemma constraints_ignore_meta_witness :
  extract_value_sets
    (PDict (suite_of [PDict (rule_of "expect_column_values_to_be_in_set"
                                     "value_set" (PStr "c") (PList [PStr "A"]))]))
  = extract_value_sets
      (PDict [("expectations",
               PList [PDict [("meta", PDict [("lob", PList [PStr "MD"])]);
                             ("kwargs", PDict [("column", PStr "c");
                                               ("value_set", PList [PStr "A"])]);
                             ("type", PStr "expect_column_values_to_be_in_set")]])]).
Proof.
  refine (proj1 (constraints_ignore_meta
                   (suite_of [PDict (rule_of "expect_column_values_to_be_in_set"
                                             "value_set" (PStr "c")
                                             (PList [PStr "A"]))])
                   [("expectations",
                     PList [PDict [("meta", PDict [("lob", PList [PStr "MD"])]);
                                   ("kwargs", PDict [("column", PStr "c");
                                                     ("value_set",
                                                      PList [PStr "A"])]);
                                   ("type",
                                    PStr "expect_column_values_to_be_in_set")]])]
                   _ _ eq_refl eq_refl _)).
  constructor; [|constructor]. split; intros default; reflexivity.
Defined.

Section Pieces.

Lemma list_ascii_app (a b : string) :
  list_ascii_of_string (a +:+ b) = list_ascii_of_string a ++ list_ascii_of_string b.
Proof.
  induction a as [|x a IH]; [reflexivity|].
  change (list_ascii_of_string (String x a +:+ b))
    with (x :: list_ascii_of_string (a +:+ b)).
  rewrite IH. reflexivity.
Qed.

(** The pieces that [split] cuts at a one-character separator are made of
    the characters of the string other than the separator. *)
Lemma split_go_pieces (c : ascii) (q : ascii -> bool) (s : string) :
  forall (cur w : string),
    forallb q (list_ascii_of_string cur) = true ->
    forallb (fun x => q x || Ascii.eqb c x) (list_ascii_of_string s) = true ->
    In w (PyStr.split_go (String c "") 0 cur s) ->
    forallb q (list_ascii_of_string w) = true.
Proof.
  induction s as [|x s IH]; intros cur w Hcur Hs Hin.
  - simpl in Hin. destruct Hin as [<-|[]]. exact Hcur.
  - cbn [PyStr.split_go] in Hin. rewrite prefix_char_head in Hin.
    simpl in Hs. apply andb_true_iff in Hs. destruct Hs as [Hx Hs].
    destruct (Ascii.eqb c x) eqn:E.
    + change (PyStr.len (String c "") - 1)%nat with 0%nat in Hin.
      destruct Hin as [<-|Hin]; [exact Hcur|].
      apply (IH "" w); [reflexivity | exact Hs | exact Hin].
    + apply (IH (cur +:+ String x "") w); [|exact Hs | exact Hin].
      rewrite list_ascii_app, forallb_app, Hcur. simpl.
      rewrite orb_false_r in Hx. rewrite Hx. reflexivity.
Qed.

Lemma split_pieces (c : ascii) (q : ascii -> bool) (s w : string) :
  forallb (fun x => q x || Ascii.eqb c x) (list_ascii_of_string s) = true ->
  In w (PyStr.split (String c "") s) ->
  forallb q (list_ascii_of_string w) = true.
Proof. intros Hs Hin. apply (split_go_pieces c q s "" w); auto. Qed.

Lemma forallb_weaken (q q' : ascii -> bool) (l : list ascii) :
  (forall x, q x = true -> q' x = true) ->
  forallb q l = true -> forallb q' l = true.
Proof.
  intros H. induction l as [|x l IH]; [reflexivity|]. simpl.
  intros Hl. apply andb_true_iff in Hl. destruct Hl as [Hx Hl].
  rewrite (H x Hx), (IH Hl). reflexivity.
Qed.

Lemma nth_split_piece (c : ascii) (q : ascii -> bool) (s : string) (n : nat) :
  forallb (fun x => q x || Ascii.eqb c x) (list_ascii_of_string s) = true ->
  forallb q (list_ascii_of_string (nth n (PyStr.split (String c "") s) "")) = true.
Proof.
  intros Hs. destruct (nth_in_or_default n (PyStr.split (String c "") s) "")
    as [Hin | ->]; [|reflexivity].
  apply (split_pieces c q s _ Hs Hin).
Qed.

End Pieces.

(** X11.  The examples that [_extract_examples_from_description] returns
    for a string are clean values: none is empty or longer than 50
    characters, none has whitespace at either end, and none holds a comma
    or a full stop.  A description without the marker [Ex:] or [Example:]
    gives no examples. *)
Theorem description_examples_are_clean :
  forall (text : string) (examples : list string),
    _extract_examples_from_description (PStr text) = Ok examples ->
    (forall v, In v examples ->
               v <> ""
               /\ (String.length v <= 50)%nat
               /\ PyStr.strip v = v
               /\ char_free "," v = true
               /\ char_free "." v = true)
    /\ (PyStr.contains "Ex:" text = false ->
        PyStr.contains "Example:" text = false ->
        examples = []).
Proof.
  intros text examples H. unfold _extract_examples_from_description in H.
  cbn [Py.contains bindR] in H.
  set (marker := if PyStr.contains "Ex:" text then Ok true
                 else Ok (PyStr.contains "Example:" text)) in H.
  split.
  - intros v Hin.
    destruct (PyStr.contains "Ex:" text) eqn:E1; subst marker; cbn [bindR] in H.
    2: destruct (PyStr.contains "Example:" text) eqn:E2.
    3: { inversion H; subst. destruct Hin. }
    all: cbv zeta in H;
      match type of H with
      | (if ?b then _ else _) = _ => destruct b
      end;
      [|inversion H; subst; destruct Hin];
      inversion H; subst; clear H;
      apply filter_In in Hin; destruct Hin as [Hin Hv];
      apply andb_true_iff in Hv; destruct Hv as [Hne Hlen];
      apply in_map_iff in Hin; destruct Hin as (w & <- & Hw);
      (split; [intros E; rewrite E in Hne; discriminate|]);
      (split; [apply Nat.leb_le, Hlen|]);
      (split; [apply strip_by_idem|]);
      split;
      rewrite char_free_forallb; apply forallb_rstrip_by, forallb_lstrip_by.
    all: try (refine (split_pieces "," _ _ w _ Hw);
              apply forallb_forall; intros x _;
              destruct (Ascii.eqb "," x); reflexivity).
    all: refine (split_pieces "," (fun x => negb (Ascii.eqb "." x)) _ w _ Hw);
      apply (forallb_weaken (fun x => negb (Ascii.eqb "." x)));
      [intros x Hx; rewrite Hx; reflexivity|];
      apply forallb_rstrip_by, forallb_lstrip_by;
      apply (nth_split_piece "." (fun x => negb (Ascii.eqb "." x)));
      apply forallb_forall; intros x _; destruct (Ascii.eqb "." x); reflexivity.
  - intros E1 E2. subst marker. rewrite E1, E2 in H. cbn [bindR] in H.
    inversion H. reflexivity.
Qed.

Lemma description_examples_are_clean_witness :
  (forall v, In v ["MD"; "ME"; "MP"] ->
             v <> ""
             /\ (String.length v <= 50)%nat
             /\ PyStr.strip v = v
             /\ char_free "," v = true
             /\ char_free "." v = true)
  /\ (PyStr.contains "Ex:" "Valid LOBs. Ex: MD, , ME , MP. See notes." = false ->
      PyStr.contains "Example:" "Valid LOBs. Ex: MD, , ME , MP. See notes." = false ->
      ["MD"; "ME"; "MP"] = []).
Proof.
  apply (description_examples_are_clean
           "Valid LOBs. Ex: MD, , ME , MP. See notes." ["MD"; "ME"; "MP"]).
  reflexivity.
Defined.

Section HintRules.

Variables (d d' : list (string * PyVal)) (rules : list PyVal).
Variables (rule : list (string * PyVal)) (kwargs column meta : PyVal).
Variable metadata_hints : gmap pykey (gmap string (list string)).
Hypothesis Hd : Py.dict_lookup "expectations" d = Some (PList rules).
Hypothesis Hd' :
  Py.dict_lookup "expectations" d' = Some (PList (rules ++ [PDict rule])).
Hypothesis Hbefore : extract_metadata_hints (PDict d) = Ok metadata_hints.
Hypothesis Hkwargs : Py.get (PDict rule) "kwargs" (PDict []) = Ok kwargs.
Hypothesis Hcolumn : Py.get kwargs "column" PNone = Ok column.
Hypothesis Hmeta : Py.get (PDict rule) "meta" (PDict []) = Ok meta.

(** What appending one rule does to the hints. *)
Lemma extract_metadata_hints_snoc :
  extract_metadata_hints (PDict d')
  = metadata_hints_step metadata_hints (PDict rule).
Proof.
  unfold extract_metadata_hints in *.
  rewrite (no_expectations_present d _ Hd) in Hbefore.
  rewrite (no_expectations_present d' _ Hd').
  cbn [bindR Py.getitem] in *. rewrite Hd in Hbefore. rewrite Hd'.
  cbn [bindR Py.iter] in *. rewrite for_each_app, Hbefore.
  cbn [bindR for_each]. destruct (metadata_hints_step _ _); reflexivity.
Qed.

Lemma expectation_hints_falsy_column :
  Py.truthy column = false -> expectation_hints (PDict rule) = Ok None.
Proof.
  intros H. unfold expectation_hints.
  rewrite Hkwargs. cbn [bindR]. rewrite Hcolumn. cbn [bindR].
  rewrite Hmeta. cbn [bindR]. rewrite H. reflexivity.
Qed.

Lemma expectation_hints_description (dm : list (string * PyVal))
    (description : PyVal) :
  meta = PDict dm ->
  Py.truthy column = true ->
  Py.dict_lookup "lob" dm = None ->
  Py.dict_lookup "states" dm = None ->
  Py.get (PDict dm) "description" (PStr "") = Ok description ->
  expectation_hints (PDict rule)
  = (if Py.truthy description
     then let? examples := _extract_examples_from_description description in
          Ok (Some (column, <["description_examples" := examples]> ∅))
     else Ok (Some (column, ∅))).
Proof.
  intros Hdm Ht Hlob Hstates Hdesc. unfold expectation_hints.
  rewrite Hkwargs. cbn [bindR]. rewrite Hcolumn. cbn [bindR].
  rewrite Hmeta. cbn [bindR]. rewrite Ht, Hdm. unfold list_hint.
  cbn [negb Py.contains bindR]. rewrite Hlob, Hstates.
  cbn [bindR]. rewrite Hdesc. cbn [bindR]. clear Ht.
  destruct (Py.truthy description); [|reflexivity].
  destruct (_extract_examples_from_description description); reflexivity.
Qed.

End HintRules.

(** X12.  A rule that carries no hint leaves the metadata hints as they
    are.  That is the case when its column is missing or falsy, whatever
    its [meta] is, and when its [meta] is missing or a mapping with no
    [lob], no [states] and no (or an empty) [description]; the column is
    then not even hashed, so a column that is a list does not raise. *)
Theorem rule_without_hints_is_skipped :
  forall (d d' : list (string * PyVal)) (rules : list PyVal)
         (rule : list (string * PyVal)) (kwargs column meta : PyVal)
         (metadata_hints : gmap pykey (gmap string (list string))),
    Py.dict_lookup "expectations" d = Some (PList rules) ->
    Py.dict_lookup "expectations" d' = Some (PList (rules ++ [PDict rule])) ->
    extract_metadata_hints (PDict d) = Ok metadata_hints ->
    Py.get (PDict rule) "kwargs" (PDict []) = Ok kwargs ->
    Py.get kwargs "column" PNone = Ok column ->
    Py.get (PDict rule) "meta" (PDict []) = Ok meta ->
    (Py.truthy column = false
     \/ exists dm description,
          meta = PDict dm
          /\ Py.dict_lookup "lob" dm = None
          /\ Py.dict_lookup "states" dm = None
          /\ Py.get (PDict dm) "description" (PStr "") = Ok description
          /\ Py.truthy description = false) ->
    extract_metadata_hints (PDict d') = Ok metadata_hints.
Proof.
  intros d d' rules rule kwargs column meta metadata_hints
         Hd Hd' Hbefore Hkw Hcol Hmeta Hcase.
  rewrite (extract_metadata_hints_snoc d d' rules rule metadata_hints Hd Hd' Hbefore).
  unfold metadata_hints_step.
  destruct (Py.truthy column) eqn:Ht.
  - destruct Hcase as [Hf | (dm & description & -> & Hlob & Hstates & Hdesc & Hfalsy)];
      [discriminate|].
    rewrite (expectation_hints_description rule kwargs column (PDict dm)
               Hkw Hcol Hmeta dm description eq_refl Ht Hlob Hstates Hdesc).
    rewrite Hfalsy. cbn [bindR]. unfold merge_hints.
    destruct (decide (∅ = ∅)) as [_|Hne]; [reflexivity | congruence].
  - rewrite (expectation_hints_falsy_column rule kwargs column meta
               Hkw Hcol Hmeta Ht).
    reflexivity.
Qed.

Lemma rule_without_hints_is_skipped_witness :
  extract_metadata_hints
    (PDict (suite_of
              ([] ++ [PDict (rule_of "expect_column_values_to_match_regex" "regex"
                                     (PList [PStr "a"; PStr "b"]) (PStr "^x$"))])))
  = Ok ∅.
Proof.
  apply (rule_without_hints_is_skipped
           (suite_of [])
           (suite_of
              ([] ++ [PDict (rule_of "expect_column_values_to_match_regex" "regex"
                                     (PList [PStr "a"; PStr "b"]) (PStr "^x$"))]))
           []
           (rule_of "expect_column_values_to_match_regex" "regex"
                    (PList [PStr "a"; PStr "b"]) (PStr "^x$"))
           (PDict [("column", PList [PStr "a"; PStr "b"]); ("regex", PStr "^x$")])
           (PList [PStr "a"; PStr "b"]) (PDict []) ∅);
    try reflexivity.
  right. exists [], (PStr ""). repeat split; reflexivity.
Defined.

(** X13.  A rule whose only hint is a non-empty description gives its
    column an entry whose [description_examples] are the examples found in
    the description, an empty list when there are none; the other hint
    kinds of the entry stay as the earlier rules left them. *)
Theorem description_alone_makes_an_entry :
  forall (d d' : list (string * PyVal)) (rules : list PyVal)
         (rule dm : list (string * PyVal)) (kwargs column : PyVal) (key : pykey)
         (text : string) (examples : list string)
         (metadata_hints : gmap pykey (gmap string (list string))),
    Py.dict_lookup "expectations" d = Some (PList rules) ->
    Py.dict_lookup "expectations" d' = Some (PList (rules ++ [PDict rule])) ->
    extract_metadata_hints (PDict d) = Ok metadata_hints ->
    Py.get (PDict rule) "kwargs" (PDict []) = Ok kwargs ->
    Py.get kwargs "column" PNone = Ok column ->
    Py.truthy column = true ->
    py_hash column = Ok key ->
    Py.get (PDict rule) "meta" (PDict []) = Ok (PDict dm) ->
    Py.dict_lookup "lob" dm = None ->
    Py.dict_lookup "states" dm = None ->
    Py.dict_lookup "description" dm = Some (PStr text) ->
    text <> "" ->
    _extract_examples_from_description (PStr text) = Ok examples ->
    exists metadata_hints',
      extract_metadata_hints (PDict d') = Ok metadata_hints'
      /\ hint_of metadata_hints' key "description_examples" = Some examples
      /\ (forall kind, kind <> "description_examples" ->
                       hint_of metadata_hints' key kind
                       = hint_of metadata_hints key kind)
      /\ (forall key' kind, key' <> key ->
                            hint_of metadata_hints' key' kind
                            = hint_of metadata_hints key' kind).
Proof.
  intros d d' rules rule dm kwargs column key text examples metadata_hints
         Hd Hd' Hbefore Hkw Hcol Ht Hkey Hmeta Hlob Hstates Hdesc Hne Hex.
  rewrite (extract_metadata_hints_snoc d d' rules rule metadata_hints Hd Hd' Hbefore).
  unfold metadata_hints_step.
  rewrite (expectation_hints_description rule kwargs column (PDict dm)
             Hkw Hcol Hmeta dm (PStr text) eq_refl Ht Hlob Hstates)
    by (cbn [Py.get]; rewrite Hdesc; reflexivity).
  assert (Py.truthy (PStr text) = true) as Htext.
  { destruct text; [congruence | reflexivity]. }
  rewrite Htext, Hex. cbn [bindR].
  destruct (merge_hints metadata_hints column
              (<["description_examples" := examples]> ∅)) as [m'| |] eqn:E.
  - exists m'. split; [reflexivity|].
    pose proof (fun k kind =>
                  merge_hints_lookup metadata_hints m' column _ k key kind E Hkey) as L.
    split; [|split].
    + rewrite L. destruct (decide (key = key)) as [_|]; [|congruence].
      rewrite lookup_insert_eq. reflexivity.
    + intros kind Hk. rewrite L. destruct (decide (key = key)) as [_|]; [|congruence].
      rewrite lookup_insert_ne by congruence. rewrite lookup_empty. reflexivity.
    + intros key' kind Hk. rewrite L.
      destruct (decide (key = key')) as [->|_]; [congruence | reflexivity].
  - exfalso. unfold merge_hints in E. rewrite Hkey in E.
    destruct (decide _); discriminate.
  - exfalso. unfold merge_hints in E. rewrite Hkey in E.
    destruct (decide _); discriminate.
Qed.

Lemma description_alone_makes_an_entry_witness :
  exists metadata_hints',
    extract_metadata_hints
      (PDict (suite_of
                ([] ++ [PDict [("kwargs", PDict [("column", PStr "c")]);
                               ("meta", PDict [("description",
                                                PStr "no examples here")])]])))
    = Ok metadata_hints'
    /\ hint_of metadata_hints' (KStr "c") "description_examples" = Some []
    /\ (forall kind, kind <> "description_examples" ->
                     hint_of metadata_hints' (KStr "c") kind
                     = hint_of ∅ (KStr "c") kind)
    /\ (forall key' kind, key' <> KStr "c" ->
                          hint_of metadata_hints' key' kind = hint_of ∅ key' kind).
Proof.
  apply (description_alone_makes_an_entry
           (suite_of [])
           (suite_of
              ([] ++ [PDict [("kwargs", PDict [("column", PStr "c")]);
                             ("meta", PDict [("description",
                                              PStr "no examples here")])]]))
           []
           [("kwargs", PDict [("column", PStr "c")]);
            ("meta", PDict [("description", PStr "no examples here")])]
           [("description", PStr "no examples here")]
           (PDict [("column", PStr "c")])
           (PStr "c") (KStr "c") "no examples here" [] ∅);
    first [reflexivity | discriminate].
Defined.

Section RejectedBraces.

Variable t : tape.

(** The texts between braces on which the [try] block raises
    [ValueError], each before any random draw. *)
Lemma brace_repetition_not_a_number (quant_str : string) :
  PyStr.contains "," quant_str = false ->
  PyStr.int quant_str = None ->
  brace_repetition quant_str t = (Raise ValueError, t).
Proof.
  intros Hc Hn. unfold brace_repetition, int_. rewrite Hc, Hn. reflexivity.
Qed.

Lemma brace_repetition_bad_minimum (sn rest : string) :
  PyStr.contains "," sn = false ->
  PyStr.int sn = None ->
  brace_repetition (sn +:+ "," +:+ rest) t = (Raise ValueError, t).
Proof.
  intros Hc Hn. unfold brace_repetition.
  change ("," +:+ rest) with (String "," rest).
  rewrite contains_comma_app. unfold PyStr.split.
  rewrite (split_go_comma "" sn rest Hc).
  cbn [nth]. change ("" +:+ sn) with sn. unfold int_. rewrite Hn. reflexivity.
Qed.

Lemma brace_repetition_bad_maximum (sn sm : string) (n : Z) :
  PyStr.contains "," sn = false ->
  PyStr.contains "," sm = false ->
  PyStr.int sn = Some n ->
  PyStr.nonempty (PyStr.strip sm) = true ->
  PyStr.int sm = None ->
  brace_repetition (sn +:+ "," +:+ sm) t = (Raise ValueError, t).
Proof.
  intros Hsn Hsm Hn Hb Hm. unfold brace_repetition.
  change ("," +:+ sm) with (String "," sm).
  rewrite contains_comma_app, (split_two sn sm Hsn Hsm).
  cbn [nth length]. unfold int_. rewrite Hn, Hb, Hm. reflexivity.
Qed.

Lemma brace_repetition_inverted (sn sm : string) (n m : Z) :
  PyStr.contains "," sn = false ->
  PyStr.contains "," sm = false ->
  PyStr.int sn = Some n ->
  PyStr.int sm = Some m ->
  (m < n)%Z ->
  brace_repetition (sn +:+ "," +:+ sm) t = (Raise ValueError, t).
Proof.
  intros Hsn Hsm Hn Hm Hlt. unfold brace_repetition.
  change ("," +:+ sm) with (String "," sm).
  rewrite contains_comma_app, (split_two sn sm Hsn Hsm).
  cbn [nth length]. unfold int_.
  rewrite Hn, Hm, (int_not_blank sm m Hm). msimpl.
  apply randint_empty, Hlt.
Qed.

End RejectedBraces.

(** X14.  A brace after a character class or a [\d] that has no closing
    brace, or whose text is not a count or a range (no integer, a minimum
    or a maximum that is no integer, or a range [{n,m}] with [m < n]), is
    no quantifier: the repetition count stays 1, no random draw is spent on
    it, the cursor stays on the opening brace, and the next pass of the
    loop emits that brace as a literal character. *)
Theorem rejected_brace_is_literal :
  forall (recur : string -> M string) (pattern : string) (next_pos : nat)
         (result : string) (t : tape),
    String.get next_pos pattern = Some "{"%char ->
    (PyStr.find "}" pattern next_pos = None
     \/ exists end_brace quant_str,
          PyStr.find "}" pattern next_pos = Some end_brace
          /\ quant_str = PyStr.slice pattern (next_pos + 1) end_brace
          /\ ((PyStr.contains "," quant_str = false
               /\ PyStr.int quant_str = None)
              \/ (exists sn rest,
                     quant_str = sn +:+ "," +:+ rest
                     /\ PyStr.contains "," sn = false
                     /\ PyStr.int sn = None)
              \/ (exists sn sm n,
                     quant_str = sn +:+ "," +:+ sm
                     /\ PyStr.contains "," sn = false
                     /\ PyStr.contains "," sm = false
                     /\ PyStr.int sn = Some n
                     /\ PyStr.nonempty (PyStr.strip sm) = true
                     /\ PyStr.int sm = None)
              \/ (exists sn sm n m,
                     quant_str = sn +:+ "," +:+ sm
                     /\ PyStr.contains "," sn = false
                     /\ PyStr.contains "," sm = false
                     /\ PyStr.int sn = Some n
                     /\ PyStr.int sm = Some m
                     /\ (m < n)%Z))) ->
    quantifier_after pattern next_pos t = (Ok (1%Z, next_pos), t)
    /\ dispatch recur pattern next_pos result t
       = (Ok (S next_pos, result +:+ "{"), t).
Proof.
  intros recur pattern next_pos result t Hget Hcase.
  split; [|apply (dispatch_literal recur pattern next_pos result t _ Hget);
           reflexivity].
  unfold quantifier_after.
  pose proof (get_Some_lt _ _ _ Hget) as Hlt.
  destruct (Nat.ltb_spec next_pos (PyStr.len pattern)); [|lia].
  rewrite (getitem_eval _ _ _ Hget). msimpl.
  change (String.eqb "{" "{") with true. cbv iota.
  destruct Hcase as [-> | (end_brace & quant_str & -> & Hq & Hcase)];
    [reflexivity|].
  cbv zeta. rewrite <- Hq.
  assert (brace_repetition quant_str t = (Raise ValueError, t)) as E.
  { destruct Hcase as [[Hc Hn] | [(sn & rest & -> & Hc & Hn)
                     | [(sn & sm & n & -> & Hsn & Hsm & Hn & Hb & Hm)
                       | (sn & sm & n & m & -> & Hsn & Hsm & Hn & Hm & Hlt')]]].
    - apply brace_repetition_not_a_number; assumption.
    - apply brace_repetition_bad_minimum; assumption.
    - apply (brace_repetition_bad_maximum t sn sm n); assumption.
    - apply (brace_repetition_inverted t sn sm n m); assumption. }
  unfold try_except_ValueError, bind. rewrite E. reflexivity.
Qed.

Lemma rejected_brace_is_literal_witness :
  quantifier_after "\d{5,2}" 2 [7]%nat = (Ok (1%Z, 2%nat), [7]%nat)
  /\ dispatch (group_call 0) "\d{5,2}" 2 "4" [7]%nat
     = (Ok (3%nat, "4" +:+ "{"), [7]%nat).
Proof.
  apply (rejected_brace_is_literal (group_call 0) "\d{5,2}" 2 "4" [7]%nat);
    [reflexivity|].
  right. exists 6%nat, "5,2". split; [reflexivity|]. split; [reflexivity|].
  right. right. right. exists "5", "2", 5%Z, 2%Z.
  repeat split; first [reflexivity | lia].
Defined.

Section Positions.

Variables (a b : string).

Lemma get_app_skip (k : nat) :
  String.get (String.length a + k) (a +:+ b) = String.get k b.
Proof. induction a as [|x a' IH]; [reflexivity | exact IH]. Qed.

Lemma substring_app_skip (k m : nat) :
  substring (String.length a + k) m (a +:+ b) = substring k m b.
Proof. induction a as [|x a' IH]; [reflexivity | exact IH]. Qed.

Lemma substring_app_prefix : substring 0 (String.length a) (a +:+ b) = a.
Proof.
  induction a as [|x a' IH]; [destruct b; reflexivity|].
  change (String x (substring 0 (String.length a') (a' +:+ b)) = String x a').
  f_equal. exact IH.
Qed.

Lemma index_app_skip (sub : string) (k : nat) :
  index (String.length a + k) sub (a +:+ b)
  = option_map (Nat.add (String.length a)) (index k sub b).
Proof.
  induction a as [|x a' IH].
  { change (index k sub b = option_map (Nat.add 0) (index k sub b)).
    destruct (index k sub b); reflexivity. }
  change (match index (String.length a' + k) sub (a' +:+ b) with
          | Some n => Some (S n)
          | None => None
          end
          = option_map (Nat.add (S (String.length a'))) (index k sub b)).
  rewrite IH. destruct (index k sub b); reflexivity.
Qed.

Lemma index_char_first (c : ascii) :
  char_free c a = true ->
  index 0 (String c "") (a +:+ String c b) = Some (String.length a).
Proof.
  rewrite char_free_forallb.
  induction a as [|x a' IH]; intros H.
  - change ("" +:+ String c b) with (String c b). cbn [index].
    rewrite prefix_char_head, Ascii.eqb_refl. reflexivity.
  - simpl in H. apply andb_true_iff in H. destruct H as [Hx Ha].
    change (String x a' +:+ String c b) with (String x (a' +:+ String c b)).
    cbn [index]. rewrite prefix_char_head.
    apply negb_true_iff in Hx. rewrite Hx, (IH Ha). reflexivity.
Qed.

End Positions.

Section IntegerText.

Variable c : ascii.
Hypothesis Hdigit : PyStr.digit_val c = None.
Hypothesis Hunderscore : c <> "_"%char.

Lemma char_in_cons (x : ascii) (s : string) :
  PyStr.char_in c (String x s) = Ascii.eqb c x || PyStr.char_in c s.
Proof. reflexivity. Qed.

Lemma int_digits_char_free (s : string) :
  forall (acc : Z) (ndigits : nat) (after_digit : bool) (r : Z * nat),
    PyStr.int_digits acc ndigits after_digit s = Some r ->
    PyStr.char_in c s = false.
Proof.
  induction s as [|x s IH]; intros acc ndigits after_digit r H; [reflexivity|].
  rewrite char_in_cons. cbn [PyStr.int_digits] in H.
  destruct (Ascii.eqb_spec c x) as [<-|_].
  - rewrite Hdigit in H.
    destruct (Ascii.eqb_spec c "_"); [contradiction | discriminate H].
  - destruct (PyStr.digit_val x).
    + apply (IH _ _ _ _ H).
    + destruct (Ascii.eqb x "_" && after_digit); [|discriminate].
      apply (IH _ _ _ _ H).
Qed.

Lemma int_unsigned_char_free (s : string) (z : Z) :
  PyStr.int_unsigned s = Some z -> PyStr.char_in c s = false.
Proof.
  unfold PyStr.int_unsigned. intros H.
  destruct (PyStr.int_digits 0 0 false s) as [r|] eqn:E; [|discriminate].
  apply (int_digits_char_free s _ _ _ _ E).
Qed.

Lemma lstrip_by_char_in (p : ascii -> bool) (s : string) :
  p c = false ->
  PyStr.char_in c (PyStr.lstrip_by p s) = PyStr.char_in c s.
Proof.
  intros Hp. induction s as [|x s IH]; [reflexivity|].
  cbn [PyStr.lstrip_by]. destruct (p x) eqn:E; [|reflexivity].
  rewrite IH, char_in_cons.
  destruct (Ascii.eqb_spec c x) as [->|_]; [congruence | reflexivity].
Qed.

Lemma rstrip_by_char_in (p : ascii -> bool) (s : string) :
  p c = false ->
  PyStr.char_in c (PyStr.rstrip_by p s) = PyStr.char_in c s.
Proof.
  intros Hp. induction s as [|x s IH]; [reflexivity|].
  cbn [PyStr.rstrip_by]. rewrite char_in_cons, <- IH.
  destruct (PyStr.rstrip_by p s) as [|y r]; [|reflexivity].
  destruct (p x) eqn:E; [|reflexivity].
  destruct (Ascii.eqb_spec c x) as [->|_]; [congruence | reflexivity].
Qed.

(** What [int] accepts holds only whitespace, signs, digits and
    underscores. *)
Lemma int_char_free (s : string) (z : Z) :
  PyStr.int_space c = false ->
  c <> "+"%char ->
  c <> "-"%char ->
  PyStr.int s = Some z ->
  char_free c s = true.
Proof.
  intros Hspace Hplus Hminus H. unfold char_free. apply negb_true_iff.
  rewrite <- (lstrip_by_char_in PyStr.int_space s Hspace).
  rewrite <- (rstrip_by_char_in PyStr.int_space _ Hspace).
  fold (PyStr.strip_by PyStr.int_space s). unfold PyStr.int in H.
  destruct (PyStr.strip_by PyStr.int_space s) as [|x r].
  { reflexivity. }
  destruct (Ascii.eqb_spec x "+") as [->|Hx1].
  { rewrite char_in_cons. destruct (Ascii.eqb_spec c "+"); [contradiction|].
    apply (int_unsigned_char_free r z H). }
  destruct (Ascii.eqb_spec x "-") as [->|Hx2].
  { rewrite char_in_cons. destruct (Ascii.eqb_spec c "-"); [contradiction|].
    destruct (PyStr.int_unsigned r) as [v|] eqn:E; [|discriminate].
    apply (int_unsigned_char_free r v E). }
  assert (PyStr.int_unsigned (String x r) = Some z) as H'.
  { destruct x as [[] [] [] [] [] [] [] []]; try exact H; congruence. }
  apply (int_unsigned_char_free _ z H').
Qed.

End IntegerText.

Section CountedRuns.

Variable set : string.

Lemma all_of_app (a b : string) :
  all_of set (a +:+ b) = all_of set a && all_of set b.
Proof.
  unfold all_of. induction a as [|c a IH]; [reflexivity|].
  change (PyStr.char_in c set
          && forallb (fun c => PyStr.char_in c set)
               (list_ascii_of_string (a +:+ b))
          = PyStr.char_in c set
            && forallb (fun c => PyStr.char_in c set) (list_ascii_of_string a)
            && forallb (fun c => PyStr.char_in c set) (list_ascii_of_string b)).
  rewrite IH. apply andb_assoc.
Qed.

Variable gen : M string.
Hypothesis Hgen :
  returns gen (fun c => String.length c = 1%nat /\ all_of set c = true).

Lemma append_times_all_of (n : nat) (result : string) (t : tape) :
  exists s t', append_times n gen result t = (Ok (result +:+ s), t')
               /\ String.length s = n /\ all_of set s = true.
Proof.
  revert result t. induction n as [|n IH]; intros result t; simpl.
  - exists "", t. rewrite string_app_nil_r. auto.
  - unfold bind. destruct (Hgen t) as (c & t1 & E & Hl & Hd). rewrite E.
    destruct (IH (result +:+ c) t1) as (s & t2 & E2 & Hl2 & Hd2).
    exists (c +:+ s), t2. rewrite E2, string_app_assoc.
    rewrite string_app_length, all_of_app, Hl, Hd, Hl2, Hd2. auto.
Qed.

(** A brace that holds one integer [n], after a construct whose sampler
    is [gen]: [n] outputs of [gen], and the cursor past the brace. *)
Lemma counted_run (pattern : string) (next_pos end_brace : nat) (n : Z)
    (result : string) (t : tape) :
  String.get next_pos pattern = Some "{"%char ->
  PyStr.find "}" pattern next_pos = Some end_brace ->
  PyStr.contains "," (PyStr.slice pattern (next_pos + 1) end_brace) = false ->
  PyStr.int (PyStr.slice pattern (next_pos + 1) end_brace) = Some n ->
  exists s t',
    (let* '(repetition, i') := quantifier_after pattern next_pos in
     let* result' := append_times (range_len repetition) gen result in
     ret (i', result')) t
    = (Ok (S end_brace, result +:+ s), t')
    /\ String.length s = Z.to_nat n /\ all_of set s = true.
Proof.
  intros Hbrace Hend Hcomma Hint. unfold bind at 1.
  rewrite (quantifier_after_brace pattern next_pos end_brace n t t
             Hbrace Hend (brace_repetition_fixed _ n t Hcomma Hint)).
  cbv iota.
  destruct (append_times_all_of (range_len n) result t)
    as (s & t' & E & Hl & Hs).
  exists s, t'. unfold bind. rewrite E. auto.
Qed.

End CountedRuns.

Section LettersThenDigits.

Lemma uppercase_sampler :
  returns (_generate_char_from_class "A-Z")
          (fun c => String.length c = 1%nat
                    /\ all_of PyStr.ascii_uppercase c = true).
Proof.
  change (_generate_char_from_class "A-Z")
    with (choice (PyStr.chars PyStr.ascii_uppercase)).
  eapply returns_weaken; [apply choice_in; discriminate|].
  intros c Hin. cbv beta in Hin. simpl in Hin.
  repeat (destruct Hin as [<- | Hin]; [split; reflexivity|]).
  contradiction.
Qed.

Lemma digit_sampler :
  returns random_digit
          (fun c => String.length c = 1%nat /\ all_of PyStr.digits c = true).
Proof. exact random_digit_is_digit. Qed.

Variables (sn sm : string) (n m : Z).
Hypothesis Hn : PyStr.int sn = Some n.
Hypothesis Hm : PyStr.int sm = Some m.

(** The positions of the pattern ["[A-Z]{sn}\d{sm}"]. *)
Lemma letters_digits_positions :
  let pattern := "[A-Z]{" +:+ sn +:+ "}\d{" +:+ sm +:+ "}" in
  let e1 := (6 + String.length sn)%nat in
  let e2 := (S e1 + 3 + String.length sm)%nat in
  PyStr.find "}" pattern 5 = Some e1
  /\ PyStr.slice pattern 6 e1 = sn
  /\ PyStr.slice pattern (S e1) (S e1 + 2) = "\d"
  /\ String.get (S e1 + 2) pattern = Some "{"%char
  /\ PyStr.find "}" pattern (S e1 + 2) = Some e2
  /\ PyStr.slice pattern (S e1 + 2 + 1) e2 = sm
  /\ PyStr.len pattern = S e2.
Proof.
  assert (char_free "}" (String "{" sn) = true) as Fn
    by (apply (int_char_free "}" eq_refl ltac:(discriminate) sn n);
        [reflexivity | discriminate | discriminate | exact Hn]).
  assert (char_free "}" (String "{" sm) = true) as Fm
    by (apply (int_char_free "}" eq_refl ltac:(discriminate) sm m);
        [reflexivity | discriminate | discriminate | exact Hm]).
  cbv zeta. unfold PyStr.find, PyStr.slice, PyStr.len.
  set (rest := "\d{" +:+ sm +:+ "}").
  assert (forall k, (S (6 + String.length sn) + k
                     = 6 + (String.length sn + S k))%nat) as Hk by (intros; lia).
  repeat split.
  - change (index (String.length "[A-Z]" + 0) "}"
              ("[A-Z]" +:+ (String "{" sn +:+ String "}" rest))
            = Some (6 + String.length sn)%nat).
    rewrite index_app_skip, (index_char_first (String "{" sn) rest "}" Fn).
    reflexivity.
  - replace (6 + String.length sn - 6)%nat with (String.length sn) by lia.
    change (substring 0 (String.length sn) (sn +:+ String "}" rest) = sn).
    apply substring_app_prefix.
  - replace (S (6 + String.length sn) + 2 - S (6 + String.length sn))%nat
      with 2%nat by lia.
    replace (S (6 + String.length sn)) with (6 + (String.length sn + 1))%nat by lia.
    change (substring (String.length sn + 1) 2 (sn +:+ String "}" rest) = "\d").
    rewrite substring_app_skip. unfold rest. destruct sm; reflexivity.
  - rewrite Hk.
    change (String.get (String.length sn + 3) (sn +:+ String "}" rest)
            = Some "{"%char).
    rewrite get_app_skip. reflexivity.
  - replace (S (6 + String.length sn) + 2)%nat
      with (String.length ("[A-Z]{" +:+ sn) + 3)%nat
      by (change (String.length ("[A-Z]{" +:+ sn)) with (6 + String.length sn)%nat;
          lia).
    change (index (String.length ("[A-Z]{" +:+ sn) + 3) "}"
              (("[A-Z]{" +:+ sn) +:+ String "}" rest)
            = Some (S (6 + String.length sn) + 3 + String.length sm)%nat).
    rewrite index_app_skip.
    change (index 3 "}" (String "}" rest))
      with (index (String.length "}\d" + 0) "}"
              ("}\d" +:+ (String "{" sm +:+ String "}" ""))).
    rewrite index_app_skip, (index_char_first (String "{" sm) "" "}" Fm).
    cbn [option_map]. f_equal.
    change (String.length ("[A-Z]{" +:+ sn)) with (6 + String.length sn)%nat.
    change (String.length "}\d") with 3%nat.
    change (String.length (String "{" sm)) with (S (String.length sm)). lia.
  - replace (S (6 + String.length sn) + 3 + String.length sm
             - (S (6 + String.length sn) + 2 + 1))%nat
      with (String.length sm) by lia.
    replace (S (6 + String.length sn) + 2 + 1)%nat
      with (6 + (String.length sn + 4))%nat by lia.
    change (substring (String.length sn + 4) (String.length sm)
              (sn +:+ String "}" rest) = sm).
    rewrite substring_app_skip.
    change (substring 0 (String.length sm) (sm +:+ "}") = sm).
    apply substring_app_prefix.
  - change (S (S (S (S (S (S (String.length (sn +:+ String "}" rest)))))))
            = S (S (6 + String.length sn) + 3 + String.length sm)).
    rewrite string_app_length. unfold rest.
    change (String.length (String "}" ("\d{" +:+ sm +:+ "}")))
      with (S (S (S (S (String.length (sm +:+ "}")))))).
    rewrite string_app_length. simpl. lia.
Qed.

End LettersThenDigits.

(** X15.  The pattern of the docstring, [n] letters followed by [m]
    digits: for a pattern that is ["[A-Z]{n}\d{m}"] once its anchors are
    stripped, where the texts in the braces are integers [n] and [m], the
    function returns [n] uppercase ASCII letters followed by [m] decimal
    digits (none of a kind whose count is zero or negative). *)
Theorem letters_then_digits :
  forall (regex_pattern sn sm : string) (n m : Z) (t : tape),
    PyStr.strip_chars "^$" regex_pattern
    = "[A-Z]{" +:+ sn +:+ "}\d{" +:+ sm +:+ "}" ->
    PyStr.int sn = Some n ->
    PyStr.int sm = Some m ->
    exists letters digits t',
      generate_value_from_regex regex_pattern t = (Ok (letters +:+ digits), t')
      /\ String.length letters = Z.to_nat n
      /\ all_of PyStr.ascii_uppercase letters = true
      /\ String.length digits = Z.to_nat m
      /\ all_digits digits = true.
Proof.
  intros regex_pattern sn sm n m t Hstrip Hn Hm.
  unfold generate_value_from_regex. cbv zeta. rewrite Hstrip.
  destruct (letters_digits_positions sn sm n m Hn Hm)
    as (F1 & S1 & D & B2 & F2 & S2 & L).
  cbv zeta in F1, S1, D, B2, F2, S2, L.
  assert (PyStr.contains "," sn = false) as Cn.
  { rewrite contains_char_in. apply negb_true_iff.
    apply (int_char_free "," eq_refl ltac:(discriminate) sn n);
      [reflexivity | discriminate | discriminate | exact Hn]. }
  assert (PyStr.contains "," sm = false) as Cm.
  { rewrite contains_char_in. apply negb_true_iff.
    apply (int_char_free "," eq_refl ltac:(discriminate) sm m);
      [reflexivity | discriminate | discriminate | exact Hm]. }
  assert (String.get 0 ("[A-Z]{" +:+ sn +:+ "}\d{" +:+ sm +:+ "}")
          = Some "["%char) as G0 by reflexivity.
  assert (PyStr.find "]" ("[A-Z]{" +:+ sn +:+ "}\d{" +:+ sm +:+ "}") 0
          = Some 4%nat) as Fb by reflexivity.
  assert (PyStr.slice ("[A-Z]{" +:+ sn +:+ "}\d{" +:+ sm +:+ "}") (0 + 1) 4
          = "A-Z") as Sc by reflexivity.
  assert (String.get 5 ("[A-Z]{" +:+ sn +:+ "}\d{" +:+ sm +:+ "}")
          = Some "{"%char) as B1 by reflexivity.
  remember ("[A-Z]{" +:+ sn +:+ "}\d{" +:+ sm +:+ "}") as pattern eqn:Hp.
  clear Hp Hstrip.
  set (e1 := (6 + String.length sn)%nat) in *.
  set (e2 := (S e1 + 3 + String.length sm)%nat) in *.
  rewrite (scan_fuel_irrelevant _ (S (S (S (PyStr.len pattern)))) pattern 0 "" t)
    by lia.
  (* the class *)
  rewrite scan_S.
  destruct (Nat.ltb_spec 0 (PyStr.len pattern)) as [_|]; [|lia].
  unfold bind at 1.
  rewrite (dispatch_unfold _ pattern 0 "" t _ G0).
  rewrite (escaped_dot_false_char pattern 0 _ G0) by discriminate.
  cbv zeta. change (String.eqb "[" "[") with true. cbv iota. rewrite Fb, Sc.
  change (4 + 1)%nat with 5%nat.
  rewrite <- S1 in Cn, Hn.
  destruct (counted_run PyStr.ascii_uppercase (_generate_char_from_class "A-Z")
              uppercase_sampler pattern 5 e1 n "" t B1 F1 Cn Hn)
    as (letters & t1 & E1 & Ll & Ul).
  rewrite E1. cbv iota beta.
  change ("" +:+ letters) with letters.
  (* the digits *)
  rewrite scan_S.
  destruct (Nat.ltb_spec (S e1) (PyStr.len pattern)) as [_|]; [|lia].
  unfold bind at 1.
  pose proof (slice_two_get pattern (S e1) _ _ D) as [Hb Hnext].
  rewrite (dispatch_unfold _ pattern (S e1) letters t1 _ Hb).
  rewrite (escaped_dot_false_next pattern (S e1)) by (rewrite Hnext; discriminate).
  cbv zeta. change (String.eqb "\" "[") with false. cbv iota.
  rewrite D. change (String.eqb "\d" "\d") with true. cbv iota.
  rewrite <- S2 in Cm, Hm.
  destruct (counted_run PyStr.digits random_digit digit_sampler
              pattern (S e1 + 2) e2 m letters t1 B2 F2 Cm Hm)
    as (digits & t2 & E2 & Ld & Dd).
  rewrite E2. cbv iota beta.
  rewrite scan_done by lia.
  exists letters, digits, t2. auto.
Qed.

Lemma letters_then_digits_witness :
  exists letters digits t',
    generate_value_from_regex "^[A-Z]{2}\d{3}$" [0; 1; 2; 3; 4]%nat
    = (Ok (letters +:+ digits), t')
    /\ String.length letters = Z.to_nat 2
    /\ all_of PyStr.ascii_uppercase letters = true
    /\ String.length digits = Z.to_nat 3
    /\ all_digits digits = true.
Proof.
  apply (letters_then_digits "^[A-Z]{2}\d{3}$" "2" "3" 2 3 [0; 1; 2; 3; 4]%nat);
    reflexivity.
Defined.

(** X16.  What [get_constraints_for_column] returns is never an empty
    list: a returned list has at least one value, and its values are
    exactly the entries of the column's value set that do not look like a
    column name; in particular none of them is blank. *)
Theorem constraints_are_real_values :
  forall (expectations column_name : PyVal) (kept : list string),
    get_constraints_for_column expectations column_name = Ok (Some kept) ->
    kept <> []
    /\ (forall v, In v kept -> blank v = false)
    /\ exists value_sets key values,
         extract_value_sets expectations = Ok value_sets
         /\ py_hash column_name = Ok key
         /\ value_sets !! key = Some values
         /\ (forall v, In v kept
                       <-> In v values /\ _looks_like_column_name v = false).
Proof.
  intros expectations column_name kept H.
  unfold get_constraints_for_column in H.
  destruct (extract_value_sets expectations) as [value_sets| |] eqn:Ev;
    try discriminate H.
  cbn [bindR] in H.
  destruct (py_hash column_name) as [key| |] eqn:Ek; try discriminate H.
  cbn [bindR] in H.
  destruct (value_sets !! key) as [values|] eqn:El; [|discriminate H].
  destruct (List.filter _ values) as [|v0 rest] eqn:Ef; [discriminate H|].
  inversion H; subst kept. clear H.
  assert (forall v, In v (v0 :: rest)
                    <-> In v values /\ _looks_like_column_name v = false) as Hin.
  { intros v. rewrite <- Ef, filter_In, negb_true_iff. reflexivity. }
  split; [discriminate|]. split.
  - intros v Hv. apply Hin in Hv. destruct Hv as [_ Hv].
    destruct (blank v) eqn:Eb; [|reflexivity].
    assert (_looks_like_column_name v = true) as Ht
      by (apply looks_like_column_name_iff; left; exact Eb).
    congruence.
  - exists value_sets, key, values. auto.
Qed.

Lemma constraints_are_real_values_witness :
  ["A"; "B"] <> []
  /\ (forall v, In v ["A"; "B"] -> blank v = false)
  /\ exists value_sets key values,
       extract_value_sets
         (PDict (suite_of
                   [PDict (rule_of "expect_column_values_to_be_in_set" "value_set"
                                   (PStr "Status")
                                   (PList [PStr "A"; PStr "DATE"; PStr "B"]))]))
       = Ok value_sets
       /\ py_hash (PStr "Status") = Ok key
       /\ value_sets !! key = Some values
       /\ (forall v, In v ["A"; "B"]
                     <-> In v values /\ _looks_like_column_name v = false).
Proof.
  apply (constraints_are_real_values
           (PDict (suite_of
                     [PDict (rule_of "expect_column_values_to_be_in_set" "value_set"
                                     (PStr "Status")
                                     (PList [PStr "A"; PStr "DATE"; PStr "B"]))]))
           (PStr "Status") ["A"; "B"]).
  vm_compute. reflexivity.
Defined.
